(** * Habit heatmap: a shallow embedding of the parsing, scanning,
      configuration, range and appearance code, with its properties.

    The development follows the TypeScript sources:
    - [parser.ts]   : date headings, inline and checklist tokens, the
                      per-day accumulators and their resolution;
    - [scanner.ts]  : the parse cache keyed by path and mtime, the
                      aggregation over the files of a range;
    - [renderer.ts] : configuration normalisation, range resolution,
                      the date helpers, the colour policy, the
                      calendar grid and the navigation to a heading.

    JavaScript values are modelled as the engine has them:
    - a [number] is an IEEE 754 binary64 value ([spec_float] with
      precision 53 and maximal exponent 1024);
    - a string is a sequence of code units, here restricted to the
      units below 256 ([string] of [ascii]);
    - a [Map] or [Set] keyed by strings is a [gmap] or [gset]; no
      observation made by the code depends on insertion order;
    - a [Date] is a time value in milliseconds since the epoch, read
      and built in the local time zone of the host ([TimeZone]). *)

From Stdlib Require Import ZArith Ascii String List Lia Bool DecimalString.
From Corelib Require Import SpecFloat.
From stdpp Require Import gmap strings list fin_maps.

Local Open Scope string_scope.

(** ** Code units and the character classes of the patterns *)

Definition codeUnit (c : ascii) : N := N_of_ascii c.

Definition inRange (lo hi : N) (c : ascii) : bool :=
  ((lo <=? codeUnit c) && (codeUnit c <=? hi))%N.

(** [\d] *)
Definition isDigit (c : ascii) : bool := inRange 48 57 c.

(** [[a-z0-9_]] *)
Definition isHabitChar (c : ascii) : bool :=
  inRange 97 122 c || isDigit c || (codeUnit c =? 95)%N.

(** [\s], on the code units below 256: tab, line feed, vertical tab,
    form feed, carriage return, space and no-break space. *)
Definition isSpace (c : ascii) : bool :=
  inRange 9 13 c || (codeUnit c =? 32)%N || (codeUnit c =? 160)%N.

(** The units that [.] refuses. *)
Definition isLineTerminator (c : ascii) : bool :=
  (codeUnit c =? 10)%N || (codeUnit c =? 13)%N.

(** ** String helpers: the methods of [String.prototype] the code calls *)

Fixpoint strAll (p : ascii -> bool) (s : string) : bool :=
  match s with
  | EmptyString => true
  | String c r => p c && strAll p r
  end.

Fixpoint takeWhile (p : ascii -> bool) (s : string) : string :=
  match s with
  | EmptyString => EmptyString
  | String c r => if p c then String c (takeWhile p r) else EmptyString
  end.

Fixpoint dropWhile (p : ascii -> bool) (s : string) : string :=
  match s with
  | EmptyString => EmptyString
  | String c r => if p c then dropWhile p r else s
  end.

(** [stripPrefix p s] is the rest of [s] after the literal [p]. *)
Fixpoint stripPrefix (p s : string) : option string :=
  match p, s with
  | EmptyString, _ => Some s
  | String a p', String b s' =>
      if Ascii.eqb a b then stripPrefix p' s' else None
  | String _ _, EmptyString => None
  end.

Definition startsWith (s p : string) : bool :=
  match stripPrefix p s with Some _ => true | None => false end.

Fixpoint trimEnd (s : string) : string :=
  match s with
  | EmptyString => EmptyString
  | String c r =>
      match trimEnd r with
      | EmptyString => if isSpace c then EmptyString else String c EmptyString
      | r' => String c r'
      end
  end.

Definition trim (s : string) : string := trimEnd (dropWhile isSpace s).

Definition lowerUnit (c : ascii) : ascii :=
  if inRange 65 90 c
     || (inRange 192 222 c && negb (codeUnit c =? 215)%N)
  then ascii_of_N (codeUnit c + 32)
  else c.

Fixpoint toLowerCase (s : string) : string :=
  match s with
  | EmptyString => EmptyString
  | String c r => String (lowerUnit c) (toLowerCase r)
  end.

Fixpoint replaceUnit (from to : ascii) (s : string) : string :=
  match s with
  | EmptyString => EmptyString
  | String c r =>
      String (if Ascii.eqb c from then to else c) (replaceUnit from to r)
  end.

(** [s.split(sep)] for a one-unit separator: never empty. *)
Fixpoint splitOn (sep : ascii) (s : string) : list string :=
  match s with
  | EmptyString => [EmptyString]
  | String c r =>
      if Ascii.eqb c sep then EmptyString :: splitOn sep r
      else match splitOn sep r with
           | [] => [String c EmptyString]
           | h :: t => String c h :: t
           end
  end.

(** [content.split(/\r?\n/)]: a line ends at a line feed, and a carriage
    return right before that line feed belongs to the separator. *)
Fixpoint splitLines (s : string) : list string :=
  match s with
  | EmptyString => [EmptyString]
  | String c r =>
      if (codeUnit c =? 10)%N then EmptyString :: splitLines r
      else
        match r with
        | String c' r' =>
            if (codeUnit c =? 13)%N && (codeUnit c' =? 10)%N
            then EmptyString ::
                   match splitLines r with
                   | _ :: t => t
                   | [] => []
                   end
            else match splitLines r with
                 | [] => [String c EmptyString]
                 | h :: t => String c h :: t
                 end
        | EmptyString => [String c EmptyString]
        end
  end.

Definition padStart (n : nat) (fill : ascii) (s : string) : string :=
  string_of_list_ascii (List.repeat fill (n - String.length s)) ++ s.

(** [takeDigits n s]: exactly [n] digits at the head of [s] ([\d{n}]),
    with what follows them. *)
Fixpoint takeDigits (n : nat) (s : string) : option (string * string) :=
  match n with
  | O => Some (EmptyString, s)
  | S n' =>
      match s with
      | String c r =>
          if isDigit c then
            match takeDigits n' r with
            | Some (ds, rest) => Some (String c ds, rest)
            | None => None
            end
          else None
      | EmptyString => None
      end
  end.

(** ** Numbers

    [number] is binary64.  Integers that the code only ever holds
    exactly (years, months, days, line numbers, time values) are kept
    in [Z]. *)

Abbreviation number := spec_float.

Definition num_add : number -> number -> number := SFadd 53 1024.
Definition num_leb : number -> number -> bool := SFleb.
Definition num_gtb (x y : number) : bool := SFltb y x.

Definition numOfZ (z : Z) : number := binary_normalize 53 1024 z 0 false.

Definition Number_isNaN (x : number) : bool :=
  match x with S754_nan => true | _ => false end.

Definition Number_isFinite (x : number) : bool :=
  match x with
  | S754_zero _ | S754_finite _ _ _ => true
  | S754_infinity _ | S754_nan => false
  end.

(** The integer a finite number denotes, when it denotes one. *)
Definition numToZ (x : number) : option Z :=
  match x with
  | S754_zero _ => Some 0%Z
  | S754_finite s m e =>
      let v := if s then Zneg m else Zpos m in
      match e with
      | Z0 => Some v
      | Zpos p => Some (v * 2 ^ Zpos p)%Z
      | Zneg p =>
          if (v mod 2 ^ Zpos p =? 0)%Z then Some (v / 2 ^ Zpos p)%Z else None
      end
  | _ => None
  end.

Definition Number_isInteger (x : number) : bool :=
  match numToZ x with Some _ => true | None => false end.

(** [Math.round]: the nearest integral number, a tie going up; a
    result of zero keeps the sign of the argument. *)
Definition Math_round (x : number) : number :=
  match x with
  | S754_finite s m (Zneg p) =>
      let v := if s then Zneg m else Zpos m in
      let z := ((2 * v + 2 ^ Zpos p) / 2 ^ (Zpos p + 1))%Z in
      binary_normalize 53 1024 z 0 s
  | _ => x
  end.

Definition isNegZero (x : number) : bool :=
  match x with S754_zero true => true | _ => false end.

Definition Math_max (x y : number) : number :=
  match SFcompare x y with
  | None => S754_nan
  | Some Lt => y
  | Some Gt => x
  | Some Eq => if isNegZero x then y else x
  end.

Definition Math_min (x y : number) : number :=
  match SFcompare x y with
  | None => S754_nan
  | Some Lt => x
  | Some Gt => y
  | Some Eq => if isNegZero x then x else y
  end.

Definition digitVal (c : ascii) : Z := (Z.of_N (codeUnit c) - 48)%Z.

Fixpoint digitsVal (acc : Z) (s : string) : Z :=
  match s with
  | EmptyString => acc
  | String c r => digitsVal (10 * acc + digitVal c)%Z r
  end.

(** [Number(text)] for a text of decimal digits: the integer written. *)
Definition NumberOfDigits (s : string) : Z := digitsVal 0 s.

(** An optional minus sign, and what follows it. *)
Definition splitSign (s : string) : bool * string :=
  match s with
  | String c r => if (codeUnit c =? 45)%N then (true, r) else (false, s)
  | EmptyString => (false, s)
  end.

(** The shape [\d+(?:\.\d+)?] of a whole string: integer digits and
    fraction digits. *)
Definition unsignedShape (body : string) : option (string * string) :=
  match takeWhile isDigit body with
  | EmptyString => None
  | ip =>
      match dropWhile isDigit body with
      | EmptyString => Some (ip, EmptyString)
      | String c fp =>
          if (codeUnit c =? 46)%N && strAll isDigit fp
             && negb (String.length fp =? 0)%nat
          then Some (ip, fp)
          else None
      end
  end.

(** The shape [-?\d+(?:\.\d+)?] of a whole string: sign, integer digits
    and fraction digits. *)
Definition decimalShape (s : string) : option (bool * string * string) :=
  let '(neg, body) := splitSign s in
  match unsignedShape body with
  | Some (ip, fp) => Some (neg, ip, fp)
  | None => None
  end.

(** [Number(text)] on a decimal literal of the shape above: the
    binary64 value nearest to the decimal written (ties to even), an
    infinity past the largest finite value.  Texts of another shape go
    to [NaN]; the inline pattern never hands one over (see
    [matchInlineAt_value_shape]). *)
Definition NumberOfDecimal (s : string) : number :=
  match decimalShape s with
  | None => S754_nan
  | Some (neg, ip, fp) =>
      let m := digitsVal 0 (ip ++ fp) in
      let k := Z.of_nat (String.length fp) in
      if (m =? 0)%Z then S754_zero neg
      else
        let '(q, e, l) := SFdiv_core_binary 53 1024 m 0 (10 ^ k)%Z 0 in
        binary_round_aux 53 1024 neg q e l
  end.

(** [String(n)] and [`${n}`] for an integer [n]; [None] is [NaN]. *)
Definition StringOfZ (z : Z) : string := NilZero.string_of_int (Z.to_int z).

Definition StringOfInt (n : option Z) : string :=
  match n with Some z => StringOfZ z | None => "NaN" end.

(** ** Dates

    The time-value arithmetic of ECMAScript, on days and milliseconds.
    The host's time zone enters through [LocalTZA t isUTC], the offset
    in milliseconds between local time and UTC at the instant [t],
    given as a UTC time value ([isUTC = true]) or as a local one. *)

Class TimeZone := { LocalTZA : Z -> bool -> Z }.

Section DateArithmetic.
Local Open Scope Z_scope.

Definition msPerDay : Z := 86400000.

Definition Day (t : Z) : Z := t / msPerDay.

Definition isLeapYear (y : Z) : bool :=
  (y mod 4 =? 0) && (negb (y mod 100 =? 0) || (y mod 400 =? 0)).

Definition DaysInYear (y : Z) : Z := if isLeapYear y then 366 else 365.

Definition DayFromYear (y : Z) : Z :=
  365 * (y - 1970) + (y - 1969) / 4 - (y - 1901) / 100 + (y - 1601) / 400.

(** The year of a day number: the largest [y] with
    [DayFromYear y <= d], found through the 400, 100, 4 and 1 year
    cycles counted from 1 January of year 1. *)
Definition YearFromDay (d : Z) : Z :=
  let n := d + 719162 in
  let q400 := n / 146097 in
  let r400 := n mod 146097 in
  let q100 := Z.min (r400 / 36524) 3 in
  let r100 := r400 - q100 * 36524 in
  let q4 := r100 / 1461 in
  let r4 := r100 mod 1461 in
  let q1 := Z.min (r4 / 365) 3 in
  1 + 400 * q400 + 100 * q100 + 4 * q4 + q1.

Definition DayWithinYear (d : Z) : Z := d - DayFromYear (YearFromDay d).

(** First day, within its year, of the month [m] (0 to 11; 12 is the
    end of the year). *)
Definition monthStart (leap : bool) (m : Z) : Z :=
  let l := if leap then 1 else 0 in
  match m with
  | 0 => 0
  | 1 => 31
  | 2 => 59 + l
  | 3 => 90 + l
  | 4 => 120 + l
  | 5 => 151 + l
  | 6 => 181 + l
  | 7 => 212 + l
  | 8 => 243 + l
  | 9 => 273 + l
  | 10 => 304 + l
  | 11 => 334 + l
  | _ => 365 + l
  end.

Definition MonthFromDay (d : Z) : Z :=
  let leap := isLeapYear (YearFromDay d) in
  let w := DayWithinYear d in
  if w <? monthStart leap 1 then 0
  else if w <? monthStart leap 2 then 1
  else if w <? monthStart leap 3 then 2
  else if w <? monthStart leap 4 then 3
  else if w <? monthStart leap 5 then 4
  else if w <? monthStart leap 6 then 5
  else if w <? monthStart leap 7 then 6
  else if w <? monthStart leap 8 then 7
  else if w <? monthStart leap 9 then 8
  else if w <? monthStart leap 10 then 9
  else if w <? monthStart leap 11 then 10
  else 11.

Definition DateFromDay (d : Z) : Z :=
  DayWithinYear d
  - monthStart (isLeapYear (YearFromDay d)) (MonthFromDay d) + 1.

(** [MakeDay(year, month, date)]: months past December or before
    January carry into the year. *)
Definition MakeDay (year month date : Z) : Z :=
  let ym := year + month / 12 in
  let mn := month mod 12 in
  DayFromYear ym + monthStart (isLeapYear ym) mn + date - 1.

(** A [Date] object holds a time value or [NaN]. *)
Inductive Date := InvalidDate | TimeValue (t : Z).

Definition TimeClip (t : Z) : Date :=
  if Z.abs t >? 8640000000000000 then InvalidDate else TimeValue t.

Context {tz : TimeZone}.

Definition LocalTime (t : Z) : Z := t + LocalTZA t true.
Definition UTC (t : Z) : Z := t - LocalTZA t false.

(** [new Date(year, month, day)]: local midnight of that day; a year
    from 0 to 99 stands for 1900 + year. *)
Definition newDate (year month day : option Z) : Date :=
  match year, month, day with
  | Some y, Some m, Some d =>
      let yr := if (0 <=? y) && (y <=? 99) then 1900 + y else y in
      TimeClip (UTC (MakeDay yr m d * msPerDay))
  | _, _, _ => InvalidDate
  end.

(** The getters answer [None] for [NaN]. *)
Definition getTime (d : Date) : option Z :=
  match d with TimeValue t => Some t | InvalidDate => None end.

Definition getFullYear (d : Date) : option Z :=
  match d with
  | TimeValue t => Some (YearFromDay (Day (LocalTime t)))
  | InvalidDate => None
  end.

Definition getMonth (d : Date) : option Z :=
  match d with
  | TimeValue t => Some (MonthFromDay (Day (LocalTime t)))
  | InvalidDate => None
  end.

Definition getDate (d : Date) : option Z :=
  match d with
  | TimeValue t => Some (DateFromDay (Day (LocalTime t)))
  | InvalidDate => None
  end.

Definition optAdd (a : option Z) (b : Z) : option Z :=
  match a with Some x => Some (x + b) | None => None end.

(** [/^\d{4}-\d{2}-\d{2}$/] with the three texts of [value.split("-")]. *)
Definition isoShape (value : string) : option (string * string * string) :=
  match takeDigits 4 value with
  | Some (yearText, String c1 r1) =>
      if (codeUnit c1 =? 45)%N then
        match takeDigits 2 r1 with
        | Some (monthText, String c2 r2) =>
            if (codeUnit c2 =? 45)%N then
              match takeDigits 2 r2 with
              | Some (dayText, EmptyString) =>
                  Some (yearText, monthText, dayText)
              | _ => None
              end
            else None
        | _ => None
        end
      else None
  | _ => None
  end.

(** parser.ts, [normalizeIsoDate]. *)
Definition normalizeIsoDate (value : string) : option string :=
  match isoShape value with
  | None => None
  | Some (yearText, monthText, dayText) =>
      let year := NumberOfDigits yearText in
      let month := NumberOfDigits monthText in
      let day := NumberOfDigits dayText in
      let date := newDate (Some year) (Some (month - 1)) (Some day) in
      match getTime date with
      | None => None
      | Some _ =>
          if negb (bool_decide (getFullYear date = Some year))
             || negb (bool_decide (getMonth date = Some (month - 1)))
             || negb (bool_decide (getDate date = Some day))
          then None
          else Some (yearText ++ "-" ++ monthText ++ "-" ++ dayText)%string
      end
  end.

(** renderer.ts, [parseIsoDate]. *)
Definition parseIsoDate (date : string) : option Date :=
  match normalizeIsoDate date with
  | None => None
  | Some normalized =>
      let parts := List.map NumberOfDigits (splitOn "-" normalized) in
      Some (newDate (parts !! 0%nat)
                    (optAdd (parts !! 1%nat) (-1))
                    (parts !! 2%nat))
  end.

(** renderer.ts, [toIsoDate]. *)
Definition toIsoDate (date : Date) : string :=
  (StringOfInt (getFullYear date) ++ "-"
   ++ padStart 2 "0" (StringOfInt (optAdd (getMonth date) 1)) ++ "-"
   ++ padStart 2 "0" (StringOfInt (getDate date)))%string.

(** renderer.ts, [addDays]. *)
Definition addDays (date : Date) (days : Z) : Date :=
  newDate (getFullYear date) (getMonth date) (optAdd (getDate date) days).

(** renderer.ts, [dayDiffInclusive]; [None] is [NaN]. *)
Definition dayDiffInclusive (start end_ : Date) : option Z :=
  let startMidnight :=
    getTime (newDate (getFullYear start) (getMonth start) (getDate start)) in
  let endMidnight :=
    getTime (newDate (getFullYear end_) (getMonth end_) (getDate end_)) in
  match startMidnight, endMidnight with
  | Some s, Some e => Some ((e - s) / 86400000 + 1)
  | _, _ => None
  end.

(** The loop [for (let i = 0; i < total; i++)]: no turn when [total]
    is [NaN] or not positive. *)
Definition loopIndices (total : option Z) : list Z :=
  match total with
  | Some n => seqZ 0 n
  | None => []
  end.

(** renderer.ts, [enumerateDates]. *)
Definition enumerateDates (startIso endIso : string) : list string :=
  match parseIsoDate startIso, parseIsoDate endIso with
  | Some start, Some end_ =>
      match getTime start, getTime end_ with
      | Some ts, Some te =>
          if ts >? te then []
          else
            List.map (fun i => toIsoDate (addDays start i))
                     (loopIndices (dayDiffInclusive start end_))
      | _, _ =>
          List.map (fun i => toIsoDate (addDays start i))
                   (loopIndices (dayDiffInclusive start end_))
      end
  | _, _ => []
  end.

End DateArithmetic.

(** Hosts: a fixed offset all year, and a zone that moves its clocks
    forward by [shift] between the UTC instants [from] and [till]. *)
Definition fixedZone (offset : Z) : TimeZone :=
  {| LocalTZA := fun _ _ => offset |}.

Definition UTCZone : TimeZone := fixedZone 0.

Definition dstZone (standard shift from till : Z) : TimeZone :=
  {| LocalTZA := fun t isUTC =>
       let lo := if isUTC then from else (from + standard + shift)%Z in
       let hi := if isUTC then till else (till + standard + shift)%Z in
       if ((lo <=? t) && (t <? hi))%Z then (standard + shift)%Z else standard |}.

(** US Pacific time in 2024: UTC-8, and UTC-7 from 10 March 10:00 UTC
    to 3 November 09:00 UTC. *)
Definition pacific2024 : TimeZone :=
  dstZone (-28800000) 3600000 1710064800000 1730624400000.

(** ** The data model (types.ts)

    Each interface is a record in a module of its name, so that a field
    keeps the name it has in the source. *)

(** What the code reads of a [TFile]. *)
Record TFile := {
  path : string;
  basename : string;
  stat_mtime : Z
}.

#[global] Instance TFile_eq_dec : EqDecision TFile.
Proof. solve_decision. Defined.

Inductive ResolvedHabitValue :=
  | Numeric (value : number)
  | Boolean (value : bool).

Module DateAccumulator.
Record t := {
  numericSum : number;
  hasNumeric : bool;
  inlineTrue : bool;
  inlineFalse : bool;
  checklistTrue : bool;
  checklistFalse : bool
}.
End DateAccumulator.

Module ParsedFileData.
Record t := {
  file : TFile;
  valuesByDateHabit : gmap string (gmap string ResolvedHabitValue);
  headingLinesByDate : gmap string (list Z)
}.
End ParsedFileData.

Module RangeResolution.
Record t := {
  type : string;
  startDate : string;
  endDate : string;
  dates : list string
}.
End RangeResolution.

Module ScanCandidate.
Record t := {
  file : TFile;
  headingLine : Z;
  habitsWithData : gset string
}.
End ScanCandidate.

Module ScanResult.
Record t := {
  dates : list string;
  valuesByHabit : gmap string (gmap string ResolvedHabitValue);
  habitsFound : gset string;
  candidatesByDate : gmap string (list ScanCandidate.t);
  scannedFiles : list TFile
}.
End ScanResult.

(** A decoded configuration value, for the fields the code inspects
    at run time. *)
#[warnings="-register-all"]
Inductive json :=
  | JUndefined
  | JNull
  | JBool (b : bool)
  | JNum (n : number)
  | JStr (s : string)
  | JArr (items : list json)
  | JObj (fields : gmap string json).

Inductive HabitMode := ModeAuto | ModeList.
Inductive WeekStart := Monday | Sunday.
Inductive ThresholdKind := le | gt.

Module NumericThreshold.
Record t := { kind : ThresholdKind; value : number; color : string }.
End NumericThreshold.

(** [HeatmapBlockConfig]: every field optional; [None] is an absent
    (or null) field, [JUndefined] likewise where the field is a [json]. *)
Module HeatmapBlockConfig.
Record range_t := {
  type : option string;
  year : json;
  month : json;
  fromTitle : json
}.
Record boolean_t := {
  true_ : option string;
  false_ : option string
}.
Record numeric_t := {
  thresholds : option (list json)
}.
Record colors_t := {
  noData : option string;
  blankFuture : option string;
  boolean : option boolean_t;
  numeric : option numeric_t
}.
Record display_t := {
  title : option string;
  showLegend : option bool;
  cellSize : json;
  gap : json;
  weekStart : option string
}.
Record habits_t := {
  mode : option string;
  list : option (Datatypes.list string)
}.
Record t := {
  range : option range_t;
  habits : option habits_t;
  colors : option colors_t;
  display : option display_t
}.
End HeatmapBlockConfig.

Module NormalizedConfig.
Record range_t := {
  type : string;
  year : json;
  month : json;
  fromTitle : json
}.
Record boolean_t := {
  true_ : string;
  false_ : string
}.
Record numeric_t := {
  thresholds : list NumericThreshold.t
}.
Record colors_t := {
  noData : string;
  blankFuture : string;
  boolean : boolean_t;
  numeric : numeric_t
}.
Record display_t := {
  title : string;
  showLegend : bool;
  cellSize : number;
  gap : number;
  weekStart : WeekStart
}.
Record habits_t := {
  mode : HabitMode;
  list : Datatypes.list string
}.
Record t := {
  range : range_t;
  habits : habits_t;
  colors : colors_t;
  display : display_t
}.
End NormalizedConfig.

(** ** The parser (parser.ts) *)

(** *** The four patterns *)

(** [\d{4}\.\d{2}\.\d{2}] at the head of a string. *)
Definition takeDottedDate (s : string) : option (string * string) :=
  match takeDigits 4 s with
  | Some (y, String c1 r1) =>
      if (codeUnit c1 =? 46)%N then
        match takeDigits 2 r1 with
        | Some (m, String c2 r2) =>
            if (codeUnit c2 =? 46)%N then
              match takeDigits 2 r2 with
              | Some (d, rest) => Some (y ++ "." ++ m ++ "." ++ d, rest)
              | None => None
              end
            else None
        | _ => None
        end
      else None
  | _ => None
  end.

Definition isHash (c : ascii) : bool := (codeUnit c =? 35)%N.

(** [DATE_HEADING_PATTERN], [/^\s{0,3}#{1,6}\s+(\d{4}\.\d{2}\.\d{2})\s*$/]:
    the captured date.  Blanks, [#] and digits are disjoint classes, so
    each greedy run is the only way to match. *)
Definition matchDateHeading (line : string) : option string :=
  let indent := takeWhile isSpace line in
  let r1 := dropWhile isSpace line in
  let hashes := takeWhile isHash r1 in
  let r2 := dropWhile isHash r1 in
  let blanks := takeWhile isSpace r2 in
  let r3 := dropWhile isSpace r2 in
  if (String.length indent <=? 3)%nat
     && (1 <=? String.length hashes)%nat && (String.length hashes <=? 6)%nat
     && (1 <=? String.length blanks)%nat
  then
    match takeDottedDate r3 with
    | Some (d, rest) => if strAll isSpace rest then Some d else None
    | None => None
    end
  else None.

(** [habit-([a-z0-9_]+)] at the head of a string: the name, and what
    follows it. *)
Definition matchHabitNameAt (s : string) : option (string * string) :=
  match stripPrefix "habit-" s with
  | Some r =>
      match takeWhile isHabitChar r with
      | EmptyString => None
      | name => Some (name, dropWhile isHabitChar r)
      end
  | None => None
  end.

(** [\d+(?:\.\d+)?] at the head of a string: the digits, and a point
    with the digits after it when there are some. *)
Definition matchUnsignedAt (body : string) : option string :=
  match takeWhile isDigit body with
  | EmptyString => None
  | ip =>
      match dropWhile isDigit body with
      | String c r =>
          match takeWhile isDigit r with
          | EmptyString => Some ip
          | fp => if (codeUnit c =? 46)%N then Some (ip ++ "." ++ fp) else Some ip
          end
      | EmptyString => Some ip
      end
  end.

(** [-?\d+(?:\.\d+)?] at the head of a string. *)
Definition matchDecimalAt (s : string) : option string :=
  let '(neg, body) := splitSign s in
  match matchUnsignedAt body with
  | Some u => Some ((if neg then "-" else "") ++ u)
  | None => None
  end.

(** [(true|false|yes|no|-?\d+(?:\.\d+)?)] at the head of a string, the
    alternatives tried from left to right. *)
Definition matchInlineValueAt (s : string) : option string :=
  if startsWith s "true" then Some "true"
  else if startsWith s "false" then Some "false"
  else if startsWith s "yes" then Some "yes"
  else if startsWith s "no" then Some "no"
  else matchDecimalAt s.

(** One attempt of [INLINE_HABIT_PATTERN] at the head of a string: the
    two groups and the length of the match. *)
Definition matchInlineAt (s : string) : option (string * string * nat) :=
  match matchHabitNameAt s with
  | Some (name, r) =>
      match stripPrefix "::" r with
      | Some v =>
          match matchInlineValueAt v with
          | Some value =>
              Some (name, value,
                    (6 + String.length name + 2 + String.length value)%nat)
          | None => None
          end
      | None => None
      end
  | None => None
  end.

(** [line.matchAll(INLINE_HABIT_PATTERN)]: the search goes on after
    each match, and one unit further after a failed attempt. [skip]
    counts the units of the last match still to pass. *)
Fixpoint scanInline (skip : nat) (s : string) : list (string * string) :=
  match s with
  | EmptyString => []
  | String _ r =>
      match skip with
      | S k => scanInline k r
      | O =>
          match matchInlineAt s with
          | Some (name, value, len) => (name, value) :: scanInline (len - 1) r
          | None => scanInline 0 r
          end
      end
  end.

Definition matchAllInline (line : string) : list (string * string) :=
  scanInline 0 line.

(** [text.matchAll(CHECKLIST_HABIT_PATTERN)]: the names. *)
Fixpoint scanHabitNames (skip : nat) (s : string) : list string :=
  match s with
  | EmptyString => []
  | String _ r =>
      match skip with
      | S k => scanHabitNames k r
      | O =>
          match matchHabitNameAt s with
          | Some (name, _) =>
              name :: scanHabitNames (6 + String.length name - 1) r
          | None => scanHabitNames 0 r
          end
      end
  end.

Definition matchAllChecklistHabits (text : string) : list string :=
  scanHabitNames 0 text.

Fixpoint lastUnit (s : string) : option ascii :=
  match s with
  | EmptyString => None
  | String c EmptyString => Some c
  | String _ r => lastUnit r
  end.

(** [CHECKLIST_PATTERN], [/^\s*[-*]\s+\[( |x|X)\]\s+(.+)$/]: the mark
    and the text.  The last [\s+] takes every blank after the box; when
    nothing follows them it gives its last blank back to [(.+)]. *)
Definition matchChecklist (line : string) : option (ascii * string) :=
  match dropWhile isSpace line with
  | String bullet r1 =>
      if ((codeUnit bullet =? 45) || (codeUnit bullet =? 42))%N then
        match takeWhile isSpace r1, dropWhile isSpace r1 with
        | String _ _, String lb (String mark (String rb r2)) =>
            if ((codeUnit lb =? 91)
                && ((codeUnit mark =? 32) || (codeUnit mark =? 120)
                    || (codeUnit mark =? 88))
                && (codeUnit rb =? 93))%N
            then
              let blanks := takeWhile isSpace r2 in
              match dropWhile isSpace r2 with
              | EmptyString =>
                  match lastUnit blanks with
                  | Some c =>
                      if (2 <=? String.length blanks)%nat
                         && negb (isLineTerminator c)
                      then Some (mark, String c EmptyString)
                      else None
                  | None => None
                  end
              | text =>
                  if (1 <=? String.length blanks)%nat
                     && strAll (fun c => negb (isLineTerminator c)) text
                  then Some (mark, text)
                  else None
              end
            else None
        | _, _ => None
        end
      else None
  | EmptyString => None
  end.

(** [m.get(k1)?.get(k2)] on a map of maps. *)
Definition lookup2 {A} (m : gmap string (gmap string A)) (k1 k2 : string)
  : option A :=
  match m !! k1 with
  | Some inner => inner !! k2
  | None => None
  end.

(** *** Accumulators *)

Import DateAccumulator.

Definition freshAccumulator : DateAccumulator.t :=
  {| numericSum := S754_zero false; hasNumeric := false;
     inlineTrue := false; inlineFalse := false;
     checklistTrue := false; checklistFalse := false |}.

Abbreviation Accumulators := (gmap string (gmap string DateAccumulator.t)).

(** [getAccumulator]: the bucket of a date and habit, created and
    stored when it is not there yet. *)
Definition getAccumulator (accumulators : Accumulators) (date habit : string)
  : Accumulators * DateAccumulator.t :=
  let normalizedHabit := trim habit in
  let byHabit := default ∅ (accumulators !! date) in
  match byHabit !! normalizedHabit with
  | Some existing => (<[date := byHabit]> accumulators, existing)
  | None =>
      (<[date := <[normalizedHabit := freshAccumulator]> byHabit]> accumulators,
       freshAccumulator)
  end.

(** A write to a field of the bucket handed out by [getAccumulator]:
    the bucket is the object the map holds, so the map sees it. *)
Definition putAccumulator (accumulators : Accumulators) (date habit : string)
    (bucket : DateAccumulator.t) : Accumulators :=
  <[date := <[trim habit := bucket]> (default ∅ (accumulators !! date))]>
    accumulators.

Definition setInlineTrue (b : DateAccumulator.t) : DateAccumulator.t :=
  {| numericSum := numericSum b; hasNumeric := hasNumeric b;
     inlineTrue := true; inlineFalse := inlineFalse b;
     checklistTrue := checklistTrue b; checklistFalse := checklistFalse b |}.

Definition setInlineFalse (b : DateAccumulator.t) : DateAccumulator.t :=
  {| numericSum := numericSum b; hasNumeric := hasNumeric b;
     inlineTrue := inlineTrue b; inlineFalse := true;
     checklistTrue := checklistTrue b; checklistFalse := checklistFalse b |}.

Definition addNumeric (numeric : number) (b : DateAccumulator.t)
  : DateAccumulator.t :=
  {| numericSum := num_add (numericSum b) numeric; hasNumeric := true;
     inlineTrue := inlineTrue b; inlineFalse := inlineFalse b;
     checklistTrue := checklistTrue b; checklistFalse := checklistFalse b |}.

Definition setChecklistTrue (b : DateAccumulator.t) : DateAccumulator.t :=
  {| numericSum := numericSum b; hasNumeric := hasNumeric b;
     inlineTrue := inlineTrue b; inlineFalse := inlineFalse b;
     checklistTrue := true; checklistFalse := checklistFalse b |}.

Definition setChecklistFalse (b : DateAccumulator.t) : DateAccumulator.t :=
  {| numericSum := numericSum b; hasNumeric := hasNumeric b;
     inlineTrue := inlineTrue b; inlineFalse := inlineFalse b;
     checklistTrue := checklistTrue b; checklistFalse := true |}.

(** The body of the loop of [extractInlineTokens], for one match. *)
Definition inlineTokenStep (activeDate : string) (accumulators : Accumulators)
    (m : string * string) : Accumulators :=
  let habit := trim (fst m) in
  let rawValue := toLowerCase (trim (snd m)) in
  if (String.length habit =? 0)%nat then accumulators
  else
    let '(accumulators, bucket) := getAccumulator accumulators activeDate habit in
    if String.eqb rawValue "true" || String.eqb rawValue "yes" then
      putAccumulator accumulators activeDate habit (setInlineTrue bucket)
    else if String.eqb rawValue "false" || String.eqb rawValue "no" then
      putAccumulator accumulators activeDate habit (setInlineFalse bucket)
    else
      let numeric := NumberOfDecimal rawValue in
      if Number_isFinite numeric then
        putAccumulator accumulators activeDate habit (addNumeric numeric bucket)
      else accumulators.

Definition extractInlineTokens (line activeDate : string)
    (accumulators : Accumulators) : Accumulators :=
  fold_left (inlineTokenStep activeDate) (matchAllInline line) accumulators.

Definition checklistTokenStep (checked : bool) (activeDate : string)
    (accumulators : Accumulators) (m : string) : Accumulators :=
  let habit := trim m in
  if (String.length habit =? 0)%nat then accumulators
  else
    let '(accumulators, bucket) := getAccumulator accumulators activeDate habit in
    if checked then
      putAccumulator accumulators activeDate habit (setChecklistTrue bucket)
    else
      putAccumulator accumulators activeDate habit (setChecklistFalse bucket).

Definition extractChecklistTokens (line activeDate : string)
    (accumulators : Accumulators) : Accumulators :=
  match matchChecklist line with
  | None => accumulators
  | Some (mark, text) =>
      let checked := String.eqb (toLowerCase (String mark EmptyString)) "x" in
      fold_left (checklistTokenStep checked activeDate)
                (matchAllChecklistHabits text) accumulators
  end.

(** Merge rule for boolean values within one day. *)
Definition resolveBoolean (acc : DateAccumulator.t) : option bool :=
  if inlineTrue acc then Some true
  else if checklistTrue acc then Some true
  else if checklistFalse acc then Some false
  else if inlineFalse acc then Some false
  else None.

Definition resolveAccumulator (accumulator : DateAccumulator.t)
  : option ResolvedHabitValue :=
  if hasNumeric accumulator then Some (Numeric (numericSum accumulator))
  else
    match resolveBoolean accumulator with
    | Some bool => Some (Boolean bool)
    | None => None
    end.

(** [resolveAccumulators]: a habit without a value is left out, and so
    is a date left without habits. *)
Definition resolveAccumulators (accumulators : Accumulators)
  : gmap string (gmap string ResolvedHabitValue) :=
  omap (fun habits : gmap string DateAccumulator.t =>
          let resolvedByHabit := omap resolveAccumulator habits in
          if (0 <? size resolvedByHabit)%nat then Some resolvedByHabit else None)
       accumulators.

Section Parser.
Context {tz : TimeZone}.

Definition headingToIso (heading : string) : string :=
  replaceUnit "." "-" heading.

Definition parseDateHeading (line : string) : option string :=
  match matchDateHeading line with
  | None => None
  | Some d => normalizeIsoDate (headingToIso d)
  end.

(** The state of the loop over the lines. *)
Record ParseState := {
  activeDate : option string;
  accumulators : Accumulators;
  headingLines : gmap string (list Z)
}.

(** One turn of the loop, for the line at [index]. *)
Definition parseLine (st : ParseState) (indexed : Z * string) : ParseState :=
  let '(index, line) := indexed in
  match parseDateHeading line with
  | Some heading =>
      let entries := default [] (headingLines st !! heading) in
      {| activeDate := Some heading;
         accumulators := accumulators st;
         headingLines :=
           <[heading := (entries ++ [(index + 1)%Z])%list]> (headingLines st) |}
  | None =>
      match activeDate st with
      | None => st
      | Some date =>
          {| activeDate := activeDate st;
             accumulators :=
               extractChecklistTokens line date
                 (extractInlineTokens line date (accumulators st));
             headingLines := headingLines st |}
      end
  end.

Definition indexed {A} (l : list A) : list (Z * A) :=
  List.combine (seqZ 0 (Z.of_nat (List.length l))) l.

Definition parseMarkdownHabits (f : TFile) (content : string)
  : ParsedFileData.t :=
  let lines := splitLines content in
  let final :=
    fold_left parseLine (indexed lines)
      {| activeDate := None; accumulators := ∅; headingLines := ∅ |} in
  {| ParsedFileData.file := f;
     ParsedFileData.valuesByDateHabit :=
       resolveAccumulators (accumulators final);
     ParsedFileData.headingLinesByDate := headingLines final |}.

End Parser.

(** ** The scanner (scanner.ts) *)

(** An object the program allocates: its identity and its content.
    Two references are to the same object when the addresses agree. *)
Record Ref (A : Type) := { address : nat; content : A }.
Arguments address {A} _.
Arguments content {A} _.

Module CacheEntry.
Record t := {
  mtime : Z;
  parsed : Ref ParsedFileData.t
}.
End CacheEntry.

Module AggregateBucket.
Record t := {
  numericSum : number;
  hasNumeric : bool;
  boolTrue : bool;
  boolFalse : bool
}.
End AggregateBucket.

(** The host side of [app.vault]: the markdown files and their text. *)
Record Vault := {
  getMarkdownFiles : list TFile;
  cachedRead : TFile -> string
}.

(** The state of a [HabitScanner]: its cache, and two ghost fields
    recording what it has done, the number of [ParsedFileData] objects
    built so far and the paths handed to [cachedRead], oldest first. *)
Record HabitScanner := {
  cache : gmap string CacheEntry.t;
  allocated : nat;
  reads : list string
}.

Definition newScanner : HabitScanner :=
  {| cache := ∅; allocated := 0; reads := [] |}.

Definition invalidatePath (path : string) (this : HabitScanner) : HabitScanner :=
  {| cache := delete path (cache this);
     allocated := allocated this; reads := reads this |}.

Definition clear (this : HabitScanner) : HabitScanner :=
  {| cache := ∅; allocated := allocated this; reads := reads this |}.

Fixpoint parentPathOpt (p : string) : option string :=
  match p with
  | EmptyString => None
  | String c r =>
      match parentPathOpt r with
      | Some d => Some (String c d)
      | None => if (codeUnit c =? 47)%N then Some EmptyString else None
      end
  end.

Definition getParentPath (p : string) : string :=
  default EmptyString (parentPathOpt p).

Definition shouldIgnoreFile (p : string) : bool :=
  existsb (fun segment => String.eqb (toLowerCase segment) "templates")
          (splitOn "/" p).

Section Scanner.
Context {tz : TimeZone}.
Variable vault : Vault.

Definition getFilesForRange (currentFile : TFile) (type : string)
  : list TFile :=
  if String.eqb type "week" then
    if shouldIgnoreFile (path currentFile) then [] else [currentFile]
  else
    let allMarkdown :=
      List.filter (fun f => negb (shouldIgnoreFile (path f)))
                  (getMarkdownFiles vault) in
    let dir := getParentPath (path currentFile) in
    if String.eqb type "month" then
      List.filter (fun f => String.eqb (getParentPath (path f)) dir) allMarkdown
    else
      List.filter
        (fun f =>
           let fileDir := getParentPath (path f) in
           String.eqb fileDir dir || startsWith fileDir (dir ++ "/"))
        allMarkdown.

Definition getParsedFile (this : HabitScanner) (f : TFile)
  : HabitScanner * Ref ParsedFileData.t :=
  let miss :=
    let content := cachedRead vault f in
    let parsed :=
      {| address := allocated this;
         content := parseMarkdownHabits f content |} in
    ({| cache :=
          <[path f := {| CacheEntry.mtime := stat_mtime f;
                         CacheEntry.parsed := parsed |}]> (cache this);
        allocated := S (allocated this);
        reads := (reads this ++ [path f])%list |},
     parsed) in
  match cache this !! path f with
  | Some cached =>
      if (CacheEntry.mtime cached =? stat_mtime f)%Z
      then (this, CacheEntry.parsed cached)
      else miss
  | None => miss
  end.

(** What [scan] builds while it goes through the files. *)
Record ScanState := {
  aggregates : gmap string (gmap string AggregateBucket.t);
  candidates : gmap string (list ScanCandidate.t);
  found : gset string
}.

Definition freshBucket : AggregateBucket.t :=
  {| AggregateBucket.numericSum := S754_zero false;
     AggregateBucket.hasNumeric := false;
     AggregateBucket.boolTrue := false;
     AggregateBucket.boolFalse := false |}.

Definition foldValue (v : ResolvedHabitValue) (bucket : AggregateBucket.t)
  : AggregateBucket.t :=
  match v with
  | Numeric n =>
      {| AggregateBucket.numericSum :=
           num_add (AggregateBucket.numericSum bucket) n;
         AggregateBucket.hasNumeric := true;
         AggregateBucket.boolTrue := AggregateBucket.boolTrue bucket;
         AggregateBucket.boolFalse := AggregateBucket.boolFalse bucket |}
  | Boolean true =>
      {| AggregateBucket.numericSum := AggregateBucket.numericSum bucket;
         AggregateBucket.hasNumeric := AggregateBucket.hasNumeric bucket;
         AggregateBucket.boolTrue := true;
         AggregateBucket.boolFalse := AggregateBucket.boolFalse bucket |}
  | Boolean false =>
      {| AggregateBucket.numericSum := AggregateBucket.numericSum bucket;
         AggregateBucket.hasNumeric := AggregateBucket.hasNumeric bucket;
         AggregateBucket.boolTrue := AggregateBucket.boolTrue bucket;
         AggregateBucket.boolFalse := true |}
  end.

(** The first inner loop: one candidate per heading date in range. *)
Definition candidateStep (f : TFile) (parsed : ParsedFileData.t)
    (dateSet : gset string) (date : string) (lines : list Z)
    (candidatesByDate : gmap string (list ScanCandidate.t))
  : gmap string (list ScanCandidate.t) :=
  if bool_decide (date ∈ dateSet) then
    let habits : gset string :=
      match ParsedFileData.valuesByDateHabit parsed !! date with
      | Some dateValues => dom dateValues
      | None => ∅
      end in
    let line := default 1%Z (head lines) in
    let existing := default [] (candidatesByDate !! date) in
    <[date := (existing ++
               [{| ScanCandidate.file := f;
                   ScanCandidate.headingLine := line;
                   ScanCandidate.habitsWithData := habits |}])%list]>
      candidatesByDate
  else candidatesByDate.

(** The body of the innermost loop: one value of one habit. *)
Definition valueStep (date habit : string) (v : ResolvedHabitValue)
    (st : ScanState) : ScanState :=
  let byDate := default ∅ (aggregates st !! habit) in
  let bucket := default freshBucket (byDate !! date) in
  {| aggregates :=
       <[habit := <[date := foldValue v bucket]> byDate]> (aggregates st);
     candidates := candidates st;
     found := {[habit]} ∪ found st |}.

(** The second inner loop: the dates outside the range are passed
    over before any of their habits is looked at. *)
Definition dateStep (dateSet : gset string) (date : string)
    (valuesByHabit : gmap string ResolvedHabitValue) (st : ScanState)
  : ScanState :=
  if bool_decide (date ∈ dateSet) then
    map_fold (valueStep date) st valuesByHabit
  else st.

Definition scanFile (dateSet : gset string)
    (acc : HabitScanner * ScanState) (f : TFile)
  : HabitScanner * ScanState :=
  let '(this, st) := acc in
  let '(this, parsedRef) := getParsedFile this f in
  let parsed := content parsedRef in
  let st :=
    {| aggregates := aggregates st;
       candidates :=
         map_fold (candidateStep f parsed dateSet) (candidates st)
                  (ParsedFileData.headingLinesByDate parsed);
       found := found st |} in
  (this,
   map_fold (dateStep dateSet) st (ParsedFileData.valuesByDateHabit parsed)).

Definition resolveBucket (bucket : AggregateBucket.t)
  : option ResolvedHabitValue :=
  if AggregateBucket.hasNumeric bucket
  then Some (Numeric (AggregateBucket.numericSum bucket))
  else if AggregateBucket.boolTrue bucket then Some (Boolean true)
  else if AggregateBucket.boolFalse bucket then Some (Boolean false)
  else None.

Definition scan (this : HabitScanner) (currentFile : TFile)
    (range : RangeResolution.t) : HabitScanner * ScanResult.t :=
  let files := getFilesForRange currentFile (RangeResolution.type range) in
  let dateSet : gset string := list_to_set (RangeResolution.dates range) in
  let '(this, st) :=
    fold_left (scanFile dateSet) files
      (this, {| aggregates := ∅; candidates := ∅; found := ∅ |}) in
  (this,
   {| ScanResult.dates := RangeResolution.dates range;
      ScanResult.valuesByHabit :=
        fmap (M:=gmap string)
             (fun byDate : gmap string AggregateBucket.t =>
                omap resolveBucket byDate)
             (aggregates st);
      ScanResult.habitsFound := found st;
      ScanResult.candidatesByDate := candidates st;
      ScanResult.scannedFiles := files |}).

End Scanner.

(** ** Configuration, range and appearance (renderer.ts) *)

Inductive Result (A : Type) :=
  | Ok (value : A)
  | Failed (errors : list string).
Arguments Ok {A} _.
Arguments Failed {A} _.

Definition defaultThresholds : list NumericThreshold.t :=
  [ {| NumericThreshold.kind := le; NumericThreshold.value := numOfZ 0;
       NumericThreshold.color := "#111827" |};
    {| NumericThreshold.kind := le; NumericThreshold.value := numOfZ 10;
       NumericThreshold.color := "#1f2937" |};
    {| NumericThreshold.kind := le; NumericThreshold.value := numOfZ 25;
       NumericThreshold.color := "#374151" |};
    {| NumericThreshold.kind := le; NumericThreshold.value := numOfZ 50;
       NumericThreshold.color := "#4b5563" |};
    {| NumericThreshold.kind := gt; NumericThreshold.value := numOfZ 50;
       NumericThreshold.color := "#6b7280" |} ].

Definition DEFAULT_CONFIG : NormalizedConfig.t :=
  {| NormalizedConfig.range :=
       {| NormalizedConfig.type := "week";
          NormalizedConfig.year := JUndefined;
          NormalizedConfig.month := JUndefined;
          NormalizedConfig.fromTitle := JBool true |};
     NormalizedConfig.habits :=
       {| NormalizedConfig.mode := ModeAuto; NormalizedConfig.list := [] |};
     NormalizedConfig.colors :=
       {| NormalizedConfig.noData := "#2b2b2b";
          NormalizedConfig.blankFuture := "transparent";
          NormalizedConfig.boolean :=
            {| NormalizedConfig.true_ := "#22c55e";
               NormalizedConfig.false_ := "#ef4444" |};
          NormalizedConfig.numeric :=
            {| NormalizedConfig.thresholds := defaultThresholds |} |};
     NormalizedConfig.display :=
       {| NormalizedConfig.title := "";
          NormalizedConfig.showLegend := true;
          NormalizedConfig.cellSize := numOfZ 12;
          NormalizedConfig.gap := numOfZ 2;
          NormalizedConfig.weekStart := Monday |} |}.

(** [/^[a-z0-9_]+$/] *)
Definition isLowerSnakeCase (value : string) : bool :=
  negb (String.length value =? 0)%nat && strAll isHabitChar value.

(** Property access on a decoded value: only an object has fields. *)
Definition getProp (v : json) (key : string) : json :=
  match v with
  | JObj fields => default JUndefined (fields !! key)
  | _ => JUndefined
  end.

(** The body of the loop of [normalizeThresholds], for one entry. *)
Definition normalizeThreshold (entry : json) : option NumericThreshold.t :=
  match entry with
  | JObj _ | JArr _ =>
      match getProp entry "color" with
      | JStr color =>
          if (String.length (trim color) =? 0)%nat then None
          else
            match getProp entry "le" with
            | JNum bound =>
                Some {| NumericThreshold.kind := le;
                        NumericThreshold.value := bound;
                        NumericThreshold.color := color |}
            | _ =>
                match getProp entry "gt" with
                | JNum bound =>
                    Some {| NumericThreshold.kind := gt;
                            NumericThreshold.value := bound;
                            NumericThreshold.color := color |}
                | _ => None
                end
            end
      | _ => None
      end
  | _ => None
  end.

(** [normalizeThresholds input errors]: the thresholds, and the error
    list after the call. *)
Definition normalizeThresholds (input : list json) (errors : list string)
  : list NumericThreshold.t * list string :=
  let output := omap normalizeThreshold input in
  if (List.length output =? 0)%nat then
    (defaultThresholds,
     (errors ++
      ["colors.numeric.thresholds must include at least one valid threshold"])%list)
  else (output, errors).

Definition clampNumber (value : json) (min max fallback : number) : number :=
  match value with
  | JNum v =>
      if Number_isNaN v then fallback
      else Math_min max (Math_max min (Math_round v))
  | _ => fallback
  end.

(** [[...new Set(list)]]: the first occurrence of each element. *)
Fixpoint dedupeFrom (seen l : list string) : list string :=
  match l with
  | [] => []
  | x :: r =>
      if existsb (String.eqb x) seen then dedupeFrom seen r
      else x :: dedupeFrom (x :: seen) r
  end.

Fixpoint join (sep : string) (l : list string) : string :=
  match l with
  | [] => ""
  | [x] => x
  | x :: r => x ++ sep ++ join sep r
  end.

(** [value ?? fallback] on a decoded value. *)
Definition orElse (v fallback : json) : json :=
  match v with
  | JUndefined | JNull => fallback
  | _ => v
  end.

(** [o?.field] *)
Definition optChain {A B} (o : option A) (field : A -> option B) : option B :=
  match o with
  | Some a => field a
  | None => None
  end.

Infix "?." := optChain (at level 50, left associativity).

Definition pushIf (cond : bool) (message : string) (errors : list string)
  : list string :=
  if cond then (errors ++ [message])%list else errors.

Definition normalizeConfig (input : HeatmapBlockConfig.t)
  : Result NormalizedConfig.t :=
  let range := HeatmapBlockConfig.range input in
  let habits := HeatmapBlockConfig.habits input in
  let colors := HeatmapBlockConfig.colors input in
  let display := HeatmapBlockConfig.display input in
  let errors : list string := [] in
  let thresholdsInput :=
    default []
      (colors ?. HeatmapBlockConfig.numeric ?. HeatmapBlockConfig.thresholds) in
  let '(thresholds, errors) :=
    if (0 <? List.length thresholdsInput)%nat
    then normalizeThresholds thresholdsInput errors
    else (defaultThresholds, errors) in
  let list :=
    List.filter (fun habit => (0 <? String.length habit)%nat)
      (List.map trim (default [] (habits ?. HeatmapBlockConfig.list))) in
  let invalidListHabits :=
    List.filter (fun habit => negb (isLowerSnakeCase habit)) list in
  let mode := default "auto" (habits ?. HeatmapBlockConfig.mode) in
  let errors :=
    pushIf (negb (String.eqb mode "auto") && negb (String.eqb mode "list"))
      "habits.mode must be auto or list" errors in
  let errors :=
    pushIf (String.eqb mode "list" && (List.length list =? 0)%nat)
      "habits.list must include at least one habit when habits.mode=list"
      errors in
  let errors :=
    pushIf (0 <? List.length invalidListHabits)%nat
      ("habits.list contains invalid names (use lower_snake_case): "
       ++ join ", " invalidListHabits) errors in
  let config :=
    {| NormalizedConfig.range :=
         {| NormalizedConfig.type :=
              default "week" (range ?. HeatmapBlockConfig.type);
            NormalizedConfig.year :=
              from_option HeatmapBlockConfig.year JUndefined range;
            NormalizedConfig.month :=
              from_option HeatmapBlockConfig.month JUndefined range;
            NormalizedConfig.fromTitle :=
              orElse (from_option HeatmapBlockConfig.fromTitle JUndefined range)
                     (JBool true) |};
       NormalizedConfig.habits :=
         {| NormalizedConfig.mode :=
              if String.eqb mode "list" then ModeList else ModeAuto;
            NormalizedConfig.list := dedupeFrom [] list |};
       NormalizedConfig.colors :=
         {| NormalizedConfig.noData :=
              default "#2b2b2b" (colors ?. HeatmapBlockConfig.noData);
            NormalizedConfig.blankFuture :=
              default "transparent" (colors ?. HeatmapBlockConfig.blankFuture);
            NormalizedConfig.boolean :=
              {| NormalizedConfig.true_ :=
                   default "#22c55e"
                     (colors ?. HeatmapBlockConfig.boolean
                             ?. HeatmapBlockConfig.true_);
                 NormalizedConfig.false_ :=
                   default "#ef4444"
                     (colors ?. HeatmapBlockConfig.boolean
                             ?. HeatmapBlockConfig.false_) |};
            NormalizedConfig.numeric :=
              {| NormalizedConfig.thresholds := thresholds |} |};
       NormalizedConfig.display :=
         {| NormalizedConfig.title :=
              default "" (display ?. HeatmapBlockConfig.title);
            NormalizedConfig.showLegend :=
              default true (display ?. HeatmapBlockConfig.showLegend);
            NormalizedConfig.cellSize :=
              clampNumber
                (from_option HeatmapBlockConfig.cellSize JUndefined display)
                (numOfZ 6) (numOfZ 30) (numOfZ 12);
            NormalizedConfig.gap :=
              clampNumber
                (from_option HeatmapBlockConfig.gap JUndefined display)
                (numOfZ 0) (numOfZ 8) (numOfZ 2);
            NormalizedConfig.weekStart :=
              match display ?. HeatmapBlockConfig.weekStart with
              | Some w => if String.eqb w "Sunday" then Sunday else Monday
              | None => Monday
              end |} |} in
  let type := NormalizedConfig.type (NormalizedConfig.range config) in
  let errors :=
    pushIf (negb (String.eqb type "week") && negb (String.eqb type "month")
            && negb (String.eqb type "year"))
      "range.type must be week, month, or year" errors in
  if (0 <? List.length errors)%nat then Failed errors else Ok config.

(** [/^\s*(\d{4}\.\d{2}\.\d{2})\s*-\s*(\d{4}\.\d{2}\.\d{2})\s*$/]: the
    two captured dates. *)
Definition matchWeekTitle (basename : string) : option (string * string) :=
  match takeDottedDate (dropWhile isSpace basename) with
  | Some (first, r1) =>
      match dropWhile isSpace r1 with
      | String c r2 =>
          if (codeUnit c =? 45)%N then
            match takeDottedDate (dropWhile isSpace r2) with
            | Some (second, r3) =>
                if strAll isSpace r3 then Some (first, second) else None
            | None => None
            end
          else None
      | EmptyString => None
      end
  | None => None
  end.

Definition jsonToZ (v : json) : option Z :=
  match v with
  | JNum n => numToZ n
  | _ => None
  end.

Definition jsonIsInteger (v : json) : bool :=
  match v with
  | JNum n => Number_isInteger n
  | _ => false
  end.

Definition isValidYear (year : json) : bool :=
  match year with
  | JNum n =>
      Number_isInteger n && num_leb (numOfZ 1970) n && num_leb n (numOfZ 9999)
  | _ => false
  end.

(** [!Number.isInteger(month) || month == null || month < 1 || month > 12] *)
Definition isInvalidMonth (month : json) : bool :=
  match month with
  | JNum n =>
      negb (Number_isInteger n) || SFltb n (numOfZ 1) || SFltb (numOfZ 12) n
  | _ => true
  end.

Definition isTrue (v : json) : bool :=
  match v with JBool true => true | _ => false end.

Section Renderer.
Context {tz : TimeZone}.

Definition resolveRange (config : NormalizedConfig.t) (f : TFile)
  : Result RangeResolution.t :=
  let range := NormalizedConfig.range config in
  if String.eqb (NormalizedConfig.type range) "week" then
    if negb (isTrue (NormalizedConfig.fromTitle range)) then
      Failed ["week range requires range.fromTitle=true"]
    else
      match matchWeekTitle (basename f) with
      | None => Failed ["week note title must match YYYY.MM.dd - YYYY.MM.dd"]
      | Some (first, second) =>
          match normalizeIsoDate (replaceUnit "." "-" first),
                normalizeIsoDate (replaceUnit "." "-" second) with
          | Some start, Some end_ =>
              let dates := enumerateDates start end_ in
              if negb (List.length dates =? 7)%nat then
                Failed ["week range must include exactly 7 dates, found "
                        ++ StringOfZ (Z.of_nat (List.length dates))]
              else
                Ok {| RangeResolution.type := "week";
                      RangeResolution.startDate := start;
                      RangeResolution.endDate := end_;
                      RangeResolution.dates := dates |}
          | _, _ => Failed ["week note title contains invalid date"]
          end
      end
  else if String.eqb (NormalizedConfig.type range) "month" then
    let year := NormalizedConfig.year range in
    let month := NormalizedConfig.month range in
    let errors :=
      pushIf (negb (isValidYear year)) "month range requires range.year" [] in
    let errors :=
      pushIf (isInvalidMonth month)
        "month range requires range.month (1-12)" errors in
    if (0 <? List.length errors)%nat then Failed errors
    else
      let start :=
        StringOfInt (jsonToZ year) ++ "-"
        ++ padStart 2 "0" (StringOfInt (jsonToZ month)) ++ "-01" in
      let endDate := newDate (jsonToZ year) (jsonToZ month) (Some 0%Z) in
      let end_ := toIsoDate endDate in
      Ok {| RangeResolution.type := "month";
            RangeResolution.startDate := start;
            RangeResolution.endDate := end_;
            RangeResolution.dates := enumerateDates start end_ |}
  else
    if negb (isValidYear (NormalizedConfig.year range)) then
      Failed ["year range requires range.year"]
    else
      let year := jsonToZ (NormalizedConfig.year range) in
      let start := StringOfInt year ++ "-01-01" in
      let end_ := StringOfInt year ++ "-12-31" in
      Ok {| RangeResolution.type := "year";
            RangeResolution.startDate := start;
            RangeResolution.endDate := end_;
            RangeResolution.dates := enumerateDates start end_ |}.

Inductive AppearanceKind := data | blank.

Record Appearance := {
  color : string;
  tooltip : string;
  kind : AppearanceKind
}.

Fixpoint firstMatch (thresholds : list NumericThreshold.t) (value : number)
  : option string :=
  match thresholds with
  | [] => None
  | threshold :: rest =>
      match NumericThreshold.kind threshold with
      | le =>
          if num_leb value (NumericThreshold.value threshold)
          then Some (NumericThreshold.color threshold)
          else firstMatch rest value
      | gt =>
          if num_gtb value (NumericThreshold.value threshold)
          then Some (NumericThreshold.color threshold)
          else firstMatch rest value
      end
  end.

Definition resolveNumericColor (thresholds : list NumericThreshold.t)
    (value : number) : string :=
  match firstMatch thresholds value with
  | Some c => c
  | None =>
      match last thresholds with
      | Some t => NumericThreshold.color t
      | None => "#6b7280"
      end
  end.

(** The clock and the rendering of a number as text are the host's:
    [now] is what [new Date()] answers, [numberToString v] is
    [`${v}`]. *)
Variable now : Date.
Variable numberToString : number -> string.

Definition todayIsoDate : string := toIsoDate now.

Definition resolveAppearance (config : NormalizedConfig.t) (date : string)
    (value : option ResolvedHabitValue) : Appearance :=
  let today := todayIsoDate in
  let colors := NormalizedConfig.colors config in
  match value with
  | None =>
      if String.leb today date then
        {| color := NormalizedConfig.blankFuture colors;
           tooltip := "blank (today/future missing)";
           kind := blank |}
      else
        {| color := NormalizedConfig.noData colors;
           tooltip := "no data";
           kind := data |}
  | Some (Boolean b) =>
      {| color :=
           if b then NormalizedConfig.true_ (NormalizedConfig.boolean colors)
           else NormalizedConfig.false_ (NormalizedConfig.boolean colors);
         tooltip := if b then "true" else "false";
         kind := data |}
  | Some (Numeric v) =>
      {| color :=
           resolveNumericColor
             (NormalizedConfig.thresholds (NormalizedConfig.numeric colors)) v;
         tooltip := numberToString v;
         kind := data |}
  end.

End Renderer.

(** ** The calendar grid (renderer.ts, [getCalendarBounds],
    [weekdayIndex] and [buildWeekdayLabels]) *)

(** [WeekDay(t)]: 0 is Sunday; 1 January 1970 was a Thursday. *)
Definition WeekDay (t : Z) : Z := ((Day t + 4) mod 7)%Z.

Section CalendarGrid.
Context {tz : TimeZone}.

Definition getDay (d : Date) : option Z :=
  match d with
  | TimeValue t => Some (WeekDay (LocalTime t))
  | InvalidDate => None
  end.

(** renderer.ts, [weekdayIndex]; [None] is [NaN]. *)
Definition weekdayIndex (date : Date) (weekStart : WeekStart) : option Z :=
  let sundayBased := getDay date in
  match weekStart with
  | Sunday => sundayBased
  | Monday =>
      match sundayBased with
      | Some s => Some ((s + 6) mod 7)%Z
      | None => None
      end
  end.

Definition buildWeekdayLabels (weekStart : WeekStart) : list string :=
  match weekStart with
  | Sunday => ["Sun"; "Mon"; "Tue"; "Wed"; "Thu"; "Fri"; "Sat"]
  | Monday => ["Mon"; "Tue"; "Wed"; "Thu"; "Fri"; "Sat"; "Sun"]
  end.

(** [addDays] with a number of days that may be [NaN]. *)
Definition addDaysBy (date : Date) (days : option Z) : Date :=
  match days with
  | Some k => addDays date k
  | None => InvalidDate
  end.

(** renderer.ts, [getCalendarBounds]; [None] when one of the two dates
    of the range does not parse, where the code fails on [null]. *)
Definition getCalendarBounds (range : RangeResolution.t)
    (weekStart : WeekStart) : option (Date * Date) :=
  match parseIsoDate (RangeResolution.startDate range),
        parseIsoDate (RangeResolution.endDate range) with
  | Some start, Some end_ =>
      let startIndex := weekdayIndex start weekStart in
      let endIndex := weekdayIndex end_ weekStart in
      Some (addDaysBy start (option_map Z.opp startIndex),
            addDaysBy end_ (option_map (fun i => 6 - i)%Z endIndex))
  | _, _ => None
  end.

End CalendarGrid.

(** ** The habit rows (renderer.ts, [resolveHabitList]) *)

Section HabitList.

(** [[...scan.habitsFound].sort((a, b) => a.localeCompare(b))]: the
    order is the one of the collation of the host. *)
Variable sortByLocale : gset string -> list string.

(** renderer.ts, [resolveHabitList]. *)
Definition resolveHabitList (config : NormalizedConfig.t)
    (scan : ScanResult.t) : list string :=
  match NormalizedConfig.mode (NormalizedConfig.habits config) with
  | ModeList =>
      dedupeFrom []
        (List.filter isLowerSnakeCase
           (NormalizedConfig.list (NormalizedConfig.habits config)))
  | ModeAuto => sortByLocale (ScanResult.habitsFound scan)
  end.

End HabitList.

(** ** Navigation to a heading (renderer.ts, [pickCandidate] and
    [findNearestHeading]) *)

Module RenderContextModel.
Record t := {
  currentFile : TFile;
  config : NormalizedConfig.t;
  range : RangeResolution.t;
  scan : ScanResult.t
}.
End RenderContextModel.

Definition MAX_SAFE_INTEGER : Z := 9007199254740991.

Section Navigation.
Context {tz : TimeZone}.
Variable vault : Vault.

(** The three variables of the loop of [findNearestHeading]. *)
Record NearestState := {
  exactLine : option Z;
  nearestLine : option Z;
  nearestDiff : Z
}.

(** One turn of the loop, for the line at [i]; once [exactLine] is
    set the loop has been left. *)
Definition nearestStep (date : string) (target : Date) (st : NearestState)
    (indexed : Z * string) : NearestState :=
  let '(i, line) := indexed in
  match exactLine st with
  | Some _ => st
  | None =>
      match matchDateHeading line with
      | None => st
      | Some dateMatch =>
          match normalizeIsoDate (replaceUnit "." "-" dateMatch) with
          | None => st
          | Some iso =>
              let lineNumber := (i + 1)%Z in
              if String.eqb iso date then
                {| exactLine := Some lineNumber;
                   nearestLine := nearestLine st;
                   nearestDiff := nearestDiff st |}
              else
                match parseIsoDate iso with
                | None => st
                | Some headingDate =>
                    match getTime headingDate, getTime target with
                    | Some h, Some t =>
                        let diff := Z.abs (h - t) in
                        if (diff <? nearestDiff st)%Z then
                          {| exactLine := exactLine st;
                             nearestLine := Some lineNumber;
                             nearestDiff := diff |}
                        else st
                    | _, _ => st
                    end
                end
          end
      end
  end.

(** renderer.ts, [findNearestHeading]. *)
Definition findNearestHeading (f : TFile) (date : string)
  : option ScanCandidate.t :=
  let content := cachedRead vault f in
  let lines := splitLines content in
  match parseIsoDate date with
  | None => None
  | Some target =>
      let final :=
        fold_left (nearestStep date target) (indexed lines)
          {| exactLine := None; nearestLine := None;
             nearestDiff := MAX_SAFE_INTEGER |} in
      let finalLine :=
        match exactLine final with
        | Some l => Some l
        | None => nearestLine final
        end in
      match finalLine with
      | None => None
      | Some l =>
          Some {| ScanCandidate.file := f;
                  ScanCandidate.headingLine := l;
                  ScanCandidate.habitsWithData := ∅ |}
      end
  end.

(** The loop over the scanned files at the end of [pickCandidate]. *)
Fixpoint firstNearestHeading (files : list TFile) (date : string)
  : option ScanCandidate.t :=
  match files with
  | [] => None
  | f :: rest =>
      match findNearestHeading f date with
      | Some nearest => Some nearest
      | None => firstNearestHeading rest date
      end
  end.

(** renderer.ts, [pickCandidate]. *)
Definition pickCandidate (model : RenderContextModel.t) (habit date : string)
  : option ScanCandidate.t :=
  let scan := RenderContextModel.scan model in
  if String.eqb (RangeResolution.type (RenderContextModel.range model)) "week"
  then
    let exact :=
      match ScanResult.candidatesByDate scan !! date with
      | Some candidates =>
          List.find
            (fun candidate =>
               String.eqb (path (ScanCandidate.file candidate))
                          (path (RenderContextModel.currentFile model)))
            candidates
      | None => None
      end in
    match exact with
    | Some c => Some c
    | None => findNearestHeading (RenderContextModel.currentFile model) date
    end
  else
    let candidates := default [] (ScanResult.candidatesByDate scan !! date) in
    let preferred :=
      List.find
        (fun candidate =>
           bool_decide (habit ∈ ScanCandidate.habitsWithData candidate))
        candidates in
    match preferred with
    | Some c => Some c
    | None =>
        match candidates with
        | c :: _ => Some c
        | [] => firstNearestHeading (ScanResult.scannedFiles scan) date
        end
    end.

End Navigation.

(** * Properties *)

(** ** Boolean finalization (parser.ts, [resolveBoolean] and
       [resolveAccumulators]) *)

Section BooleanFinalization.

Lemma resolveAccumulators_lookup (accs : Accumulators) (date habit : string) :
  lookup2 (resolveAccumulators accs) date habit
  = match lookup2 accs date habit with
    | Some acc => resolveAccumulator acc
    | None => None
    end.
Proof.
  unfold lookup2, resolveAccumulators. rewrite lookup_omap.
  destruct (accs !! date) as [habits|] eqn:Hd; simpl; [|done].
  destruct (0 <? size (omap resolveAccumulator habits))%nat eqn:Hs; simpl.
  - rewrite lookup_omap. by destruct (habits !! habit).
  - apply Nat.ltb_ge in Hs.
    assert (omap resolveAccumulator habits = ∅) as He
      by (apply map_size_empty_iff; lia).
    assert (omap resolveAccumulator habits !! habit = None) as Hn
      by (by rewrite He, lookup_empty).
    rewrite lookup_omap in Hn. by destruct (habits !! habit).
Qed.

(** C2.  With no numeric token seen, the value of a (date, habit) pair
    follows the priority inline-true, checklist-true, checklist-false,
    inline-false; with none of the four flags set the pair has no
    entry in the resolved map. *)
Theorem boolean_finalization_priority
    (accs : Accumulators) (date habit : string) (acc : DateAccumulator.t) :
  lookup2 accs date habit = Some acc ->
  hasNumeric acc = false ->
  resolveBoolean acc
    = (if inlineTrue acc then Some true
       else if checklistTrue acc then Some true
       else if checklistFalse acc then Some false
       else if inlineFalse acc then Some false
       else None)
  /\ lookup2 (resolveAccumulators accs) date habit
     = match resolveBoolean acc with
       | Some b => Some (Boolean b)
       | None => None
       end.
Proof.
  intros Hl Hn. split; [reflexivity|].
  rewrite resolveAccumulators_lookup, Hl.
  unfold resolveAccumulator. by rewrite Hn.
Qed.

Definition sampleAccumulator : DateAccumulator.t :=
  {| numericSum := S754_zero false; hasNumeric := false;
     inlineTrue := false; inlineFalse := true;
     checklistTrue := true; checklistFalse := true |}.

Lemma boolean_finalization_priority_witness :
  resolveBoolean sampleAccumulator = Some true
  /\ lookup2 (resolveAccumulators
                {["2026-02-10" := {["walk" := sampleAccumulator]}]})
             "2026-02-10" "walk"
     = Some (Boolean true).
Proof.
  apply (boolean_finalization_priority
           {["2026-02-10" := {["walk" := sampleAccumulator]}]}
           "2026-02-10" "walk" sampleAccumulator).
  - reflexivity.
  - reflexivity.
Defined.

End BooleanFinalization.

(** ** Inline tokens (parser.ts, [INLINE_HABIT_PATTERN] and
       [extractInlineTokens]) *)

Section StringFacts.

Lemma append_cons (c : ascii) (s t : string) :
  String c s ++ t = String c (s ++ t).
Proof. reflexivity. Qed.

Lemma append_nil (t : string) : "" ++ t = t.
Proof. reflexivity. Qed.

Lemma append_nil_r (s : string) : s ++ "" = s.
Proof.
  induction s as [|c r IH]; [done|]. by rewrite append_cons, IH.
Qed.

Lemma append_assoc (s t u : string) : (s ++ t) ++ u = s ++ t ++ u.
Proof.
  induction s as [|c r IH]; [done|]. by rewrite !append_cons, IH.
Qed.

Lemma strAll_impl (p q : ascii -> bool) (s : string) :
  (forall c, p c = true -> q c = true) -> strAll p s = true -> strAll q s = true.
Proof.
  intros Hpq. induction s as [|c r IH]; simpl; [done|].
  intros [Hc Hr]%andb_prop. rewrite (Hpq _ Hc). simpl. auto.
Qed.

Lemma strAll_app (p : ascii -> bool) (s t : string) :
  strAll p (s ++ t) = strAll p s && strAll p t.
Proof.
  induction s as [|c r IH]; [done|].
  rewrite append_cons. simpl. by rewrite IH, andb_assoc.
Qed.

Lemma strAll_takeWhile (p : ascii -> bool) (s : string) :
  strAll p (takeWhile p s) = true.
Proof.
  induction s as [|c r IH]; simpl; [done|].
  destruct (p c) eqn:Hc; simpl; [|done]. by rewrite Hc.
Qed.

Lemma takeWhile_dropWhile (p : ascii -> bool) (s : string) :
  takeWhile p s ++ dropWhile p s = s.
Proof.
  induction s as [|c r IH]; simpl; [done|].
  destruct (p c); [|done]. by rewrite append_cons, IH.
Qed.

(** A run of [p] followed by a unit outside [p], or by nothing, is
    taken whole. *)
Definition stopsAt (p : ascii -> bool) (rest : string) : Prop :=
  match rest with
  | EmptyString => True
  | String c _ => p c = false
  end.

Lemma stopsAt_dropWhile (p : ascii -> bool) (s : string) :
  stopsAt p (dropWhile p s).
Proof.
  induction s as [|c r IH]; simpl; [done|].
  destruct (p c) eqn:Hc; [done|]. simpl. exact Hc.
Qed.

Lemma takeWhile_app_stop (p : ascii -> bool) (run rest : string) :
  strAll p run = true -> stopsAt p rest -> takeWhile p (run ++ rest) = run.
Proof.
  intros Hrun Hstop. induction run as [|c r IH].
  - rewrite append_nil. destruct rest as [|c r]; simpl in *; [done|].
    by rewrite Hstop.
  - rewrite append_cons. simpl in *.
    apply andb_prop in Hrun as [Hc Hr]. rewrite Hc. by rewrite IH.
Qed.

Lemma dropWhile_app_stop (p : ascii -> bool) (run rest : string) :
  strAll p run = true -> stopsAt p rest -> dropWhile p (run ++ rest) = rest.
Proof.
  intros Hrun Hstop. induction run as [|c r IH].
  - rewrite append_nil. destruct rest as [|c r]; simpl in *; [done|].
    by rewrite Hstop.
  - rewrite append_cons. simpl in *.
    apply andb_prop in Hrun as [Hc Hr]. rewrite Hc. by apply IH.
Qed.

Lemma takeWhile_all (p : ascii -> bool) (s : string) :
  strAll p s = true -> takeWhile p s = s.
Proof.
  intros H. rewrite <- (append_nil_r s) at 1. by apply takeWhile_app_stop.
Qed.

Lemma dropWhile_all (p : ascii -> bool) (s : string) :
  strAll p s = true -> dropWhile p s = "".
Proof.
  intros H. rewrite <- (append_nil_r s) at 1. by apply dropWhile_app_stop.
Qed.

Lemma trimEnd_id (s : string) :
  strAll (fun c => negb (isSpace c)) s = true -> trimEnd s = s.
Proof.
  induction s as [|c r IH]; simpl; [done|].
  intros [Hc Hr]%andb_prop. rewrite (IH Hr).
  destruct r; [|done]. apply negb_true_iff in Hc. by rewrite Hc.
Qed.

Lemma trim_id (s : string) :
  strAll (fun c => negb (isSpace c)) s = true -> trim s = s.
Proof.
  intros H. unfold trim.
  assert (dropWhile isSpace s = s) as ->.
  { destruct s as [|c r]; simpl in *; [done|].
    apply andb_prop in H as [Hc _]. apply negb_true_iff in Hc.
    by rewrite Hc. }
  by apply trimEnd_id.
Qed.

Lemma toLowerCase_id (s : string) :
  strAll (fun c => Ascii.eqb (lowerUnit c) c) s = true -> toLowerCase s = s.
Proof.
  induction s as [|c r IH]; simpl; [done|].
  intros [Hc Hr]%andb_prop. apply Ascii.eqb_eq in Hc. by rewrite Hc, IH.
Qed.

Lemma length_app_string (s t : string) :
  String.length (s ++ t) = (String.length s + String.length t)%nat.
Proof.
  induction s as [|c r IH]; [done|]. rewrite append_cons. simpl. by rewrite IH.
Qed.

Lemma stripPrefix_Some (p s r : string) :
  stripPrefix p s = Some r -> s = p ++ r.
Proof.
  revert s. induction p as [|a p IH]; intros s; simpl.
  - by intros [= ->].
  - destruct s as [|b s]; [done|].
    destruct (Ascii.eqb a b) eqn:Hab; [|done].
    apply Ascii.eqb_eq in Hab as ->. intros H.
    by rewrite append_cons, (IH _ H).
Qed.

End StringFacts.

(** The units a captured value is made of: digits, the sign, the
    point and lower-case letters. *)
Definition isValueUnit (c : ascii) : bool :=
  isDigit c || (codeUnit c =? 45)%N || (codeUnit c =? 46)%N || inRange 97 122 c.

Definition isBooleanWord (s : string) : bool :=
  String.eqb s "true" || String.eqb s "false"
  || String.eqb s "yes" || String.eqb s "no".

(** Whether the text [needle] stands somewhere in [s]. *)
Fixpoint occursIn (needle s : string) : bool :=
  startsWith s needle
  || match s with
     | EmptyString => false
     | String _ r => occursIn needle r
     end.

(** The text after a decimal literal does not carry the literal on: no
    digit comes next, and no point with a digit behind it unless the
    literal has its fraction already. *)
Definition literalEndsAt (value post : string) : bool :=
  match post with
  | EmptyString => true
  | String c r =>
      negb (isDigit c)
      && (negb (codeUnit c =? 46)%N
          || match decimalShape value with
             | Some (_, _, String _ _) => true
             | _ => false
             end
          || match r with
             | String d _ => negb (isDigit d)
             | EmptyString => true
             end)
  end.

(** The values of the pattern, [true|false|yes|no|-?\d+(?:\.\d+)?]: one
    of the four words, whatever comes after it, or a decimal literal
    taken as far as it goes. *)
Definition isInlineValue (value post : string) : bool :=
  isBooleanWord value
  || (match decimalShape value with Some _ => true | None => false end
      && literalEndsAt value post).

(** A text that begins with a value of the pattern: one of the four
    words, or a digit after an optional minus sign. *)
Definition startsInlineValue (s : string) : bool :=
  startsWith s "true" || startsWith s "false"
  || startsWith s "yes" || startsWith s "no"
  || match snd (splitSign s) with
     | String c _ => isDigit c
     | EmptyString => false
     end.

(** A text behind [habit-] that goes on to a token: name units, then
    [::], then a value of the pattern. *)
Definition beginsInlineToken (t : string) : bool :=
  negb (String.length (takeWhile isHabitChar t) =? 0)%nat
  && match stripPrefix "::" (dropWhile isHabitChar t) with
     | Some v => startsInlineValue v
     | None => false
     end.

Section UnitFacts.

Ltac by_units c := destruct c as [[] [] [] [] [] [] [] []]; vm_compute; congruence.

Lemma habit_unit_not_space (c : ascii) :
  isHabitChar c = true -> negb (isSpace c) = true.
Proof. by_units c. Qed.

Lemma value_unit_not_space (c : ascii) :
  isValueUnit c = true -> negb (isSpace c) = true.
Proof. by_units c. Qed.

Lemma value_unit_lower (c : ascii) :
  isValueUnit c = true -> Ascii.eqb (lowerUnit c) c = true.
Proof. by_units c. Qed.

Lemma digit_value_unit (c : ascii) : isDigit c = true -> isValueUnit c = true.
Proof. by_units c. Qed.

Lemma digit_not_minus (c : ascii) :
  isDigit c = true -> (codeUnit c =? 45)%N = false.
Proof. by_units c. Qed.

Lemma digit_not_point (c : ascii) :
  isDigit c = true -> (codeUnit c =? 46)%N = false.
Proof. by_units c. Qed.

Lemma codeUnit_eqb (c : ascii) (n : N) :
  (n < 256)%N -> (codeUnit c =? n)%N = true -> c = ascii_of_N n.
Proof.
  intros Hn H. apply N.eqb_eq in H. unfold codeUnit in H.
  rewrite <- H. symmetry. apply ascii_N_embedding.
Qed.

End UnitFacts.

Section InlinePattern.

Lemma matchHabitNameAt_Some (s name rest : string) :
  matchHabitNameAt s = Some (name, rest) ->
  s = "habit-" ++ name ++ rest
  /\ strAll isHabitChar name = true
  /\ (0 < String.length name)%nat.
Proof.
  unfold matchHabitNameAt.
  destruct (stripPrefix "habit-" s) as [r|] eqn:Hp; [|done].
  apply stripPrefix_Some in Hp.
  pose proof (strAll_takeWhile isHabitChar r) as Hall.
  pose proof (takeWhile_dropWhile isHabitChar r) as Hsplit.
  destruct (takeWhile isHabitChar r) as [|c n] eqn:Hn; [done|].
  intros [= <- <-]. split; [by rewrite Hsplit|]. split; [done|]. simpl. lia.
Qed.

Lemma matchUnsignedAt_shape (body u : string) :
  matchUnsignedAt body = Some u ->
  (exists rest, body = u ++ rest)
  /\ strAll isValueUnit u = true
  /\ (exists c r, u = String c r /\ isDigit c = true)
  /\ is_Some (unsignedShape u).
Proof.
  unfold matchUnsignedAt.
  pose proof (strAll_takeWhile isDigit body) as Hip.
  pose proof (takeWhile_dropWhile isDigit body) as Hsplit.
  pose proof (stopsAt_dropWhile isDigit body) as Hstop.
  destruct (takeWhile isDigit body) as [|c0 ip'] eqn:Htake; [done|].
  set (ip := String c0 ip') in *.
  assert (exists c r, ip = String c r /\ isDigit c = true) as Hhead.
  { exists c0, ip'. split; [done|]. simpl in Hip. by apply andb_prop in Hip as [? _]. }
  assert (strAll isValueUnit ip = true) as Hipv
    by (eapply strAll_impl; [apply digit_value_unit | done]).
  assert (is_Some (unsignedShape ip)) as Hplain.
  { unfold unsignedShape.
    rewrite takeWhile_all, dropWhile_all by done.
    subst ip. by eexists. }
  destruct (dropWhile isDigit body) as [|c r] eqn:Hdrop.
  - intros [= <-]. repeat split; try done. by exists "".
  - pose proof (strAll_takeWhile isDigit r) as Hfp.
    pose proof (takeWhile_dropWhile isDigit r) as Hsplit'.
    pose proof (stopsAt_dropWhile isDigit r) as Hstop'.
    destruct (takeWhile isDigit r) as [|c1 fp'] eqn:Htake'.
    { intros [= <-]. repeat split; try done. by exists (String c r). }
    set (fp := String c1 fp') in *.
    destruct (codeUnit c =? 46)%N eqn:Hc.
    + intros [= <-]. split; [|split; [|split]].
      * exists (dropWhile isDigit r).
        apply (codeUnit_eqb _ 46) in Hc as ->; [|done].
        rewrite <- Hsplit. rewrite <- Hsplit' at 1.
        by rewrite !append_assoc.
      * eapply strAll_impl in Hfp; [|apply digit_value_unit].
        by rewrite !strAll_app, Hipv, Hfp.
      * destruct Hhead as (c' & r' & -> & Hd). by exists c', (r' ++ "." ++ fp).
      * unfold unsignedShape.
        rewrite takeWhile_app_stop, dropWhile_app_stop by done.
        subst ip. cbn [String.append]. fold fp.
        change ("." ++ fp) with (String "." fp).
        cbn -[strAll]. rewrite Hfp. by eexists.
    + intros [= <-]. repeat split; try done. by exists (String c r).
Qed.

Lemma splitSign_signed (neg : bool) (u : string) (c : ascii) (r : string) :
  u = String c r -> isDigit c = true ->
  splitSign ((if neg then "-" else "") ++ u) = (neg, u).
Proof.
  intros -> Hd. destruct neg; [done|].
  rewrite append_nil. simpl. by rewrite (digit_not_minus _ Hd).
Qed.

Lemma matchDecimalAt_shape (s v : string) :
  matchDecimalAt s = Some v ->
  (exists rest, s = v ++ rest)
  /\ strAll isValueUnit v = true
  /\ isBooleanWord v = false
  /\ is_Some (decimalShape v).
Proof.
  unfold matchDecimalAt.
  destruct (splitSign s) as [neg body] eqn:Hs.
  destruct (matchUnsignedAt body) as [u|] eqn:Hu; [|done].
  intros [= <-].
  apply matchUnsignedAt_shape in Hu as ((rest & ->) & Hv & (c & r & -> & Hd) & Hshape).
  assert (s = (if neg then "-" else "") ++ String c r ++ rest) as Hsrc.
  { unfold splitSign in Hs. destruct s as [|c' r']; [by inversion Hs|].
    destruct (codeUnit c' =? 45)%N eqn:Hc'; inversion Hs; subst; [|done].
    by apply (codeUnit_eqb _ 45) in Hc' as ->. }
  split; [|split; [|split]].
  - exists rest. by rewrite Hsrc, append_assoc.
  - rewrite strAll_app, Hv. by destruct neg.
  - destruct neg.
    + done.
    + rewrite append_nil. revert Hd.
      destruct c as [[] [] [] [] [] [] [] []]; vm_compute; congruence.
  - unfold decimalShape. rewrite (splitSign_signed neg _ c r eq_refl Hd).
    destruct Hshape as [[ip fp] ->]. by eexists.
Qed.

(** Every value the inline pattern captures is one of the four words
    or a decimal literal, made of units that [trim] and [toLowerCase]
    leave alone. *)
Lemma matchInlineAt_value_shape (s name value : string) (len : nat) :
  matchInlineAt s = Some (name, value, len) ->
  (exists rest, s = "habit-" ++ name ++ "::" ++ value ++ rest)
  /\ strAll isHabitChar name = true
  /\ (0 < String.length name)%nat
  /\ strAll isValueUnit value = true
  /\ (isBooleanWord value = true
      \/ isBooleanWord value = false /\ is_Some (decimalShape value)).
Proof.
  unfold matchInlineAt.
  destruct (matchHabitNameAt s) as [[n r]|] eqn:Hn; [|done].
  apply matchHabitNameAt_Some in Hn as (-> & Hall & Hlen).
  destruct (stripPrefix "::" r) as [v|] eqn:Hp; [|done].
  apply stripPrefix_Some in Hp as ->.
  destruct (matchInlineValueAt v) as [val|] eqn:Hv; [|done].
  intros [= <- <- <-].
  assert ((exists rest, v = val ++ rest)
          /\ strAll isValueUnit val = true
          /\ (isBooleanWord val = true
              \/ isBooleanWord val = false /\ is_Some (decimalShape val)))
    as ((rest & ->) & Hunits & Hshape).
  { unfold matchInlineValueAt, startsWith in Hv.
    destruct (stripPrefix "true" v) as [r1|] eqn:H1.
    { inversion Hv; subst. apply stripPrefix_Some in H1. eauto 6. }
    destruct (stripPrefix "false" v) as [r2|] eqn:H2.
    { inversion Hv; subst. apply stripPrefix_Some in H2. eauto 6. }
    destruct (stripPrefix "yes" v) as [r3|] eqn:H3.
    { inversion Hv; subst. apply stripPrefix_Some in H3. eauto 6. }
    destruct (stripPrefix "no" v) as [r4|] eqn:H4.
    { inversion Hv; subst. apply stripPrefix_Some in H4. eauto 6. }
    apply matchDecimalAt_shape in Hv as (? & ? & ? & ?). eauto 6. }
  repeat split; try done. by exists rest.
Qed.

(** What the scan of a line yields: each match stands in the line as
    [habit-<name>::<value>], with a name and a value of the shapes
    above. *)
Definition inlineTokenShape (m : string * string) : Prop :=
  strAll isHabitChar (fst m) = true
  /\ (0 < String.length (fst m))%nat
  /\ strAll isValueUnit (snd m) = true
  /\ (isBooleanWord (snd m) = true
      \/ isBooleanWord (snd m) = false /\ is_Some (decimalShape (snd m))).

Lemma scanInline_shape (skip : nat) (s : string) :
  Forall inlineTokenShape (scanInline skip s).
Proof.
  revert skip. induction s as [|c r IH]; intros skip; simpl; [constructor|].
  destruct skip as [|k]; [|apply IH].
  destruct (matchInlineAt (String c r)) as [[[n v] len]|] eqn:Hm; [|apply IH].
  constructor; [|apply IH].
  apply matchInlineAt_value_shape in Hm as (_ & ? & ? & ? & ?). by repeat split.
Qed.

Lemma scanInline_occurs (skip : nat) (s name value : string) :
  In (name, value) (scanInline skip s) ->
  exists before after,
    s = before ++ "habit-" ++ name ++ "::" ++ value ++ after.
Proof.
  revert skip. induction s as [|c r IH]; intros skip; simpl; [done|].
  assert (forall k, In (name, value) (scanInline k r) ->
            exists before after,
              String c r = before ++ "habit-" ++ name ++ "::" ++ value ++ after)
    as Hrest.
  { intros k (b & a & ->)%IH. by exists (String c b), a. }
  destruct skip as [|k]; [|apply Hrest].
  destruct (matchInlineAt (String c r)) as [[[n v] len]|] eqn:Hm; [|apply Hrest].
  intros [[= -> ->]|Hin]; [|by eapply Hrest].
  apply matchInlineAt_value_shape in Hm as ((rest & Hs) & _).
  exists "", rest. by rewrite append_nil.
Qed.

End InlinePattern.

Section InlineScan.

Ltac by_unit c := destruct c as [[] [] [] [] [] [] [] []]; vm_compute; congruence.

Lemma habit_unit_not_hyphen (c : ascii) :
  isHabitChar c = true -> Ascii.eqb "-" c = false.
Proof. by_unit c. Qed.

Lemma digit_not_word_head (c : ascii) :
  isDigit c = true ->
  Ascii.eqb "t" c = false /\ Ascii.eqb "f" c = false
  /\ Ascii.eqb "y" c = false /\ Ascii.eqb "n" c = false.
Proof.
  destruct c as [[] [] [] [] [] [] [] []]; vm_compute; intros ?;
    try done; by repeat split.
Qed.

Lemma stripPrefix_app (p r : string) : stripPrefix p (p ++ r) = Some r.
Proof.
  induction p as [|a p IH]; [done|].
  rewrite append_cons. cbn [stripPrefix]. by rewrite Ascii.eqb_refl.
Qed.

(** [habit-] does not begin inside a run of name units that a colon
    ends: its hyphen is no name unit, and no unit of it is a colon. *)
Lemma stripPrefix_in_name (n t : string) :
  strAll isHabitChar n = true ->
  stripPrefix "habit-" (n ++ String ":" t) = None.
Proof.
  intros H.
  do 5 (destruct n as [|? n]; [reflexivity|];
        rewrite append_cons; cbn [stripPrefix];
        match goal with |- (if ?b then _ else _) = _ => destruct b; [|done] end;
        cbn [strAll] in H; apply andb_prop in H as [_ H]).
  destruct n as [|c n]; [reflexivity|].
  rewrite append_cons. cbn [stripPrefix].
  cbn [strAll] in H. apply andb_prop in H as [Hc _].
  by rewrite (habit_unit_not_hyphen _ Hc).
Qed.

(** [habit-] does not begin in a text before it that does not hold it
    whole: it would have to begin with two of its units at once. *)
Lemma stripPrefix_straddle (c : ascii) (p t : string) :
  stripPrefix "habit-" (String c p) = None ->
  stripPrefix "habit-" (String c p ++ "habit-" ++ t) = None.
Proof.
  intros H. rewrite append_cons. cbn [stripPrefix] in *.
  destruct (Ascii.eqb "h" c); [|done].
  do 5 (destruct p as [|? p]; [reflexivity|];
        rewrite append_cons; cbn [stripPrefix] in *;
        match goal with |- (if ?b then _ else _) = _ => destruct b; [|done] end).
  done.
Qed.

Lemma matchInlineAt_no_prefix (s : string) :
  stripPrefix "habit-" s = None -> matchInlineAt s = None.
Proof. intros H. unfold matchInlineAt, matchHabitNameAt. by rewrite H. Qed.

Lemma occursIn_cons (needle : string) (c : ascii) (r : string) :
  occursIn needle (String c r) = false ->
  stripPrefix needle (String c r) = None /\ occursIn needle r = false.
Proof.
  cbn [occursIn]. intros [H1 H2]%orb_false_elim. split; [|done].
  unfold startsWith in H1. by destruct (stripPrefix needle (String c r)).
Qed.

(** The search passes over a text that does not hold [habit-]. *)
Lemma scanInline_before (pre t : string) :
  occursIn "habit-" pre = false ->
  scanInline 0 (pre ++ "habit-" ++ t) = scanInline 0 ("habit-" ++ t).
Proof.
  induction pre as [|c pre IH]; [done|].
  intros [Hhere Hrest]%occursIn_cons.
  pose proof (stripPrefix_straddle c pre t Hhere) as Hno.
  apply matchInlineAt_no_prefix in Hno.
  rewrite append_cons in *. cbn [scanInline]. rewrite Hno. by apply IH.
Qed.

(** The units of a match are passed over. *)
Lemma scanInline_skip (s t : string) :
  scanInline (String.length s) (s ++ t) = scanInline 0 t.
Proof.
  induction s as [|c s IH]; [by destruct t|].
  rewrite append_cons. cbn [String.length scanInline]. exact IH.
Qed.

Lemma scanInline_name_run (n t : string) :
  strAll isHabitChar n = true ->
  scanInline 0 (n ++ String ":" t) = scanInline 0 (String ":" t).
Proof.
  induction n as [|c n IH]; [done|]. intros H.
  pose proof (stripPrefix_in_name (String c n) t H) as Hno.
  apply matchInlineAt_no_prefix in Hno.
  rewrite append_cons in *. cbn [scanInline]. rewrite Hno.
  apply IH. cbn [strAll] in H. by apply andb_prop in H as [_ H].
Qed.

Lemma matchHabitNameAt_name (name r : string) :
  isLowerSnakeCase name = true ->
  matchHabitNameAt ("habit-" ++ name ++ "::" ++ r) = Some (name, "::" ++ r).
Proof.
  unfold isLowerSnakeCase. intros [Hlen Hall]%andb_prop.
  unfold matchHabitNameAt. rewrite stripPrefix_app.
  rewrite takeWhile_app_stop, dropWhile_app_stop by done.
  by destruct name.
Qed.

Lemma unsignedShape_Some (body ip fp : string) :
  unsignedShape body = Some (ip, fp) ->
  body = ip ++ match fp with EmptyString => "" | _ => "." ++ fp end
  /\ strAll isDigit ip = true
  /\ (exists c r, ip = String c r /\ isDigit c = true)
  /\ strAll isDigit fp = true.
Proof.
  unfold unsignedShape.
  pose proof (strAll_takeWhile isDigit body) as Hip.
  pose proof (takeWhile_dropWhile isDigit body) as Hsplit.
  destruct (takeWhile isDigit body) as [|c0 ip'] eqn:Htake; [done|].
  assert (exists c r, String c0 ip' = String c r /\ isDigit c = true) as Hhead.
  { exists c0, ip'. split; [done|]. cbn [strAll] in Hip.
    by apply andb_prop in Hip as [? _]. }
  destruct (dropWhile isDigit body) as [|c fp0] eqn:Hdrop.
  - intros [= <- <-]. by rewrite <- Hsplit.
  - destruct (codeUnit c =? 46)%N eqn:Hc; [|done].
    destruct (strAll isDigit fp0) eqn:Hfp; [|done].
    destruct fp0 as [|d fp1]; [done|].
    intros [= <- <-]. apply (codeUnit_eqb _ 46) in Hc as ->; [|done].
    by rewrite <- Hsplit.
Qed.

Lemma stopsAt_digit_literal (value post : string) :
  literalEndsAt value post = true -> stopsAt isDigit post.
Proof.
  destruct post as [|c r]; [done|]. cbn [literalEndsAt stopsAt].
  intros [Hc _]%andb_prop. by apply negb_true_iff in Hc.
Qed.

(** A decimal literal that the text after it does not carry on is what
    the pattern takes. *)
Lemma matchDecimalAt_literal (value post : string) :
  is_Some (decimalShape value) -> literalEndsAt value post = true ->
  matchDecimalAt (value ++ post) = Some value
  /\ exists c r, snd (splitSign value) = String c r /\ isDigit c = true.
Proof.
  intros [[[neg ip] fp] Hshape] Hends.
  pose proof (stopsAt_digit_literal _ _ Hends) as Hstop.
  unfold literalEndsAt in Hends. rewrite Hshape in Hends.
  unfold decimalShape in Hshape.
  destruct (splitSign value) as [neg' body] eqn:Hsign.
  destruct (unsignedShape body) as [[ip' fp']|] eqn:Hbody; [|done].
  injection Hshape as -> -> ->.
  apply unsignedShape_Some in Hbody as (Hb & Hip & (c & r & Hipc & Hc) & Hfp).
  assert (value = (if neg then "-" else "") ++ body) as Hvalue.
  { unfold splitSign in Hsign. destruct value as [|c' r']; [by inversion Hsign|].
    destruct (codeUnit c' =? 45)%N eqn:Hc'; inversion Hsign; subst; [|done].
    by apply (codeUnit_eqb _ 45) in Hc' as ->. }
  split.
  2:{ exists c. eexists. split; [|done]. cbn [snd]. rewrite Hb, Hipc.
      apply append_cons. }
  unfold matchDecimalAt. rewrite Hvalue, append_assoc.
  assert (body ++ post = String c (r ++ match fp with
                                         | EmptyString => ""
                                         | _ => "." ++ fp
                                         end ++ post)) as Hhead
    by (rewrite Hb, Hipc; by rewrite !append_assoc, append_cons).
  rewrite (splitSign_signed neg (body ++ post) c _ Hhead Hc).
  assert (matchUnsignedAt (body ++ post) = Some body) as ->; [|done].
  unfold matchUnsignedAt. rewrite Hb, append_assoc.
  destruct fp as [|d fp].
  - rewrite append_nil, append_nil_r.
    rewrite takeWhile_app_stop, dropWhile_app_stop by done.
    rewrite Hipc. cbv beta iota. rewrite <- Hipc.
    destruct post as [|c1 r1]; [done|].
    destruct (takeWhile isDigit r1) as [|d1 fp1] eqn:Htake; [done|].
    destruct (codeUnit c1 =? 46)%N eqn:Hpoint; [|done].
    apply andb_prop in Hends as [_ Hends]. cbn [negb orb] in Hends.
    destruct r1 as [|d2 r2]; [done|]. cbn [takeWhile] in Htake.
    destruct (isDigit d2); done.
  - assert (stopsAt isDigit ("." ++ String d fp ++ post)) as Hpoint by done.
    rewrite takeWhile_app_stop, dropWhile_app_stop by done.
    rewrite Hipc. cbv beta iota. rewrite <- Hipc.
    change (("." ++ String d fp) ++ post)
      with (String "." (String d fp ++ post)).
    cbv beta iota.
    rewrite (takeWhile_app_stop isDigit (String d fp) post) by done.
    cbv beta iota. change (codeUnit "." =? 46)%N with true. cbv beta iota.
    reflexivity.
Qed.

Lemma matchInlineValueAt_value (value post : string) :
  isInlineValue value post = true ->
  matchInlineValueAt (value ++ post) = Some value.
Proof.
  unfold isInlineValue. intros [Hword|Hliteral]%orb_prop.
  - unfold isBooleanWord in Hword.
    apply orb_prop in Hword as [Hword|Hno].
    + apply orb_prop in Hword as [Hword|Hyes].
      * apply orb_prop in Hword as [Htrue|Hfalse].
        -- apply String.eqb_eq in Htrue as ->. reflexivity.
        -- apply String.eqb_eq in Hfalse as ->. reflexivity.
      * apply String.eqb_eq in Hyes as ->. reflexivity.
    + apply String.eqb_eq in Hno as ->. reflexivity.
  - apply andb_prop in Hliteral as [Hshape Hends].
    assert (is_Some (decimalShape value)) as Hsome
      by (destruct (decimalShape value); [by eexists|done]).
    destruct (matchDecimalAt_literal value post Hsome Hends)
      as (Hmatch & c & r & Hbody & Hc).
    destruct (digit_not_word_head c Hc) as (Ht & Hf & Hy & Hn).
    assert (exists r', value ++ post = String c r'
                       \/ value ++ post = String "-" r') as (r' & Hhead).
    { unfold splitSign in Hbody. destruct value as [|c' v']; [done|].
      destruct (codeUnit c' =? 45)%N eqn:Hc'.
      - apply (codeUnit_eqb _ 45) in Hc' as ->; [|done].
        exists (v' ++ post). by right.
      - cbn [snd] in Hbody. injection Hbody as -> ->.
        exists (r ++ post). by left. }
    unfold matchInlineValueAt, startsWith. rewrite <- Hmatch.
    destruct Hhead as [->| ->]; cbn [stripPrefix];
      rewrite ?Ht, ?Hf, ?Hy, ?Hn; reflexivity.
Qed.

Lemma matchInlineValueAt_none (rest : string) :
  startsInlineValue rest = false -> matchInlineValueAt rest = None.
Proof.
  unfold startsInlineValue, matchInlineValueAt.
  intros [[[[-> ->]%orb_false_elim ->]%orb_false_elim ->]%orb_false_elim
            Hdigit]%orb_false_elim.
  unfold matchDecimalAt. destruct (splitSign rest) as [neg body].
  cbn [snd] in Hdigit. unfold matchUnsignedAt.
  destruct body as [|c r]; [done|]. cbn [takeWhile]. by rewrite Hdigit.
Qed.

(** A token at the head of a text: what the pattern takes, and the
    search going on behind it. *)
Lemma scanInline_token (name value post : string) :
  isLowerSnakeCase name = true -> isInlineValue value post = true ->
  scanInline 0 ("habit-" ++ name ++ "::" ++ value ++ post)
  = (name, value) :: scanInline 0 post.
Proof.
  intros Hname Hvalue.
  assert (matchInlineAt ("habit-" ++ name ++ "::" ++ value ++ post)
          = Some (name, value,
                  (6 + String.length name + 2 + String.length value)%nat))
    as Hmatch.
  { unfold matchInlineAt. rewrite matchHabitNameAt_name by done.
    rewrite stripPrefix_app. by rewrite matchInlineValueAt_value. }
  change ("habit-" ++ name ++ "::" ++ value ++ post)
    with (String "h" ("abit-" ++ name ++ "::" ++ value ++ post)) in *.
  cbn [scanInline]. rewrite Hmatch. f_equal.
  replace ("abit-" ++ name ++ "::" ++ value ++ post)
    with (("abit-" ++ name ++ "::" ++ value) ++ post)
    by (by rewrite !append_assoc).
  replace (6 + String.length name + 2 + String.length value - 1)%nat
    with (String.length ("abit-" ++ name ++ "::" ++ value)).
  - apply scanInline_skip.
  - rewrite !length_app_string. cbn [String.length]. lia.
Qed.

(** [habit-<name>::] with no value of the pattern behind it: the search
    finds nothing up to the text behind it. *)
Lemma scanInline_no_value (name rest : string) :
  isLowerSnakeCase name = true -> startsInlineValue rest = false ->
  scanInline 0 ("habit-" ++ name ++ "::" ++ rest) = scanInline 0 rest.
Proof.
  intros Hname Hrest.
  assert (matchInlineAt ("habit-" ++ name ++ "::" ++ rest) = None) as Hmatch.
  { unfold matchInlineAt. rewrite matchHabitNameAt_name by done.
    rewrite stripPrefix_app. by rewrite matchInlineValueAt_none. }
  change ("habit-" ++ name ++ "::" ++ rest)
    with (String "h" (String "a" (String "b" (String "i" (String "t"
            (String "-" (name ++ String ":" (String ":" rest)))))))) in *.
  cbn [scanInline]. rewrite Hmatch.
  rewrite !matchInlineAt_no_prefix by reflexivity.
  unfold isLowerSnakeCase in Hname. apply andb_prop in Hname as [_ Hall].
  rewrite scanInline_name_run by done.
  cbn [scanInline]. by rewrite !matchInlineAt_no_prefix by reflexivity.
Qed.

(** A [habit-] that goes on to no token is passed over. *)
Lemma scanInline_pass (t : string) :
  beginsInlineToken t = false ->
  scanInline 0 ("habit-" ++ t) = scanInline 0 t.
Proof.
  intros Hno.
  assert (matchInlineAt ("habit-" ++ t) = None) as Hmatch.
  { unfold matchInlineAt, matchHabitNameAt. rewrite stripPrefix_app.
    unfold beginsInlineToken in Hno.
    destruct (takeWhile isHabitChar t) as [|c n]; [done|].
    cbn [String.length Nat.eqb negb andb] in Hno.
    destruct (stripPrefix "::" (dropWhile isHabitChar t)) as [v|]; [|done].
    by rewrite matchInlineValueAt_none. }
  change ("habit-" ++ t)
    with (String "h" (String "a" (String "b" (String "i" (String "t"
            (String "-" t)))))) in *.
  cbn [scanInline]. rewrite Hmatch.
  by rewrite !matchInlineAt_no_prefix by reflexivity.
Qed.

(** A text that does not hold [habit-] holds no token. *)
Lemma scanInline_none (s : string) :
  occursIn "habit-" s = false -> scanInline 0 s = [].
Proof.
  induction s as [|c s IH]; [done|].
  intros [Hhere Hrest]%occursIn_cons.
  cbn [scanInline]. rewrite (matchInlineAt_no_prefix _ Hhere). by apply IH.
Qed.

End InlineScan.

Section InlineTokens.

Lemma lookup2_insert_bucket {A} (m : gmap string (gmap string A))
    (d h d' h' : string) (b : A) :
  lookup2 (<[d := <[h := b]> (default ∅ (m !! d))]> m) d' h'
  = if bool_decide (d = d' /\ h = h') then Some b else lookup2 m d' h'.
Proof.
  unfold lookup2. destruct (decide (d = d')) as [<-|Hd].
  - rewrite lookup_insert_eq. destruct (decide (h = h')) as [<-|Hh].
    + rewrite lookup_insert_eq. by rewrite bool_decide_eq_true_2.
    + rewrite lookup_insert_ne by done.
      rewrite bool_decide_eq_false_2 by naive_solver.
      by destruct (m !! d).
  - rewrite lookup_insert_ne by done.
    by rewrite bool_decide_eq_false_2 by naive_solver.
Qed.

Lemma lookup2_insert_default {A} (m : gmap string (gmap string A))
    (d d' h' : string) :
  lookup2 (<[d := default ∅ (m !! d)]> m) d' h' = lookup2 m d' h'.
Proof.
  unfold lookup2. destruct (decide (d = d')) as [<-|Hd].
  - rewrite lookup_insert_eq. by destruct (m !! d).
  - by rewrite lookup_insert_ne.
Qed.

(** [getAccumulator] hands out the bucket of the pair, a fresh one when
    there was none, and after it the map holds that bucket. *)
Lemma getAccumulator_spec (m : Accumulators) (date habit : string) :
  trim habit = habit ->
  snd (getAccumulator m date habit)
  = default freshAccumulator (lookup2 m date habit)
  /\ forall d' h',
       lookup2 (fst (getAccumulator m date habit)) d' h'
       = if bool_decide (date = d' /\ habit = h')
         then Some (default freshAccumulator (lookup2 m date habit))
         else lookup2 m d' h'.
Proof.
  intros Ht. unfold getAccumulator. rewrite Ht.
  assert (lookup2 m date habit = default ∅ (m !! date) !! habit) as Hl
    by (unfold lookup2; by destruct (m !! date)).
  rewrite Hl.
  destruct (default ∅ (m !! date) !! habit) as [existing|] eqn:He; simpl.
  - split; [done|]. intros d' h'. rewrite lookup2_insert_default.
    case_bool_decide as Hk; [|done]. destruct Hk as [<- <-]. by rewrite Hl.
  - split; [done|]. intros d' h'. apply lookup2_insert_bucket.
Qed.

Lemma putAccumulator_spec (m : Accumulators) (date habit : string)
    (b : DateAccumulator.t) (d' h' : string) :
  trim habit = habit ->
  lookup2 (putAccumulator m date habit b) d' h'
  = if bool_decide (date = d' /\ habit = h') then Some b else lookup2 m d' h'.
Proof.
  intros Ht. unfold putAccumulator. rewrite Ht. apply lookup2_insert_bucket.
Qed.

(** What one inline match does to the bucket it names. *)
Definition inlineValueEffect (rawValue : string) (bucket : DateAccumulator.t)
  : DateAccumulator.t :=
  if String.eqb rawValue "true" || String.eqb rawValue "yes"
  then setInlineTrue bucket
  else if String.eqb rawValue "false" || String.eqb rawValue "no"
  then setInlineFalse bucket
  else if Number_isFinite (NumberOfDecimal rawValue)
  then addNumeric (NumberOfDecimal rawValue) bucket
  else bucket.

Lemma inlineTokenStep_spec (date : string) (m : Accumulators)
    (name value : string) :
  inlineTokenShape (name, value) ->
  forall d' h',
    lookup2 (inlineTokenStep date m (name, value)) d' h'
    = if bool_decide (date = d' /\ name = h')
      then Some (inlineValueEffect (toLowerCase value)
                   (default freshAccumulator (lookup2 m date name)))
      else lookup2 m d' h'.
Proof.
  intros (Hname & Hlen & Hvalue & _) d' h'. simpl in *.
  assert (trim name = name) as Hn
    by (apply trim_id; eapply strAll_impl; [apply habit_unit_not_space|done]).
  assert (trim value = value) as Hv
    by (apply trim_id; eapply strAll_impl; [apply value_unit_not_space|done]).
  unfold inlineTokenStep, inlineValueEffect. simpl. rewrite Hn, Hv.
  destruct (String.length name =? 0)%nat eqn:Hz; [apply Nat.eqb_eq in Hz; lia|].
  destruct (getAccumulator_spec m date name Hn) as [Hb Hm].
  destruct (getAccumulator m date name) as [m1 bucket]. simpl in Hb, Hm.
  subst bucket.
  repeat match goal with
         | |- context [if ?c then _ else _] =>
             lazymatch c with
             | bool_decide _ => fail
             | _ => destruct c
             end
         end;
    rewrite ?putAccumulator_spec, ?Hn, Hm by done;
    by repeat case_bool_decide.
Qed.

(** C3, as the code has it.  A line is searched from the left for
    [habit-<name>::<value>], the name in lower snake case; the value is
    one of the words [true], [false], [yes], [no] as written, in lower
    case, or a decimal literal taken as far as it goes.  A text that
    does not hold [habit-] changes nothing, and behind such a text:
    - a [habit-] that goes on to no token is passed over;
    - where no value of the pattern comes behind [habit-<name>::] (a
      word in upper case, a sign [+], a leading point, other text)
      there is no token: nothing changes, and the search goes on behind
      [::];
    - a token changes the bucket of (date, name) only, a fresh one when
      there was none: [true] and [yes] set its inline-true flag,
      [false] and [no] its inline-false flag, a literal with a finite
      value is added to its numeric sum and sets [hasNumeric], and a
      literal too large for a finite number leaves the fields as they
      were; lower-casing changes no value; the search goes on in the
      text behind the value. *)
Theorem inline_token_classification
    (pre date : string) (accs : Accumulators) :
  occursIn "habit-" pre = false ->
  extractInlineTokens pre date accs = accs
  /\ (forall t,
        beginsInlineToken t = false ->
        extractInlineTokens (pre ++ "habit-" ++ t) date accs
        = extractInlineTokens t date accs)
  /\ (forall name rest,
        isLowerSnakeCase name = true ->
        startsInlineValue rest = false ->
        extractInlineTokens (pre ++ "habit-" ++ name ++ "::" ++ rest) date accs
        = extractInlineTokens rest date accs)
  /\ (forall name value post,
        isLowerSnakeCase name = true ->
        isInlineValue value post = true ->
        let bucket := default freshAccumulator (lookup2 accs date name) in
        toLowerCase value = value
        /\ exists after,
             extractInlineTokens
               (pre ++ "habit-" ++ name ++ "::" ++ value ++ post) date accs
             = extractInlineTokens post date after
             /\ lookup2 after date name
                = Some (if String.eqb value "true" || String.eqb value "yes"
                        then
                          {| numericSum := numericSum bucket;
                             hasNumeric := hasNumeric bucket;
                             inlineTrue := true;
                             inlineFalse := inlineFalse bucket;
                             checklistTrue := checklistTrue bucket;
                             checklistFalse := checklistFalse bucket |}
                        else if String.eqb value "false"
                                || String.eqb value "no"
                        then
                          {| numericSum := numericSum bucket;
                             hasNumeric := hasNumeric bucket;
                             inlineTrue := inlineTrue bucket;
                             inlineFalse := true;
                             checklistTrue := checklistTrue bucket;
                             checklistFalse := checklistFalse bucket |}
                        else if Number_isFinite (NumberOfDecimal value) then
                          {| numericSum :=
                               num_add (numericSum bucket)
                                       (NumberOfDecimal value);
                             hasNumeric := true;
                             inlineTrue := inlineTrue bucket;
                             inlineFalse := inlineFalse bucket;
                             checklistTrue := checklistTrue bucket;
                             checklistFalse := checklistFalse bucket |}
                        else bucket)
             /\ forall d h, ~ (date = d /\ name = h) ->
                            lookup2 after d h = lookup2 accs d h).
Proof.
  intros Hpre. split; [|split; [|split]].
  - unfold extractInlineTokens, matchAllInline.
    by rewrite scanInline_none.
  - intros t Ht. unfold extractInlineTokens, matchAllInline.
    by rewrite scanInline_before, scanInline_pass by done.
  - intros name rest Hname Hrest. unfold extractInlineTokens, matchAllInline.
    by rewrite scanInline_before, scanInline_no_value by done.
  - intros name value post Hname Hvalue bucket.
    pose proof (scanInline_token name value post Hname Hvalue) as Hscan.
    assert (inlineTokenShape (name, value)) as Hshape.
    { pose proof (scanInline_shape 0
                    ("habit-" ++ name ++ "::" ++ value ++ post)) as Hall.
      rewrite Hscan in Hall. by inversion Hall. }
    assert (toLowerCase value = value) as Hlow.
    { destruct Hshape as (_ & _ & Hv & _). apply toLowerCase_id.
      eapply strAll_impl; [apply value_unit_lower | done]. }
    split; [done|].
    exists (inlineTokenStep date accs (name, value)).
    split; [|split].
    + unfold extractInlineTokens, matchAllInline.
      by rewrite scanInline_before, Hscan by done.
    + rewrite inlineTokenStep_spec by done.
      rewrite bool_decide_eq_true_2 by done.
      unfold inlineValueEffect. rewrite Hlow. fold bucket.
      by repeat match goal with
                | |- context [if ?c then _ else _] => destruct c
                end.
    + intros d h Hne. rewrite inlineTokenStep_spec by done.
      by rewrite bool_decide_eq_false_2.
Qed.

(** The active date of the examples. *)
Definition activeDay : string := "2026-02-10".

Lemma inline_token_classification_witness :
  lookup2 (extractInlineTokens
             "- [x] habit-run habit-run::20, habit-run::1e5, habit-run::TRUE"
             activeDay ∅)
          activeDay "run"
  = Some {| numericSum := numOfZ 21; hasNumeric := true;
            inlineTrue := false; inlineFalse := false;
            checklistTrue := false; checklistFalse := false |}.
Proof.
  destruct (inline_token_classification "- [x] " activeDay ∅ eq_refl)
    as (_ & Hpass & _).
  specialize (Hpass "run habit-run::20, habit-run::1e5, habit-run::TRUE"
                eq_refl).
  destruct (inline_token_classification "run " activeDay ∅ eq_refl)
    as (_ & _ & _ & Hfirst).
  destruct (Hfirst "run" "20" ", habit-run::1e5, habit-run::TRUE"
              eq_refl eq_refl)
    as (_ & after1 & Hline1 & Hbucket1 & _).
  destruct (inline_token_classification ", " activeDay after1 eq_refl)
    as (_ & _ & _ & Hsecond).
  destruct (Hsecond "run" "1" "e5, habit-run::TRUE" eq_refl eq_refl)
    as (_ & after2 & Hline2 & Hbucket2 & _).
  destruct (inline_token_classification "e5, " activeDay after2 eq_refl)
    as (_ & _ & Hthird & _).
  specialize (Hthird "run" "TRUE" eq_refl eq_refl).
  destruct (inline_token_classification "TRUE" activeDay after2 eq_refl)
    as (Hlast & _).
  cbv [String.append] in Hpass, Hline1, Hline2, Hthird.
  rewrite Hpass, Hline1, Hline2, Hthird, Hlast.
  rewrite Hbucket2, Hbucket1. reflexivity.
Defined.

(** C3, as stated, fails: the value [TRUE] in lower case is [true],
    and the line [habit-run::TRUE] sets no flag; it leaves no bucket
    at all. *)
Lemma inline_token_upper_case_counterexample :
  ~ (forall name value date accs,
       isLowerSnakeCase name = true ->
       toLowerCase value = "true" \/ toLowerCase value = "yes" ->
       exists bucket,
         lookup2 (extractInlineTokens ("habit-" ++ name ++ "::" ++ value)
                    date accs) date name
         = Some bucket
         /\ inlineTrue bucket = true).
Proof.
  intros Hclaim.
  destruct (Hclaim "run" "TRUE" activeDay ∅ eq_refl (or_introl eq_refl))
    as (bucket & Hbucket & _).
  vm_compute in Hbucket. discriminate Hbucket.
Qed.

End InlineTokens.

(** ** Habit names found by a scan (scanner.ts, [scan]) *)

Section HabitsFound.
#[local] Set Warnings "-clear-no-such-hyp".
Context {tz : TimeZone}.
Variable vault : Vault.

(** The files of a scan with the parse each one got from
    [getParsedFile], the scanner going from one file to the next. *)
Fixpoint parsedDuringScan (this : HabitScanner) (files : list TFile)
  : list (TFile * ParsedFileData.t) :=
  match files with
  | [] => []
  | f :: rest =>
      (f, content (snd (getParsedFile vault this f)))
        :: parsedDuringScan (fst (getParsedFile vault this f)) rest
  end.

Lemma valueStep_fold_found (date : string) (st : ScanState)
    (valuesByHabit : gmap string ResolvedHabitValue) :
  found (map_fold (valueStep date) st valuesByHabit)
  = dom valuesByHabit ∪ found st.
Proof.
  apply (map_fold_weak_ind
           (fun r (m : gmap string ResolvedHabitValue) =>
              found r = dom m ∪ found st)).
  - rewrite dom_empty_L. set_solver.
  - intros habit v m r _ IH. simpl. rewrite IH, dom_insert_L. set_solver.
Qed.

Lemma dateStep_fold_found (dateSet : gset string) (st : ScanState)
    (values : gmap string (gmap string ResolvedHabitValue)) (habit : string) :
  habit ∈ found (map_fold (dateStep dateSet) st values)
  <-> habit ∈ found st
      \/ exists date, date ∈ dateSet /\ is_Some (lookup2 values date habit).
Proof.
  apply (map_fold_weak_ind
           (fun r (m : gmap string (gmap string ResolvedHabitValue)) =>
              habit ∈ found r
              <-> habit ∈ found st
                  \/ exists date, date ∈ dateSet
                                  /\ is_Some (lookup2 m date habit))).
  - split; [auto|]. intros [?|(date & _ & Hs)]; [done|].
    unfold lookup2 in Hs. rewrite lookup_empty in Hs. by destruct Hs.
  - intros date vh m r Hfresh IH. unfold dateStep.
    assert (forall d, is_Some (lookup2 (<[date := vh]> m) d habit)
                      <-> (d = date /\ habit ∈ dom vh)
                          \/ is_Some (lookup2 m d habit)) as Hlk.
    { intros d. unfold lookup2. destruct (decide (date = d)) as [<-|Hne].
      - rewrite lookup_insert_eq, Hfresh, elem_of_dom.
        split; [auto|]. intros [[_ ?]|[? ?]]; done.
      - rewrite lookup_insert_ne by done.
        split; [auto|]. intros [[-> _]|?]; done. }
    case_bool_decide as Hin.
    + rewrite valueStep_fold_found, elem_of_union, IH. split.
      * intros [Hd|[?|(d & ? & ?)]]; [right; exists date| |right; exists d];
          rewrite ?Hlk; auto.
      * intros [?|(d & ? & [[-> ?]|?]%Hlk)]; eauto.
    + rewrite IH. split.
      * intros [?|(d & ? & ?)]; [auto|right; exists d]; rewrite ?Hlk; auto.
      * intros [?|(d & ? & [[-> ?]|?]%Hlk)]; eauto. done.
Qed.

Lemma scanFiles_found (dateSet : gset string) (files : list TFile)
    (this : HabitScanner) (st : ScanState) (habit : string) :
  habit ∈ found (snd (fold_left (scanFile vault dateSet) files (this, st)))
  <-> habit ∈ found st
      \/ exists f parsed date,
           In (f, parsed) (parsedDuringScan this files)
           /\ date ∈ dateSet
           /\ is_Some (lookup2 (ParsedFileData.valuesByDateHabit parsed)
                               date habit).
Proof.
  revert this st. induction files as [|f rest IH]; intros this st; simpl.
  - split; [auto|]. by intros [?|(? & ? & ? & [] & _)].
  - destruct (getParsedFile vault this f) as [this' ref] eqn:Hg. simpl.
    rewrite IH, dateStep_fold_found. simpl. split.
    + intros [[?|(date & ? & ?)]|(f' & p & date & ? & ? & ?)];
        [by left | right | right].
      * exists f, (content ref), date. auto.
      * exists f', p, date. auto.
    + intros [?|(f' & p & date & [[= <- <-]|?] & ? & ?)]; [auto| |].
      * left. right. by exists date.
      * right. by exists f', p, date.
Qed.

(** C1, as the code has it.  A habit name is in [habitsFound] exactly
    when one of the scanned documents holds a value for it under a date
    of the requested range. *)
Theorem habitsFound_in_range
    (this : HabitScanner) (currentFile : TFile) (range : RangeResolution.t)
    (habit : string) :
  habit ∈ ScanResult.habitsFound (snd (scan vault this currentFile range))
  <-> exists f parsed date,
        In (f, parsed)
           (parsedDuringScan this
              (getFilesForRange vault currentFile (RangeResolution.type range)))
        /\ In date (RangeResolution.dates range)
        /\ is_Some (lookup2 (ParsedFileData.valuesByDateHabit parsed)
                            date habit).
Proof.
  unfold scan.
  pose proof (scanFiles_found (list_to_set (RangeResolution.dates range))
                (getFilesForRange vault currentFile (RangeResolution.type range))
                this {| aggregates := ∅; candidates := ∅; found := ∅ |} habit)
    as Hfold.
  destruct (fold_left _ _ _) as [this' st]. simpl in *.
  rewrite Hfold. split.
  - intros [?|(f & p & date & ? & Hd & ?)]; [set_solver|].
    exists f, p, date. rewrite elem_of_list_to_set, list_elem_of_In in Hd.
    auto.
  - intros (f & p & date & ? & Hd & ?). right. exists f, p, date.
    rewrite elem_of_list_to_set, list_elem_of_In. auto.
Qed.

End HabitsFound.

Section HabitsFoundExample.

Definition lineFeed : string := String (ascii_of_N 10) "".

Definition weekNote : TFile :=
  {| path := "journal/2026.02.09 - 2026.02.15.md";
     basename := "2026.02.09 - 2026.02.15";
     stat_mtime := 1 |}.

Definition weekNoteText : string :=
  "## 2026.02.10" ++ lineFeed ++ "habit-workout::20" ++ lineFeed
  ++ "## 2026.02.20" ++ lineFeed ++ "habit-stretch::true".

Definition weekVault : Vault :=
  {| getMarkdownFiles := [weekNote]; cachedRead := fun _ => weekNoteText |}.

Definition weekRange : RangeResolution.t :=
  {| RangeResolution.type := "week";
     RangeResolution.startDate := "2026-02-09";
     RangeResolution.endDate := "2026-02-15";
     RangeResolution.dates :=
       ["2026-02-09"; "2026-02-10"; "2026-02-11"; "2026-02-12";
        "2026-02-13"; "2026-02-14"; "2026-02-15"] |}.

(** C1, as stated, fails: [stretch] has a value in the parse of the
    scanned note, under a date outside the week, and is not found. *)
Lemma habitsFound_out_of_range_counterexample :
  ~ (forall (vault : Vault) (this : HabitScanner) (currentFile : TFile)
            (range : RangeResolution.t) f parsed date habit,
       In (f, parsed)
          (parsedDuringScan (tz:=UTCZone) vault this
             (getFilesForRange vault currentFile (RangeResolution.type range))) ->
       is_Some (lookup2 (ParsedFileData.valuesByDateHabit parsed) date habit) ->
       habit ∈ ScanResult.habitsFound
                 (snd (scan (tz:=UTCZone) vault this currentFile range))).
Proof.
  intros Hclaim.
  specialize (Hclaim weekVault newScanner weekNote weekRange weekNote
                (parseMarkdownHabits (tz:=UTCZone) weekNote weekNoteText)
                "2026-02-20" "stretch").
  assert (bool_decide
            ("stretch" ∈ ScanResult.habitsFound
               (snd (scan (tz:=UTCZone) weekVault newScanner weekNote weekRange)))
          = false) as Hnot by (vm_compute; reflexivity).
  apply bool_decide_eq_false in Hnot. apply Hnot, Hclaim.
  - left. reflexivity.
  - vm_compute. by eexists.
Qed.

End HabitsFoundExample.

(** ** The parse cache (scanner.ts, [getParsedFile] and
       [invalidatePath]) *)

(** The states a scanner goes through, from [new HabitScanner(app)]. *)
Inductive Reachable {tz : TimeZone} : HabitScanner -> Prop :=
  | reach_new : Reachable newScanner
  | reach_getParsedFile vault this f :
      Reachable this -> Reachable (fst (getParsedFile vault this f))
  | reach_invalidatePath p this :
      Reachable this -> Reachable (invalidatePath p this)
  | reach_clear this :
      Reachable this -> Reachable (clear this).

Section ParseCache.
#[local] Set Warnings "-clear-no-such-hyp".
Context {tz : TimeZone}.

(** Every cached object was allocated before now. *)
Definition cacheBelowAllocated (this : HabitScanner) : Prop :=
  forall p e, cache this !! p = Some e ->
              (address (CacheEntry.parsed e) < allocated this)%nat.

(** [getParsedFile] either finds a valid entry and changes nothing, or
    reads, parses, allocates and stores. *)
Lemma getParsedFile_cases (vault : Vault) (this : HabitScanner) (f : TFile) :
  (exists e, cache this !! path f = Some e
             /\ CacheEntry.mtime e = stat_mtime f
             /\ getParsedFile vault this f = (this, CacheEntry.parsed e))
  \/ ((forall e, cache this !! path f = Some e ->
                 CacheEntry.mtime e <> stat_mtime f)
      /\ getParsedFile vault this f
         = ({| cache :=
                 <[path f :=
                     {| CacheEntry.mtime := stat_mtime f;
                        CacheEntry.parsed :=
                          {| address := allocated this;
                             content :=
                               parseMarkdownHabits f (cachedRead vault f) |} |}]>
                   (cache this);
               allocated := S (allocated this);
               reads := (reads this ++ [path f])%list |},
            {| address := allocated this;
               content := parseMarkdownHabits f (cachedRead vault f) |})).
Proof.
  unfold getParsedFile.
  destruct (cache this !! path f) as [e|] eqn:He.
  - destruct (Z.eqb_spec (CacheEntry.mtime e) (stat_mtime f)) as [Heq|Hne].
    + left. by exists e.
    + right. split; [|done]. by intros e' [= <-].
  - right. split; [|done]. by intros e' [=].
Qed.

Lemma getParsedFile_other_path (vault : Vault) (this : HabitScanner)
    (f : TFile) (p : string) :
  path f <> p ->
  cache (fst (getParsedFile vault this f)) !! p = cache this !! p.
Proof.
  intros Hne.
  destruct (getParsedFile_cases vault this f) as [(e & _ & _ & ->)|[_ ->]];
    simpl; [done|]. by rewrite lookup_insert_ne.
Qed.

Lemma getParsedFile_allocated (vault : Vault) (this : HabitScanner) (f : TFile) :
  (allocated this <= allocated (fst (getParsedFile vault this f)))%nat.
Proof.
  destruct (getParsedFile_cases vault this f) as [(e & _ & _ & ->)|[_ ->]];
    simpl; lia.
Qed.

Lemma getParsedFile_below (vault : Vault) (this : HabitScanner) (f : TFile) :
  cacheBelowAllocated this ->
  cacheBelowAllocated (fst (getParsedFile vault this f))
  /\ (address (snd (getParsedFile vault this f))
      < allocated (fst (getParsedFile vault this f)))%nat.
Proof.
  intros Hwf.
  destruct (getParsedFile_cases vault this f) as [(e & He & _ & ->)|[_ ->]];
    simpl.
  - split; [done|]. by apply (Hwf (path f)).
  - split; [|lia]. intros p e. simpl.
    destruct (decide (path f = p)) as [<-|Hne].
    + rewrite lookup_insert_eq. intros [= <-]. simpl. lia.
    + rewrite lookup_insert_ne by done. intros He%Hwf. lia.
Qed.

Lemma reachable_below (this : HabitScanner) :
  Reachable this -> cacheBelowAllocated this.
Proof.
  induction 1 as [|vault this f _ IH|p this _ IH|this _ IH].
  - intros p e. simpl. by rewrite lookup_empty.
  - by apply getParsedFile_below.
  - intros q e. simpl. intros [_ He]%lookup_delete_Some. by apply IH in He.
  - intros p e. simpl. by rewrite lookup_empty.
Qed.

(** Calls of [getParsedFile] for a list of files, one after another. *)
Definition visit (vault : Vault) (files : list TFile) (this : HabitScanner)
  : HabitScanner :=
  fold_left (fun s g => fst (getParsedFile vault s g)) files this.

Lemma visit_other_paths (vault : Vault) (files : list TFile)
    (this : HabitScanner) (p : string) :
  Forall (fun g => path g <> p) files ->
  cache (visit vault files this) !! p = cache this !! p.
Proof.
  unfold visit. revert this.
  induction files as [|g rest IH]; intros this Hall; simpl; [done|].
  inversion Hall; subst. rewrite IH by done. by apply getParsedFile_other_path.
Qed.

Lemma visit_allocated (vault : Vault) (files : list TFile) (this : HabitScanner) :
  (allocated this <= allocated (visit vault files this))%nat.
Proof.
  unfold visit. revert this.
  induction files as [|g rest IH]; intros this; simpl; [lia|].
  etrans; [apply (getParsedFile_allocated vault this g)|apply IH].
Qed.

(** C9.  After [getParsedFile] has answered for a document: (1) a
    further call with the same path and modification time, whatever
    happened to other paths in between and whatever the vault now
    holds, answers the same object and changes nothing, so that nothing
    is read or parsed; (2) the entry is reused exactly when the stored
    modification time is the current one; (3) after [invalidatePath],
    or with another modification time, the call reads the document,
    parses it, and stores and answers a new object. *)
Theorem cache_coherence
    (vault vault' : Vault) (this : HabitScanner) (f f' : TFile) :
  Reachable this ->
  path f' = path f ->
  let first := fst (getParsedFile vault this f) in
  let object := snd (getParsedFile vault this f) in
  (stat_mtime f' = stat_mtime f ->
   forall others, Forall (fun g => path g <> path f) others ->
     getParsedFile vault' (visit vault' others first) f'
     = (visit vault' others first, object))
  /\ (forall e, cache first !! path f' = Some e ->
        (fst (getParsedFile vault' first f') = first
         <-> CacheEntry.mtime e = stat_mtime f'))
  /\ (forall stale,
        stale = invalidatePath (path f) first
        \/ (stale = first /\ stat_mtime f' <> stat_mtime f) ->
        let second := fst (getParsedFile vault' stale f') in
        let fresh := snd (getParsedFile vault' stale f') in
        reads second = (reads stale ++ [path f'])%list
        /\ allocated second = S (allocated stale)
        /\ content fresh = parseMarkdownHabits f' (cachedRead vault' f')
        /\ address fresh <> address object
        /\ cache second !! path f'
           = Some {| CacheEntry.mtime := stat_mtime f';
                     CacheEntry.parsed := fresh |}).
Proof.
  intros Hreach Hpath first object.
  assert (cache first !! path f
          = Some {| CacheEntry.mtime := stat_mtime f;
                    CacheEntry.parsed := object |}) as Hstored.
  { subst first object.
    destruct (getParsedFile_cases vault this f) as [(e & He & Hm & ->)|[_ ->]];
      simpl.
    - rewrite He, <- Hm. by destruct e.
    - by rewrite lookup_insert_eq. }
  assert ((address object < allocated first)%nat) as Hbelow
    by (apply getParsedFile_below; by apply reachable_below).
  split; [|split].
  - intros Hmtime others Hothers.
    pose proof (visit_other_paths vault' others first (path f) Hothers) as Hkeep.
    destruct (getParsedFile_cases vault' (visit vault' others first) f')
      as [(e & He & _ & ->)|[Hmiss _]].
    + rewrite Hpath, Hkeep, Hstored in He. by inversion He.
    + exfalso. apply (Hmiss {| CacheEntry.mtime := stat_mtime f;
                               CacheEntry.parsed := object |}); [|done].
      by rewrite Hpath, Hkeep.
  - intros e He.
    destruct (getParsedFile_cases vault' first f')
      as [(e' & He' & Hm & ->)|[Hmiss ->]]; simpl.
    + rewrite He in He'. inversion He'; subst. done.
    + split; [|by intros ?%(Hmiss e He)].
      intros Heq. apply (f_equal allocated) in Heq. simpl in Heq. lia.
  - intros stale Hstale second fresh.
    assert (forall e, cache stale !! path f' = Some e ->
                      CacheEntry.mtime e <> stat_mtime f') as Hinvalid.
    { intros e. destruct Hstale as [->|[-> Hne]].
      - simpl. rewrite Hpath. by rewrite lookup_delete_eq.
      - rewrite Hpath, Hstored. by intros [= <-]. }
    assert (allocated stale = allocated first) as Halloc
      by (by destruct Hstale as [->|[-> _]]).
    subst second fresh.
    destruct (getParsedFile_cases vault' stale f')
      as [(e & He & Hm & _)|[_ ->]]; simpl.
    + by apply Hinvalid in He.
    + repeat split; try done; [lia|]. by rewrite lookup_insert_eq.
Qed.

End ParseCache.

Definition sampleNote : TFile :=
  {| path := "journal/week.md"; basename := "week"; stat_mtime := 1700000000000 |}.

Definition sampleVault (text : string) : Vault :=
  {| getMarkdownFiles := [sampleNote]; cachedRead := fun _ => text |}.

Lemma cache_coherence_witness :
  let first := fst (getParsedFile (tz:=UTCZone) (sampleVault "habit-a::1")
                      newScanner sampleNote) in
  let object := snd (getParsedFile (tz:=UTCZone) (sampleVault "habit-a::1")
                       newScanner sampleNote) in
  getParsedFile (tz:=UTCZone) (sampleVault "habit-a::2") first sampleNote
  = (first, object).
Proof.
  intros first object.
  destruct (cache_coherence (tz:=UTCZone)
              (sampleVault "habit-a::1") (sampleVault "habit-a::2")
              newScanner sampleNote sampleNote reach_new eq_refl)
    as [Hreuse _].
  exact (Hreuse eq_refl [] (List.Forall_nil _)).
Defined.

(** ** Appearance of a cell (renderer.ts, [resolveAppearance] and
       [resolveNumericColor]) *)

(** The comparator of a threshold, applied to a value. *)
Definition thresholdMatches (value : number) (t : NumericThreshold.t) : bool :=
  match NumericThreshold.kind t with
  | le => num_leb value (NumericThreshold.value t)
  | gt => num_gtb value (NumericThreshold.value t)
  end.

Section AppearancePolicy.
Context {tz : TimeZone}.
Variable now : Date.
Variable numberToString : number -> string.

Lemma firstMatch_Some (thresholds : list NumericThreshold.t) (value : number)
    (c : string) :
  firstMatch thresholds value = Some c ->
  exists skipped t rest,
    thresholds = (skipped ++ t :: rest)%list
    /\ forallb (fun u => negb (thresholdMatches value u)) skipped = true
    /\ thresholdMatches value t = true
    /\ c = NumericThreshold.color t.
Proof.
  induction thresholds as [|t rest IH]; simpl; [done|].
  destruct (thresholdMatches value t) eqn:Hm.
  - intros Hc. exists [], t, rest. repeat split; [done|].
    unfold thresholdMatches in Hm.
    destruct (NumericThreshold.kind t); rewrite Hm in Hc; by inversion Hc.
  - intros Hc.
    assert (firstMatch rest value = Some c) as Hrest.
    { unfold thresholdMatches in Hm.
      destruct (NumericThreshold.kind t); by rewrite Hm in Hc. }
    destruct (IH Hrest) as (skipped & t' & rest' & -> & Hs & Ht & ->).
    exists (t :: skipped), t', rest'. simpl. by rewrite Hm.
Qed.

Lemma firstMatch_None (thresholds : list NumericThreshold.t) (value : number) :
  firstMatch thresholds value = None ->
  forallb (fun u => negb (thresholdMatches value u)) thresholds = true.
Proof.
  induction thresholds as [|t rest IH]; simpl; [done|].
  unfold thresholdMatches at 1.
  destruct (NumericThreshold.kind t);
    match goal with |- context [if ?c then _ else _] => destruct c end;
    simpl; auto; done.
Qed.

(** [date >= today] is the order of the code units. *)
Lemma leb_ge (today date : string) :
  String.leb today date = true <-> String.compare date today <> Lt.
Proof.
  unfold String.leb. rewrite (String.compare_antisym date today).
  destruct (String.compare today date); simpl; split; congruence.
Qed.

(** C8.  The appearance of a cell:
    - no value, and the date at or after today in the order of code
      units: the blank-future colour, the blank tooltip, kind blank;
    - no value, and the date before today: the no-data colour and
      tooltip;
    - a boolean: the configured colour of its value and its name;
    - a number: the colour of the first threshold, in configured
      order, whose comparator holds for it, and the colour of the last
      threshold when none holds; the tooltip is the number as text. *)
Theorem appearance_policy (config : NormalizedConfig.t) (date : string)
    (value : option ResolvedHabitValue) :
  let today := toIsoDate now in
  let colors := NormalizedConfig.colors config in
  let thresholds :=
    NormalizedConfig.thresholds (NormalizedConfig.numeric colors) in
  let a := resolveAppearance now numberToString config date value in
  match value with
  | None =>
      match String.compare date today with
      | Lt =>
          a = {| color := NormalizedConfig.noData colors;
                 tooltip := "no data"; kind := data |}
      | _ =>
          a = {| color := NormalizedConfig.blankFuture colors;
                 tooltip := "blank (today/future missing)"; kind := blank |}
      end
  | Some (Boolean true) =>
      a = {| color := NormalizedConfig.true_ (NormalizedConfig.boolean colors);
             tooltip := "true"; kind := data |}
  | Some (Boolean false) =>
      a = {| color := NormalizedConfig.false_ (NormalizedConfig.boolean colors);
             tooltip := "false"; kind := data |}
  | Some (Numeric v) =>
      tooltip a = numberToString v /\ kind a = data
      /\ ((exists skipped t rest,
             thresholds = (skipped ++ t :: rest)%list
             /\ forallb (fun u => negb (thresholdMatches v u)) skipped = true
             /\ thresholdMatches v t = true
             /\ color a = NumericThreshold.color t)
          \/ (forallb (fun u => negb (thresholdMatches v u)) thresholds = true
              /\ color a = match last thresholds with
                           | Some t => NumericThreshold.color t
                           | None => "#6b7280"
                           end))
  end.
Proof.
  intros today colors thresholds a. subst a. unfold resolveAppearance.
  destruct value as [[v|[|]]|]; try reflexivity.
  - simpl. split; [done|]. split; [done|].
    unfold resolveNumericColor. fold colors. fold thresholds.
    destruct (firstMatch thresholds v) as [c|] eqn:Hf.
    + left. by apply firstMatch_Some.
    + right. split; [by apply firstMatch_None | done].
  - unfold todayIsoDate. fold today.
    pose proof (leb_ge today date) as Hge.
    destruct (String.leb today date);
      destruct (String.compare date today); try reflexivity.
    + exfalso. by apply (proj1 Hge).
    + exfalso. assert (false = true) by (apply Hge; congruence). done.
    + exfalso. assert (false = true) by (apply Hge; congruence). done.
Qed.

End AppearancePolicy.

Section AppearanceExamples.

(** A configuration that normalisation accepted has a threshold, so the
    colour of the last one is there to fall back on. *)
Lemma normalizeConfig_thresholds_nonempty
    (input : HeatmapBlockConfig.t) (config : NormalizedConfig.t) :
  normalizeConfig input = Ok config ->
  NormalizedConfig.thresholds
    (NormalizedConfig.numeric (NormalizedConfig.colors config)) <> [].
Proof.
  unfold normalizeConfig.
  set (raw := default [] _).
  assert (forall errs, fst (normalizeThresholds raw errs) <> []) as Hnorm.
  { intros errs. unfold normalizeThresholds.
    destruct (List.length (omap normalizeThreshold raw) =? 0)%nat eqn:Hl;
      simpl; [done|].
    intros Hnil. rewrite Hnil in Hl. done. }
  destruct (0 <? List.length raw)%nat.
  - specialize (Hnorm []).
    destruct (normalizeThresholds raw []) as [ts errs].
    match goal with
    | |- (if ?c then _ else _) = _ -> _ => destruct c; [done|]
    end.
    intros [= <-]. exact Hnorm.
  - match goal with
    | |- (if ?c then _ else _) = _ -> _ => destruct c; [done|]
    end.
    by intros [= <-].
Qed.

(** The ladder of the specification: -3, 10, 51 and 1000000 on the
    default thresholds, and 5 on the single threshold [le 0]. *)
Example default_ladder :
  List.map (resolveNumericColor defaultThresholds)
           [NumberOfDecimal "-3"; NumberOfDecimal "10";
            NumberOfDecimal "51"; NumberOfDecimal "1000000"]
  = ["#111827"; "#1f2937"; "#6b7280"; "#6b7280"]
  /\ resolveNumericColor
       [{| NumericThreshold.kind := le; NumericThreshold.value := numOfZ 0;
           NumericThreshold.color := "A" |}]
       (NumberOfDecimal "5")
     = "A".
Proof. split; vm_compute; reflexivity. Qed.

End AppearanceExamples.

(** ** Thresholds of a configuration (renderer.ts,
       [normalizeThresholds]) *)

(** The colour of an entry, when the entry is an object whose [color]
    is a string. *)
Definition entryColor (entry : json) : option string :=
  match entry with
  | JObj fields =>
      match fields !! "color" with
      | Some (JStr c) => Some c
      | _ => None
      end
  | _ => None
  end.

(** The bound of an entry under [key], when the entry is an object and
    the field is a number. *)
Definition entryBound (key : string) (entry : json) : option number :=
  match entry with
  | JObj fields =>
      match fields !! key with
      | Some (JNum n) => Some n
      | _ => None
      end
  | _ => None
  end.

(** The shape the code keeps: a colour that is not blank, and a numeric
    [le] or [gt] bound. *)
Definition hasThresholdShape (entry : json) : bool :=
  match entryColor entry with
  | Some c =>
      negb (String.length (trim c) =? 0)%nat
      && (bool_decide (is_Some (entryBound "le" entry))
          || bool_decide (is_Some (entryBound "gt" entry)))
  | None => false
  end.

(** The threshold kept for an entry: its colour as written, its [le]
    bound when it has one, its [gt] bound otherwise. *)
Definition keptAs (entry : json) (t : NumericThreshold.t) : Prop :=
  entryColor entry = Some (NumericThreshold.color t)
  /\ match entryBound "le" entry with
     | Some bound =>
         NumericThreshold.kind t = le /\ NumericThreshold.value t = bound
     | None =>
         NumericThreshold.kind t = gt
         /\ entryBound "gt" entry = Some (NumericThreshold.value t)
     end.

(** The shape the claim words: a colour that is not empty, and one of
    the two bounds but not both. *)
Definition claimedThresholdShape (entry : json) : bool :=
  match entryColor entry with
  | Some c =>
      negb (String.length c =? 0)%nat
      && xorb (bool_decide (is_Some (entryBound "le" entry)))
              (bool_decide (is_Some (entryBound "gt" entry)))
  | None => false
  end.

Section Thresholds.

Lemma normalizeThreshold_shape (entry : json) :
  match normalizeThreshold entry with
  | Some t => hasThresholdShape entry = true /\ keptAs entry t
  | None => hasThresholdShape entry = false
  end.
Proof.
  unfold normalizeThreshold, hasThresholdShape, keptAs, entryColor, entryBound,
    getProp.
  destruct entry as [| | | | |items|fields]; try done.
  destruct (fields !! "color") as [[| | | |c| |]|]; simpl; try done.
  destruct (String.length (trim c) =? 0)%nat; simpl; [done|].
  destruct (fields !! "le") as [[| | |n| | |]|]; simpl;
    destruct (fields !! "gt") as [[| | |n'| | |]|]; simpl; done.
Qed.

Lemma kept_thresholds (input : list json) :
  Forall2 keptAs (List.filter hasThresholdShape input)
          (omap normalizeThreshold input).
Proof.
  induction input as [|entry rest IH]; simpl; [constructor|].
  pose proof (normalizeThreshold_shape entry) as Hs.
  destruct (normalizeThreshold entry) as [t|].
  - destruct Hs as [-> Hk]. by constructor.
  - by rewrite Hs.
Qed.

(** C5, as the code has it.  The thresholds kept are, in input order,
    those of the entries that are objects with a colour string that is
    not blank and with a numeric [le] bound or a numeric [gt] bound, an
    entry with both being kept for its [le] bound; the other entries
    are dropped without an error; when nothing is kept, one error is
    added and the default ladder is the result. *)
Theorem thresholds_normalization (input : list json) (errors : list string) :
  exists kept,
    Forall2 keptAs (List.filter hasThresholdShape input) kept
    /\ normalizeThresholds input errors
       = match kept with
         | [] =>
             (defaultThresholds,
              (errors ++
               ["colors.numeric.thresholds must include at least one valid threshold"])%list)
         | _ => (kept, errors)
         end.
Proof.
  exists (omap normalizeThreshold input). split; [apply kept_thresholds|].
  unfold normalizeThresholds.
  by destruct (omap normalizeThreshold input).
Qed.

Definition bothBounds : json :=
  JObj {[ "color" := JStr "#ffffff";
          "le" := JNum (numOfZ 1);
          "gt" := JNum (numOfZ 2) ]}.

Definition blankColor : json :=
  JObj {[ "color" := JStr " "; "le" := JNum (numOfZ 1) ]}.

(** C5, as stated, fails: an entry with both bounds is kept, and an
    entry whose colour is a blank is dropped. *)
Lemma thresholds_claimed_shape_counterexample :
  ~ (forall entry,
       is_Some (normalizeThreshold entry) <-> claimedThresholdShape entry = true).
Proof.
  intros Hclaim.
  assert (claimedThresholdShape bothBounds = true) as Habs.
  { apply Hclaim. vm_compute. by eexists. }
  vm_compute in Habs. discriminate Habs.
Qed.

Example thresholds_kept_and_dropped :
  normalizeThresholds [bothBounds] []
  = ([{| NumericThreshold.kind := le; NumericThreshold.value := numOfZ 1;
         NumericThreshold.color := "#ffffff" |}], [])
  /\ normalizeThresholds [blankColor] []
     = (defaultThresholds,
        ["colors.numeric.thresholds must include at least one valid threshold"]).
Proof. split; vm_compute; reflexivity. Qed.

End Thresholds.

(** ** Cell size and gap (renderer.ts, [clampNumber] in
       [normalizeConfig]) *)

(** A number brought into the interval from [lo] to [hi]. *)
Definition clampTo (lo hi r : number) : number :=
  if SFltb r lo then lo else if SFltb hi r then hi else r.

(** The configuration with another [display] block. *)
Definition withDisplay (d : option HeatmapBlockConfig.display_t)
    (input : HeatmapBlockConfig.t) : HeatmapBlockConfig.t :=
  {| HeatmapBlockConfig.range := HeatmapBlockConfig.range input;
     HeatmapBlockConfig.habits := HeatmapBlockConfig.habits input;
     HeatmapBlockConfig.colors := HeatmapBlockConfig.colors input;
     HeatmapBlockConfig.display := d |}.

Section Binary64Facts.

Lemma shr_1_nonneg (mrs : shr_record) :
  (0 <= shr_m mrs)%Z -> (0 <= shr_m (shr_1 mrs))%Z.
Proof.
  destruct mrs as [m r s]. simpl.
  destruct m as [|p|p]; [done| |lia]. by destruct p.
Qed.

Lemma iter_shr_1_nonneg (p : positive) (mrs : shr_record) :
  (0 <= shr_m mrs)%Z -> (0 <= shr_m (SpecFloat.iter_pos shr_1 p mrs))%Z.
Proof.
  revert mrs. induction p as [p IH|p IH|]; intros mrs H; simpl.
  - by apply IH, IH, shr_1_nonneg.
  - by apply IH, IH.
  - by apply shr_1_nonneg.
Qed.

Lemma shr_fexp_nonneg (m e : Z) (l : location) :
  (0 <= m)%Z -> (0 <= shr_m (fst (shr_fexp 53 1024 m e l)))%Z.
Proof.
  intros Hm. unfold shr_fexp, shr.
  assert ((0 <= shr_m (shr_record_of_loc m l))%Z) as H0
    by (by destruct l as [|[]]).
  destruct (fexp 53 1024 (Zdigits2 m + e) - e)%Z; simpl; try done.
  by apply iter_shr_1_nonneg.
Qed.

Lemma binary_round_aux_not_nan (s : bool) (m e : Z) (l : location) :
  (0 <= m)%Z -> binary_round_aux 53 1024 s m e l <> S754_nan.
Proof.
  intros Hm. unfold binary_round_aux.
  pose proof (shr_fexp_nonneg m e l Hm) as H1.
  destruct (shr_fexp 53 1024 m e l) as [mrs' e']. simpl in H1.
  assert ((0 <= round_nearest_even (shr_m mrs') (loc_of_shr_record mrs'))%Z)
    as H2.
  { unfold round_nearest_even.
    destruct (loc_of_shr_record mrs') as [|[]]; try lia.
    destruct (Z.even (shr_m mrs')); lia. }
  pose proof (shr_fexp_nonneg _ e' loc_Exact H2) as H3.
  destruct (shr_fexp 53 1024 _ e' loc_Exact) as [mrs'' e'']. simpl in H3.
  destruct (shr_m mrs'') as [|p|p]; [done| |lia].
  by destruct (e'' <=? 1024 - 53)%Z.
Qed.

Lemma binary_normalize_not_nan (z : Z) (s : bool) :
  binary_normalize 53 1024 z 0 s <> S754_nan.
Proof.
  destruct z as [|p|p]; simpl; [done| |];
    unfold binary_round;
    destruct (shl_align _ _ _) as [mz ez];
    by apply binary_round_aux_not_nan.
Qed.

Lemma Math_round_not_nan (v : number) :
  Number_isNaN v = false -> Number_isNaN (Math_round v) = false.
Proof.
  intros Hv. destruct v as [s|s| |s m [|p|p]]; try done.
  unfold Math_round.
  pose proof (binary_normalize_not_nan
                ((2 * (if s then Z.neg m else Z.pos m) + 2 ^ Z.pos p)
                   / 2 ^ (Z.pos p + 1))%Z s) as Hn.
  by destruct (binary_normalize _ _ _ _ _).
Qed.

Lemma numOfZ_6 : numOfZ 6 = S754_finite false 6755399441055744 (-50).
Proof. reflexivity. Qed.

Lemma numOfZ_30 : numOfZ 30 = S754_finite false 8444249301319680 (-48).
Proof. reflexivity. Qed.

Lemma numOfZ_0 : numOfZ 0 = S754_zero false.
Proof. reflexivity. Qed.

Lemma numOfZ_8 : numOfZ 8 = S754_finite false 4503599627370496 (-49).
Proof. reflexivity. Qed.

Lemma SFcompare_pos_finite (m1 : positive) (e1 : Z) (m2 : positive) (e2 : Z) :
  SFcompare (S754_finite false m1 e1) (S754_finite false m2 e2)
  = Some match Z.compare e1 e2 with
         | Lt => Lt
         | Gt => Gt
         | Eq => Pos.compare m1 m2
         end.
Proof. reflexivity. Qed.

(** One comparison of exponents or mantissas at a time: split on it
    when it has a variable, compute it when it has none. *)
Ltac compare_step :=
  cbv beta iota delta [isNegZero];
  match goal with
  | |- context [SFcompare (S754_finite false ?a ?b) (S754_finite false ?c ?d)] =>
      rewrite (SFcompare_pos_finite a b c d)
  | |- context [Pos.compare_cont Eq ?a ?b] =>
      change (Pos.compare_cont Eq a b) with (Pos.compare a b)
  | |- context [Z.compare ?a ?b] =>
      first [ first [is_var a | is_var b];
              destruct (Z.compare_spec a b); try subst
            | let v := eval vm_compute in (Z.compare a b) in
              change (Z.compare a b) with v ]
  | |- context [Pos.compare ?a ?b] =>
      first [ first [is_var a | is_var b];
              destruct (Pos.compare_spec a b); try subst
            | let v := eval vm_compute in (Pos.compare a b) in
              change (Pos.compare a b) with v ]
  end.

Ltac compare_cases :=
  repeat compare_step; cbv beta iota delta [isNegZero];
  first [ reflexivity
        | exfalso;
          repeat match goal with
                 | H : (_ < _)%positive |- _ => apply Pos2Z.pos_lt_pos in H
                 end;
          lia ].

(** [Math.min(30, Math.max(6, r))] *)
Lemma clamp_6_30 (r : number) :
  Math_min (numOfZ 30) (Math_max (numOfZ 6) r)
  = clampTo (numOfZ 6) (numOfZ 30) r.
Proof.
  rewrite numOfZ_6, numOfZ_30.
  unfold Math_min, Math_max, clampTo, SFltb.
  destruct r as [[]|[]| |[] m e]; [vm_compute; reflexivity..|].
  compare_cases.
Qed.

(** [Math.min(8, Math.max(0, r))]: a negative zero comes out positive. *)
Lemma clamp_0_8 (r : number) :
  Math_min (numOfZ 8) (Math_max (numOfZ 0) r)
  = if isNegZero r then S754_zero false
    else clampTo (numOfZ 0) (numOfZ 8) r.
Proof.
  rewrite numOfZ_0, numOfZ_8.
  unfold Math_min, Math_max, clampTo, SFltb.
  destruct r as [[]|[]| |[] m e]; [vm_compute; reflexivity..|].
  cbn [SFcompare]. compare_cases.
Qed.

Lemma clampTo_6_30_range (r : number) :
  Number_isNaN r = false ->
  num_leb (numOfZ 6) (clampTo (numOfZ 6) (numOfZ 30) r) = true
  /\ num_leb (clampTo (numOfZ 6) (numOfZ 30) r) (numOfZ 30) = true.
Proof.
  rewrite numOfZ_6, numOfZ_30.
  unfold clampTo, SFltb, num_leb, SFleb.
  destruct r as [[]|[]| |[] m e]; try discriminate; intros _;
    [split; vm_compute; reflexivity..|].
  split; compare_cases.
Qed.

Lemma clampTo_0_8_range (r : number) :
  Number_isNaN r = false ->
  num_leb (numOfZ 0) (clampTo (numOfZ 0) (numOfZ 8) r) = true
  /\ num_leb (clampTo (numOfZ 0) (numOfZ 8) r) (numOfZ 8) = true.
Proof.
  rewrite numOfZ_0, numOfZ_8.
  unfold clampTo, SFltb, num_leb, SFleb.
  destruct r as [[]|[]| |[] m e]; try discriminate; intros _;
    [split; vm_compute; reflexivity..|].
  cbn [SFcompare]. split; compare_cases.
Qed.

End Binary64Facts.

Section DisplaySizes.

Lemma normalizeConfig_display (input : HeatmapBlockConfig.t)
    (config : NormalizedConfig.t) :
  normalizeConfig input = Ok config ->
  NormalizedConfig.cellSize (NormalizedConfig.display config)
  = clampNumber
      (from_option HeatmapBlockConfig.cellSize JUndefined
         (HeatmapBlockConfig.display input))
      (numOfZ 6) (numOfZ 30) (numOfZ 12)
  /\ NormalizedConfig.gap (NormalizedConfig.display config)
     = clampNumber
         (from_option HeatmapBlockConfig.gap JUndefined
            (HeatmapBlockConfig.display input))
         (numOfZ 0) (numOfZ 8) (numOfZ 2).
Proof.
  unfold normalizeConfig.
  destruct (if (0 <? List.length _)%nat then _ else _) as [thresholds errors].
  match goal with
  | |- (if ?c then _ else _) = _ -> _ => destruct c; [done|]
  end.
  by intros [= <-].
Qed.

(** The errors of a configuration do not look at its [display] block. *)
Lemma normalizeConfig_errors_display (input : HeatmapBlockConfig.t)
    (d : option HeatmapBlockConfig.display_t) :
  match normalizeConfig input, normalizeConfig (withDisplay d input) with
  | Ok _, Ok _ => True
  | Failed errors, Failed errors' => errors = errors'
  | _, _ => False
  end.
Proof.
  unfold normalizeConfig, withDisplay.
  cbn [HeatmapBlockConfig.range HeatmapBlockConfig.habits
       HeatmapBlockConfig.colors HeatmapBlockConfig.display
       NormalizedConfig.type NormalizedConfig.range].
  destruct (if (0 <? List.length _)%nat then _ else _) as [thresholds errors].
  match goal with
  | |- match (if ?c then _ else _) with _ => _ end => destruct c
  end; done.
Qed.

Lemma clampNumber_cell (raw : json) :
  clampNumber raw (numOfZ 6) (numOfZ 30) (numOfZ 12)
  = match raw with
    | JNum v =>
        if Number_isNaN v then numOfZ 12
        else clampTo (numOfZ 6) (numOfZ 30) (Math_round v)
    | _ => numOfZ 12
    end.
Proof.
  destruct raw as [| | |v| | |]; try reflexivity.
  unfold clampNumber. by rewrite clamp_6_30.
Qed.

Lemma clampNumber_gap (raw : json) :
  clampNumber raw (numOfZ 0) (numOfZ 8) (numOfZ 2)
  = match raw with
    | JNum v =>
        if Number_isNaN v then numOfZ 2
        else if isNegZero (Math_round v) then S754_zero false
        else clampTo (numOfZ 0) (numOfZ 8) (Math_round v)
    | _ => numOfZ 2
    end.
Proof.
  destruct raw as [| | |v| | |]; try reflexivity.
  unfold clampNumber. by rewrite clamp_0_8.
Qed.

(** C4, as the code has it.  In a configuration that normalisation
    accepts, the cell size and the gap come from [display.cellSize] and
    [display.gap] without any validation error: a value that is not a
    number, or is NaN, gives the default (12 and 2); any other number
    is rounded by [Math.round] and brought into 6..30 and 0..8, a
    rounded value below the interval giving its lower end and one above
    it its upper end. *)
Theorem display_sizes_normalization
    (input : HeatmapBlockConfig.t) (config : NormalizedConfig.t) :
  normalizeConfig input = Ok config ->
  let rawCell :=
    from_option HeatmapBlockConfig.cellSize JUndefined
      (HeatmapBlockConfig.display input) in
  let rawGap :=
    from_option HeatmapBlockConfig.gap JUndefined
      (HeatmapBlockConfig.display input) in
  let cell := NormalizedConfig.cellSize (NormalizedConfig.display config) in
  let gap := NormalizedConfig.gap (NormalizedConfig.display config) in
  cell = match rawCell with
         | JNum v =>
             if Number_isNaN v then numOfZ 12
             else clampTo (numOfZ 6) (numOfZ 30) (Math_round v)
         | _ => numOfZ 12
         end
  /\ gap = match rawGap with
           | JNum v =>
               if Number_isNaN v then numOfZ 2
               else if isNegZero (Math_round v) then S754_zero false
               else clampTo (numOfZ 0) (numOfZ 8) (Math_round v)
           | _ => numOfZ 2
           end
  /\ num_leb (numOfZ 6) cell = true /\ num_leb cell (numOfZ 30) = true
  /\ num_leb (numOfZ 0) gap = true /\ num_leb gap (numOfZ 8) = true
  /\ forall d, exists config', normalizeConfig (withDisplay d input) = Ok config'.
Proof.
  intros Hok rawCell rawGap cell gap.
  assert (forall d,
            exists config', normalizeConfig (withDisplay d input) = Ok config')
    as Hdisplay.
  { intros d. pose proof (normalizeConfig_errors_display input d) as Hd.
    rewrite Hok in Hd.
    destruct (normalizeConfig (withDisplay d input)); [by eexists|done]. }
  destruct (normalizeConfig_display input config Hok) as [Hcell Hgap].
  fold rawCell cell in Hcell. fold rawGap gap in Hgap.
  rewrite clampNumber_cell in Hcell. rewrite clampNumber_gap in Hgap.
  clearbody rawCell rawGap cell gap. clear Hok.
  split; [exact Hcell|]. split; [exact Hgap|].
  assert (num_leb (numOfZ 6) cell = true /\ num_leb cell (numOfZ 30) = true)
    as [? ?].
  { rewrite Hcell.
    destruct rawCell as [| | |v| | |];
      [by vm_compute|by vm_compute|by vm_compute|
       |by vm_compute|by vm_compute|by vm_compute].
    destruct (Number_isNaN v) eqn:Hv; [by vm_compute|].
    by apply clampTo_6_30_range, Math_round_not_nan. }
  assert (num_leb (numOfZ 0) gap = true /\ num_leb gap (numOfZ 8) = true)
    as [? ?].
  { rewrite Hgap.
    destruct rawGap as [| | |v| | |];
      [by vm_compute|by vm_compute|by vm_compute|
       |by vm_compute|by vm_compute|by vm_compute].
    destruct (Number_isNaN v) eqn:Hv; [by vm_compute|].
    destruct (isNegZero (Math_round v)); [by vm_compute|].
    by apply clampTo_0_8_range, Math_round_not_nan. }
  done.
Qed.

End DisplaySizes.

Definition sizedDisplay (cellSize gap : json) : HeatmapBlockConfig.t :=
  {| HeatmapBlockConfig.range := None;
     HeatmapBlockConfig.habits := None;
     HeatmapBlockConfig.colors := None;
     HeatmapBlockConfig.display :=
       Some {| HeatmapBlockConfig.title := None;
               HeatmapBlockConfig.showLegend := None;
               HeatmapBlockConfig.cellSize := cellSize;
               HeatmapBlockConfig.gap := gap;
               HeatmapBlockConfig.weekStart := None |} |}.

Definition sizedConfig (cellSize gap : json) : NormalizedConfig.t :=
  match normalizeConfig (sizedDisplay cellSize gap) with
  | Ok config => config
  | Failed _ => DEFAULT_CONFIG
  end.

Lemma display_sizes_normalization_witness :
  NormalizedConfig.cellSize
    (NormalizedConfig.display
       (sizedConfig (JNum (NumberOfDecimal "7.5")) (JStr "wide")))
  = clampTo (numOfZ 6) (numOfZ 30) (Math_round (NumberOfDecimal "7.5"))
  /\ NormalizedConfig.gap
       (NormalizedConfig.display
          (sizedConfig (JNum (NumberOfDecimal "7.5")) (JStr "wide")))
     = numOfZ 2.
Proof.
  pose proof (display_sizes_normalization
                (sizedDisplay (JNum (NumberOfDecimal "7.5")) (JStr "wide"))
                (sizedConfig (JNum (NumberOfDecimal "7.5")) (JStr "wide"))
                eq_refl) as (Hcell & Hgap & _).
  split; [exact Hcell | exact Hgap].
Defined.

(** C4, as stated, fails: a cell size of 100 is out of range and comes
    out as 30, the upper end, not as the default 12. *)
Lemma out_of_range_size_counterexample :
  ~ (forall input config v,
       normalizeConfig input = Ok config ->
       from_option HeatmapBlockConfig.cellSize JUndefined
         (HeatmapBlockConfig.display input) = JNum v ->
       SFltb v (numOfZ 6) = true \/ SFltb (numOfZ 30) v = true ->
       NormalizedConfig.cellSize (NormalizedConfig.display config)
       = numOfZ 12).
Proof.
  intros Hclaim.
  specialize (Hclaim (sizedDisplay (JNum (numOfZ 100)) JUndefined)
                (sizedConfig (JNum (numOfZ 100)) JUndefined)
                (numOfZ 100) eq_refl eq_refl
                (or_intror eq_refl)).
  vm_compute in Hclaim. discriminate Hclaim.
Qed.

(** ** The date codecs ([normalizeIsoDate], [parseIsoDate],
       [toIsoDate]) *)

Definition digitUnits : list ascii :=
  ["0"; "1"; "2"; "3"; "4"; "5"; "6"; "7"; "8"; "9"]%char.

(** Two digits come back from [padStart(2, "0")] of their number. *)
Definition twoDigitsBack (c1 c2 : ascii) : bool :=
  String.eqb
    (padStart 2 "0"
       (StringOfZ (NumberOfDigits (String c1 (String c2 EmptyString)))))
    (String c1 (String c2 EmptyString)).

(** Four digits come back from their number when it is 1000 or more. *)
Definition fourDigitsBack (c1 c2 c3 c4 : ascii) : bool :=
  let text := String c1 (String c2 (String c3 (String c4 EmptyString))) in
  (NumberOfDigits text <? 1000)%Z
  || String.eqb (StringOfZ (NumberOfDigits text)) text.

Section DateCodecs.
Context {tz : TimeZone}.

Lemma isDigit_units (c : ascii) : isDigit c = true -> In c digitUnits.
Proof.
  destruct c as [[] [] [] [] [] [] [] []]; vm_compute; try discriminate;
    intros _; tauto.
Qed.

Lemma takeDigits_Some (n : nat) (s ds rest : string) :
  takeDigits n s = Some (ds, rest) ->
  s = ds ++ rest /\ String.length ds = n /\ strAll isDigit ds = true.
Proof.
  revert s ds. induction n as [|n IH]; intros s ds; simpl.
  - by intros [= <- <-].
  - destruct s as [|c r]; [done|].
    destruct (isDigit c) eqn:Hc; [|done].
    destruct (takeDigits n r) as [[ds' rest']|] eqn:Hr; [|done].
    intros [= <- <-]. destruct (IH _ _ Hr) as (-> & Hl & Ha).
    simpl. by rewrite Hc, Hl, Ha.
Qed.

Lemma isoShape_Some (value y m d : string) :
  isoShape value = Some (y, m, d) ->
  value = y ++ "-" ++ m ++ "-" ++ d
  /\ (String.length y = 4 /\ strAll isDigit y = true)
  /\ (String.length m = 2 /\ strAll isDigit m = true)
  /\ (String.length d = 2 /\ strAll isDigit d = true).
Proof.
  unfold isoShape.
  destruct (takeDigits 4 value) as [[y' [|c1 r1]]|] eqn:H1; try done.
  destruct (codeUnit c1 =? 45)%N eqn:Hc1; [|done].
  destruct (takeDigits 2 r1) as [[m' [|c2 r2]]|] eqn:H2; try done.
  destruct (codeUnit c2 =? 45)%N eqn:Hc2; [|done].
  destruct (takeDigits 2 r2) as [[d' [|? ?]]|] eqn:H3; try done.
  intros [= <- <- <-].
  apply takeDigits_Some in H1 as (-> & ? & ?).
  apply takeDigits_Some in H2 as (-> & ? & ?).
  apply takeDigits_Some in H3 as (-> & ? & ?).
  apply (codeUnit_eqb _ 45) in Hc1 as ->; [|done].
  apply (codeUnit_eqb _ 45) in Hc2 as ->; [|done].
  rewrite append_nil_r. by repeat split.
Qed.

Lemma splitOn_digits_end (ds : string) :
  strAll isDigit ds = true -> splitOn "-" ds = [ds].
Proof.
  induction ds as [|c r IH]; simpl; [done|].
  intros [Hc Hr]%andb_prop. rewrite (IH Hr).
  destruct (Ascii.eqb c "-") eqn:E; [|done].
  apply Ascii.eqb_eq in E as ->. done.
Qed.

Lemma splitOn_digits (ds rest : string) :
  strAll isDigit ds = true ->
  splitOn "-" (ds ++ String "-" rest) = ds :: splitOn "-" rest.
Proof.
  induction ds as [|c r IH]; intros Hd.
  - by rewrite append_nil.
  - rewrite append_cons. simpl in *. apply andb_prop in Hd as [Hc Hr].
    rewrite (IH Hr).
    destruct (Ascii.eqb c "-") eqn:E; [|done].
    apply Ascii.eqb_eq in E as ->. done.
Qed.

Lemma two_digits_back (ds : string) :
  String.length ds = 2 -> strAll isDigit ds = true ->
  padStart 2 "0" (StringOfZ (NumberOfDigits ds)) = ds.
Proof.
  destruct ds as [|c1 [|c2 [|? ?]]]; try done. intros _. simpl.
  intros [H1 [H2 _]%andb_prop]%andb_prop.
  assert (forallb (fun a => forallb (twoDigitsBack a) digitUnits) digitUnits
          = true) as Hall by (vm_compute; reflexivity).
  rewrite forallb_forall in Hall.
  specialize (Hall c1 (isDigit_units c1 H1)).
  rewrite forallb_forall in Hall.
  specialize (Hall c2 (isDigit_units c2 H2)).
  by apply String.eqb_eq in Hall.
Qed.

Lemma four_digits_back (ds : string) :
  String.length ds = 4 -> strAll isDigit ds = true ->
  (1000 <= NumberOfDigits ds)%Z ->
  StringOfZ (NumberOfDigits ds) = ds.
Proof.
  destruct ds as [|c1 [|c2 [|c3 [|c4 [|? ?]]]]]; try done. intros _. simpl.
  intros [H1 [H2 [H3 [H4 _]%andb_prop]%andb_prop]%andb_prop]%andb_prop Hy.
  assert (forallb
            (fun a =>
               forallb
                 (fun b =>
                    forallb (fun c => forallb (fourDigitsBack a b c) digitUnits)
                            digitUnits)
                 digitUnits)
            digitUnits = true) as Hall by (vm_compute; reflexivity).
  rewrite forallb_forall in Hall.
  specialize (Hall c1 (isDigit_units c1 H1)).
  rewrite forallb_forall in Hall.
  specialize (Hall c2 (isDigit_units c2 H2)).
  rewrite forallb_forall in Hall.
  specialize (Hall c3 (isDigit_units c3 H3)).
  rewrite forallb_forall in Hall.
  specialize (Hall c4 (isDigit_units c4 H4)).
  unfold fourDigitsBack in Hall. apply orb_prop in Hall as [Hlt|Heq].
  - apply Z.ltb_lt in Hlt. lia.
  - by apply String.eqb_eq in Heq.
Qed.

(** What a successful [normalizeIsoDate] has checked. *)
Lemma normalizeIsoDate_Some (value r : string) :
  normalizeIsoDate value = Some r ->
  exists y m d,
    isoShape value = Some (y, m, d)
    /\ r = y ++ "-" ++ m ++ "-" ++ d
    /\ let date := newDate (Some (NumberOfDigits y))
                           (Some (NumberOfDigits m - 1)%Z)
                           (Some (NumberOfDigits d)) in
       is_Some (getTime date)
       /\ getFullYear date = Some (NumberOfDigits y)
       /\ getMonth date = Some (NumberOfDigits m - 1)%Z
       /\ getDate date = Some (NumberOfDigits d).
Proof.
  unfold normalizeIsoDate.
  destruct (isoShape value) as [[[y m] d]|] eqn:Hs; [|done].
  destruct (getTime _) as [t|] eqn:Ht; [|done].
  destruct (negb _ || _ || _) eqn:Hc; [done|].
  intros [= <-]. exists y, m, d.
  apply orb_false_elim in Hc as [[H1 H2]%orb_false_elim H3].
  apply negb_false_iff, bool_decide_eq_true in H1, H2, H3.
  rewrite Ht. by repeat split.
Qed.

(** C10, as the code has it.  When [normalizeIsoDate] accepts a string
    it answers that very string, [parseIsoDate] then answers a date,
    and [toIsoDate] of that date is the string again when its year is
    1000 or more. *)
Theorem iso_date_round_trip (s r : string) :
  normalizeIsoDate s = Some r ->
  r = s
  /\ exists date,
       parseIsoDate s = Some date
       /\ ((1000 <= NumberOfDigits (String.substring 0 4 s))%Z ->
           toIsoDate date = s).
Proof.
  intros Hn.
  destruct (normalizeIsoDate_Some s r Hn)
    as (y & m & d & Hshape & -> & _ & Hy & Hm & Hd).
  apply isoShape_Some in Hshape as (Hs & [Hly Hdy] & [Hlm Hdm] & [Hld Hdd]).
  rewrite <- Hs in *. split; [done|].
  unfold parseIsoDate. rewrite Hn.
  assert (splitOn "-" s = [y; m; d]) as ->.
  { rewrite Hs. change ("-" ++ m ++ "-" ++ d) with (String "-" (m ++ "-" ++ d)).
    rewrite splitOn_digits by done.
    change ("-" ++ d) with (String "-" d).
    rewrite splitOn_digits by done. by rewrite splitOn_digits_end. }
  eexists. split; [reflexivity|]. intros Hyear.
  change (toIsoDate (newDate (Some (NumberOfDigits y))
                             (Some (NumberOfDigits m - 1)%Z)
                             (Some (NumberOfDigits d))) = s).
  unfold toIsoDate. rewrite Hy, Hm, Hd. unfold optAdd, StringOfInt.
  replace (NumberOfDigits m - 1 + 1)%Z with (NumberOfDigits m) by lia.
  assert (String.substring 0 4 s = y) as Hsub.
  { rewrite Hs. clear -Hly.
    destruct y as [|c1 [|c2 [|c3 [|c4 [|? ?]]]]]; try done. }
  rewrite Hsub in Hyear.
  rewrite four_digits_back, !two_digits_back by done. by rewrite Hs.
Qed.

End DateCodecs.

Lemma iso_date_round_trip_witness :
  exists date,
    parseIsoDate (tz:=pacific2024) "2024-02-29" = Some date
    /\ toIsoDate (tz:=pacific2024) date = "2024-02-29".
Proof.
  destruct (iso_date_round_trip (tz:=pacific2024) "2024-02-29" "2024-02-29"
              eq_refl) as (_ & date & Hp & Ht).
  exists date. split; [exact Hp|]. apply Ht. vm_compute. discriminate.
Defined.

(** C10, as stated, fails: the year 500 is accepted and comes back
    without its leading zero. *)
Lemma iso_date_round_trip_counterexample :
  ~ (forall s r date,
       normalizeIsoDate (tz:=UTCZone) s = Some r ->
       parseIsoDate (tz:=UTCZone) s = Some date ->
       r = s /\ toIsoDate (tz:=UTCZone) date = s).
Proof.
  intros Hclaim.
  destruct (Hclaim "0500-01-01" "0500-01-01"
              (newDate (tz:=UTCZone) (Some 500%Z) (Some 0%Z) (Some 1%Z))
              eq_refl eq_refl) as [_ Hback].
  vm_compute in Hback. discriminate Hback.
Qed.

(** ** Range resolution (renderer.ts, [resolveRange],
       [enumerateDates] and [dayDiffInclusive]) *)

(** The day number of an ISO date, as [new Date(year, month - 1, day)]
    counts it. *)
Definition dayNumberOfIso (iso : string) : Z :=
  match isoShape iso with
  | Some (y, m, d) =>
      let year := NumberOfDigits y in
      MakeDay (if (0 <=? year)%Z && (year <=? 99)%Z then 1900 + year else year)%Z
              (NumberOfDigits m - 1)%Z (NumberOfDigits d)
  | None => 0%Z
  end.

(** The number of days from one ISO date to another, both counted. *)
Definition inclusiveDayCount (startIso endIso : string) : Z :=
  (dayNumberOfIso endIso - dayNumberOfIso startIso + 1)%Z.

Definition weekConfig (fromTitle : json) : NormalizedConfig.t :=
  {| NormalizedConfig.range :=
       {| NormalizedConfig.type := "week";
          NormalizedConfig.year := JUndefined;
          NormalizedConfig.month := JUndefined;
          NormalizedConfig.fromTitle := fromTitle |};
     NormalizedConfig.habits := NormalizedConfig.habits DEFAULT_CONFIG;
     NormalizedConfig.colors := NormalizedConfig.colors DEFAULT_CONFIG;
     NormalizedConfig.display := NormalizedConfig.display DEFAULT_CONFIG |}.

Definition calendarConfig (type : string) (year month : Z)
  : NormalizedConfig.t :=
  {| NormalizedConfig.range :=
       {| NormalizedConfig.type := type;
          NormalizedConfig.year := JNum (numOfZ year);
          NormalizedConfig.month := JNum (numOfZ month);
          NormalizedConfig.fromTitle := JBool true |};
     NormalizedConfig.habits := NormalizedConfig.habits DEFAULT_CONFIG;
     NormalizedConfig.colors := NormalizedConfig.colors DEFAULT_CONFIG;
     NormalizedConfig.display := NormalizedConfig.display DEFAULT_CONFIG |}.

Definition noteTitled (title : string) : TFile :=
  {| path := "journal/" ++ title ++ ".md"; basename := title; stat_mtime := 0 |}.

Section RangeResolutionFacts.
Context {tz : TimeZone}.

Lemma normalizeIsoDate_id (value r : string) :
  normalizeIsoDate value = Some r -> r = value.
Proof.
  intros Hn.
  destruct (normalizeIsoDate_Some _ _ Hn) as (y & m & d & Hsh & -> & _).
  by apply isoShape_Some in Hsh as (-> & _).
Qed.

Lemma parseIsoDate_Some (s r : string) :
  normalizeIsoDate s = Some r ->
  exists y m d t,
    isoShape s = Some (y, m, d)
    /\ parseIsoDate s
       = Some (newDate (Some (NumberOfDigits y))
                       (Some (NumberOfDigits m - 1)%Z)
                       (Some (NumberOfDigits d)))
    /\ newDate (Some (NumberOfDigits y)) (Some (NumberOfDigits m - 1)%Z)
               (Some (NumberOfDigits d))
       = TimeValue t
    /\ t = UTC (dayNumberOfIso s * msPerDay)
    /\ getFullYear (TimeValue t) = Some (NumberOfDigits y)
    /\ getMonth (TimeValue t) = Some (NumberOfDigits m - 1)%Z
    /\ getDate (TimeValue t) = Some (NumberOfDigits d).
Proof.
  intros Hn.
  destruct (normalizeIsoDate_Some s r Hn)
    as (y & m & d & Hshape & -> & [t Ht] & Hy & Hm & Hd).
  pose proof Hshape as Hparts.
  apply isoShape_Some in Hparts as (Hs & [_ Hdy] & [_ Hdm] & [_ Hdd]).
  assert (splitOn "-" s = [y; m; d]) as Hsplit.
  { rewrite Hs. change ("-" ++ m ++ "-" ++ d) with (String "-" (m ++ "-" ++ d)).
    rewrite splitOn_digits by done.
    change ("-" ++ d) with (String "-" d).
    rewrite splitOn_digits by done. by rewrite splitOn_digits_end. }
  assert (newDate (Some (NumberOfDigits y)) (Some (NumberOfDigits m - 1)%Z)
                  (Some (NumberOfDigits d)) = TimeValue t) as Hdate
    by (by destruct (newDate _ _ _); inversion Ht).
  exists y, m, d, t. rewrite <- Hdate.
  split; [done|]. split.
  { unfold parseIsoDate. rewrite Hs in Hn |- *. rewrite Hn, <- Hs, Hsplit.
    reflexivity. }
  split; [done|]. split; [|done].
  unfold dayNumberOfIso. rewrite Hshape.
  unfold newDate, TimeClip in Hdate.
  destruct (_ >? _)%Z; by inversion Hdate.
Qed.

(** When the host has the same offset from UTC at the local midnights
    of the two dates, [enumerateDates] has one entry for each day from
    the first date to the second, both counted, and none when the
    second date is the earlier one. *)
Lemma enumerateDates_length (startIso endIso : string) :
  is_Some (normalizeIsoDate startIso) ->
  is_Some (normalizeIsoDate endIso) ->
  LocalTZA (dayNumberOfIso startIso * msPerDay) false
  = LocalTZA (dayNumberOfIso endIso * msPerDay) false ->
  List.length (enumerateDates startIso endIso)
  = Z.to_nat (inclusiveDayCount startIso endIso).
Proof.
  intros [rs Hs] [re He] Hoffset.
  destruct (parseIsoDate_Some _ _ Hs)
    as (ys & ms & ds & ts & _ & Hps & Hds & Hts & Hys & Hms & Hdds).
  destruct (parseIsoDate_Some _ _ He)
    as (ye & me & de & te & _ & Hpe & Hde & Hte & Hye & Hme & Hdde).
  unfold enumerateDates, inclusiveDayCount.
  rewrite Hps, Hpe, Hds, Hde. cbn [getTime].
  assert (dayDiffInclusive (TimeValue ts) (TimeValue te)
          = Some (dayNumberOfIso endIso - dayNumberOfIso startIso + 1)%Z)
    as Hdiff.
  { unfold dayDiffInclusive. rewrite Hys, Hms, Hdds, Hye, Hme, Hdde, Hds, Hde.
    cbn [getTime]. f_equal. rewrite Hts, Hte. unfold UTC. rewrite Hoffset.
    unfold msPerDay. Z.to_euclidean_division_equations. lia. }
  rewrite Hdiff. cbn [loopIndices].
  assert ((ts >? te)%Z = true
          <-> (dayNumberOfIso endIso < dayNumberOfIso startIso)%Z) as Horder.
  { rewrite Z.gtb_gt, Hts, Hte. unfold UTC. rewrite Hoffset.
    unfold msPerDay. lia. }
  destruct (ts >? te)%Z.
  - simpl. assert (dayNumberOfIso endIso < dayNumberOfIso startIso)%Z
      by (by apply Horder). lia.
  - rewrite length_map, length_seqZ. reflexivity.
Qed.

(** The week branch, step by step: the flag, the title, the two dates,
    the number of dates enumerated. *)
Lemma resolveRange_week (config : NormalizedConfig.t) (f : TFile) :
  NormalizedConfig.type (NormalizedConfig.range config) = "week" ->
  resolveRange config f
  = if negb (isTrue (NormalizedConfig.fromTitle (NormalizedConfig.range config)))
    then Failed ["week range requires range.fromTitle=true"]
    else
      match matchWeekTitle (basename f) with
      | None => Failed ["week note title must match YYYY.MM.dd - YYYY.MM.dd"]
      | Some (first, second) =>
          match normalizeIsoDate (replaceUnit "." "-" first),
                normalizeIsoDate (replaceUnit "." "-" second) with
          | Some start, Some end_ =>
              if (List.length (enumerateDates start end_) =? 7)%nat
              then Ok {| RangeResolution.type := "week";
                         RangeResolution.startDate := start;
                         RangeResolution.endDate := end_;
                         RangeResolution.dates := enumerateDates start end_ |}
              else Failed ["week range must include exactly 7 dates, found "
                           ++ StringOfZ (Z.of_nat
                                (List.length (enumerateDates start end_)))]
          | _, _ => Failed ["week note title contains invalid date"]
          end
      end.
Proof.
  intros Htype. unfold resolveRange. rewrite Htype. cbn [String.eqb Ascii.eqb].
  change (String.eqb "week" "week") with true. cbv iota.
  destruct (negb _); [done|].
  destruct (matchWeekTitle _) as [[first second]|]; [|done].
  destruct (normalizeIsoDate _) as [start|]; [|done].
  destruct (normalizeIsoDate _) as [end_|]; [|done].
  by destruct (List.length _ =? 7)%nat.
Qed.

(** On a host with the same offset at both midnights, a week whose
    title holds two valid dates resolves exactly when the days from the
    first to the second, both counted, are seven; otherwise the error
    carries the number of days, or 0 when the second date is the
    earlier one. *)
Lemma resolveRange_week_count (config : NormalizedConfig.t) (f : TFile)
    (first second start end_ : string) :
  NormalizedConfig.type (NormalizedConfig.range config) = "week" ->
  isTrue (NormalizedConfig.fromTitle (NormalizedConfig.range config)) = true ->
  matchWeekTitle (basename f) = Some (first, second) ->
  normalizeIsoDate (replaceUnit "." "-" first) = Some start ->
  normalizeIsoDate (replaceUnit "." "-" second) = Some end_ ->
  LocalTZA (dayNumberOfIso start * msPerDay) false
  = LocalTZA (dayNumberOfIso end_ * msPerDay) false ->
  resolveRange config f
  = if (inclusiveDayCount start end_ =? 7)%Z
    then Ok {| RangeResolution.type := "week";
               RangeResolution.startDate := start;
               RangeResolution.endDate := end_;
               RangeResolution.dates := enumerateDates start end_ |}
    else Failed ["week range must include exactly 7 dates, found "
                 ++ StringOfZ (Z.max 0 (inclusiveDayCount start end_))].
Proof.
  intros Htype Hflag Htitle Hstart Hend Hoffset.
  rewrite resolveRange_week by done.
  rewrite Hflag, Htitle, Hstart, Hend. cbn [negb].
  assert (normalizeIsoDate start = Some start) as Hs.
  { pose proof (normalizeIsoDate_id _ _ Hstart) as Hid.
    by rewrite <- Hid in Hstart. }
  assert (normalizeIsoDate end_ = Some end_) as He.
  { pose proof (normalizeIsoDate_id _ _ Hend) as Hid.
    by rewrite <- Hid in Hend. }
  rewrite (enumerateDates_length start end_) by (by rewrite ?Hs, ?He).
  destruct (Z.eqb_spec (inclusiveDayCount start end_) 7) as [Heq|Hne].
  - by rewrite Heq.
  - destruct (Nat.eqb_spec (Z.to_nat (inclusiveDayCount start end_)) 7)
      as [Heq|_]; [lia|].
    by replace (Z.of_nat (Z.to_nat (inclusiveDayCount start end_)))
        with (Z.max 0 (inclusiveDayCount start end_)) by lia.
Qed.

End RangeResolutionFacts.

Section RangeResolutionCases.

Definition marchDates (first last : Z) : list string :=
  List.map (fun d => "2024-03-" ++ padStart 2 "0" (StringOfZ d))
           (seqZ first (last - first + 1)).

(** C6 on a host that moves its clocks.  In US Pacific time the clocks
    go forward on 10 March 2024.  A note titled with the eight days
    from 10 to 17 March resolves as a week, with seven dates and the
    end date left out of them; a note titled with the seven days from
    10 to 16 March is refused, the message counting six. *)
Theorem week_across_clock_change :
  resolveRange (tz:=pacific2024) (weekConfig (JBool true))
               (noteTitled "2024.03.10 - 2024.03.17")
  = Ok {| RangeResolution.type := "week";
          RangeResolution.startDate := "2024-03-10";
          RangeResolution.endDate := "2024-03-17";
          RangeResolution.dates := marchDates 10 16 |}
  /\ inclusiveDayCount "2024-03-10" "2024-03-17" = 8%Z
  /\ resolveRange (tz:=pacific2024) (weekConfig (JBool true))
                  (noteTitled "2024.03.10 - 2024.03.16")
     = Failed ["week range must include exactly 7 dates, found 6"]
  /\ inclusiveDayCount "2024-03-10" "2024-03-16" = 7%Z.
Proof. repeat split; vm_compute; reflexivity. Qed.

(** The same two titles on a host without clock changes. *)
Example week_without_clock_change :
  resolveRange (tz:=UTCZone) (weekConfig (JBool true))
               (noteTitled "2024.03.10 - 2024.03.17")
  = Failed ["week range must include exactly 7 dates, found 8"]
  /\ resolveRange (tz:=UTCZone) (weekConfig (JBool true))
                  (noteTitled "2024.03.10 - 2024.03.16")
     = Ok {| RangeResolution.type := "week";
             RangeResolution.startDate := "2024-03-10";
             RangeResolution.endDate := "2024-03-16";
             RangeResolution.dates := marchDates 10 16 |}.
Proof. split; vm_compute; reflexivity. Qed.

(** The other refusals of a week, on any host. *)
Example week_refusals :
  resolveRange (tz:=pacific2024) (weekConfig (JBool false))
               (noteTitled "2024.03.04 - 2024.03.10")
  = Failed ["week range requires range.fromTitle=true"]
  /\ resolveRange (tz:=pacific2024) (weekConfig (JStr "true"))
                  (noteTitled "2024.03.04 - 2024.03.10")
     = Failed ["week range requires range.fromTitle=true"]
  /\ resolveRange (tz:=pacific2024) (weekConfig (JBool true))
                  (noteTitled "Week of 2024.03.04")
     = Failed ["week note title must match YYYY.MM.dd - YYYY.MM.dd"]
  /\ resolveRange (tz:=pacific2024) (weekConfig (JBool true))
                  (noteTitled "2024.02.30 - 2024.03.07")
     = Failed ["week note title contains invalid date"]
  /\ resolveRange (tz:=pacific2024) (weekConfig (JBool true))
                  (noteTitled "2024.03.10 - 2024.03.04")
     = Failed ["week range must include exactly 7 dates, found 0"].
Proof. repeat split; vm_compute; reflexivity. Qed.

(** C7 on a host that moves its clocks.  In US Pacific time the month
    of March 2024 resolves with the end date 31 March and with thirty
    dates, the last of them 30 March. *)
Theorem month_across_clock_change :
  resolveRange (tz:=pacific2024) (calendarConfig "month" 2024 3)
               (noteTitled "March")
  = Ok {| RangeResolution.type := "month";
          RangeResolution.startDate := "2024-03-01";
          RangeResolution.endDate := "2024-03-31";
          RangeResolution.dates := marchDates 1 30 |}
  /\ List.length (marchDates 1 30) = 30%nat
  /\ last (marchDates 1 30) = Some "2024-03-30".
Proof. repeat split; vm_compute; reflexivity. Qed.

Definition datesCount (r : Result RangeResolution.t) : option nat :=
  match r with
  | Ok range => Some (List.length (RangeResolution.dates range))
  | Failed _ => None
  end.

(** The counts of the specification, on a host without clock changes
    and in US Pacific time: February 2024 has 29 dates and the year
    2023 has 365; March 2024 has 31 dates without clock changes. *)
Example range_counts :
  datesCount (resolveRange (tz:=UTCZone) (calendarConfig "month" 2024 2)
                           (noteTitled "x")) = Some 29%nat
  /\ datesCount (resolveRange (tz:=UTCZone) (calendarConfig "year" 2023 0)
                              (noteTitled "x")) = Some 365%nat
  /\ datesCount (resolveRange (tz:=UTCZone) (calendarConfig "month" 2024 3)
                              (noteTitled "x")) = Some 31%nat
  /\ datesCount (resolveRange (tz:=pacific2024) (calendarConfig "month" 2024 2)
                              (noteTitled "x")) = Some 29%nat
  /\ datesCount (resolveRange (tz:=pacific2024) (calendarConfig "year" 2023 0)
                              (noteTitled "x")) = Some 365%nat.
Proof. repeat split; vm_compute; reflexivity. Qed.

End RangeResolutionCases.

(** ** The calendar of the time values *)

(** The number of days of the month [m] (0 to 11). *)
Definition daysInMonth (leap : bool) (m : Z) : Z :=
  (monthStart leap (m + 1) - monthStart leap m)%Z.

Ltac eval_monthStart_at b :=
  repeat match goal with
         | |- context [monthStart b ?k] =>
             let v := eval vm_compute in (monthStart b k) in
             progress change (monthStart b k) with v
         | H : context [monthStart b ?k] |- _ =>
             let v := eval vm_compute in (monthStart b k) in
             progress change (monthStart b k) with v in H
         end.

Ltac eval_monthStart := eval_monthStart_at true; eval_monthStart_at false.

Section Calendar.
Local Open Scope Z_scope.

Lemma YearFromDay_bounds (d : Z) :
  DayFromYear (YearFromDay d) <= d < DayFromYear (YearFromDay d + 1).
Proof.
  unfold DayFromYear, YearFromDay. cbv zeta.
  Z.to_euclidean_division_equations. lia.
Qed.

Lemma DayFromYear_succ (y : Z) :
  DayFromYear (y + 1) = DayFromYear y + DaysInYear y.
Proof.
  unfold DayFromYear, DaysInYear, isLeapYear.
  destruct (Z.eqb_spec (y mod 4) 0), (Z.eqb_spec (y mod 100) 0),
    (Z.eqb_spec (y mod 400) 0); cbn [andb orb negb];
    Z.to_euclidean_division_equations; lia.
Qed.

Lemma DayFromYear_mono (y y' : Z) : y <= y' -> DayFromYear y <= DayFromYear y'.
Proof.
  unfold DayFromYear. intros. Z.to_euclidean_division_equations. lia.
Qed.

Lemma YearFromDay_unique (n y : Z) :
  DayFromYear y <= n < DayFromYear (y + 1) -> YearFromDay n = y.
Proof.
  intros [Hlo Hhi].
  pose proof (YearFromDay_bounds n) as [Hlo' Hhi'].
  destruct (Z.lt_trichotomy (YearFromDay n) y) as [Hlt|[Heq|Hgt]]; [|done|].
  - pose proof (DayFromYear_mono (YearFromDay n + 1) y ltac:(lia)). lia.
  - pose proof (DayFromYear_mono (y + 1) (YearFromDay n) ltac:(lia)). lia.
Qed.

Lemma DayWithinYear_bounds (d : Z) :
  0 <= DayWithinYear d < DaysInYear (YearFromDay d).
Proof.
  unfold DayWithinYear. pose proof (YearFromDay_bounds d) as H.
  rewrite DayFromYear_succ in H. lia.
Qed.

Lemma MonthFromDay_bounds (d : Z) : 0 <= MonthFromDay d <= 11.
Proof. unfold MonthFromDay. repeat case_match; lia. Qed.

Lemma MonthFromDay_spec (d : Z) :
  let leap := isLeapYear (YearFromDay d) in
  monthStart leap (MonthFromDay d) <= DayWithinYear d
  < monthStart leap (MonthFromDay d + 1).
Proof.
  pose proof (DayWithinYear_bounds d) as Hw. unfold DaysInYear in Hw.
  unfold MonthFromDay. cbv zeta.
  generalize dependent (DayWithinYear d). intros w.
  destruct (isLeapYear (YearFromDay d)); intros Hw;
    repeat (match goal with
            | |- context [if ?a <? ?b then _ else _] =>
                destruct (Z.ltb_spec a b)
            end); eval_monthStart; lia.
Qed.

Lemma DateFromDay_bounds (d : Z) :
  1 <= DateFromDay d
  <= daysInMonth (isLeapYear (YearFromDay d)) (MonthFromDay d).
Proof.
  pose proof (MonthFromDay_spec d) as H. cbv zeta in H.
  unfold DateFromDay, daysInMonth. lia.
Qed.

Lemma daysInMonth_bounds (leap : bool) (m : Z) :
  0 <= m <= 11 -> 28 <= daysInMonth leap m <= 31.
Proof.
  intros Hm. unfold daysInMonth.
  assert (m = 0 \/ m = 1 \/ m = 2 \/ m = 3 \/ m = 4 \/ m = 5 \/ m = 6
          \/ m = 7 \/ m = 8 \/ m = 9 \/ m = 10 \/ m = 11) as Hc by lia.
  destruct leap; repeat (destruct Hc as [->|Hc]); try subst m; eval_monthStart; lia.
Qed.

Lemma monthStart_bounds (leap : bool) (m : Z) :
  0 <= m <= 12 ->
  0 <= monthStart leap m <= (if leap then 366 else 365).
Proof.
  intros Hm.
  assert (m = 0 \/ m = 1 \/ m = 2 \/ m = 3 \/ m = 4 \/ m = 5 \/ m = 6
          \/ m = 7 \/ m = 8 \/ m = 9 \/ m = 10 \/ m = 11 \/ m = 12) as Hc by lia.
  destruct leap; repeat (destruct Hc as [->|Hc]); try subst m; eval_monthStart; lia.
Qed.

Lemma monthStart_mono (leap : bool) (m m' : Z) :
  0 <= m <= m' -> m' <= 12 -> monthStart leap m <= monthStart leap m'.
Proof.
  intros Hm Hm'.
  assert (m = 0 \/ m = 1 \/ m = 2 \/ m = 3 \/ m = 4 \/ m = 5 \/ m = 6
          \/ m = 7 \/ m = 8 \/ m = 9 \/ m = 10 \/ m = 11 \/ m = 12) as Hc by lia.
  assert (m' = 0 \/ m' = 1 \/ m' = 2 \/ m' = 3 \/ m' = 4 \/ m' = 5 \/ m' = 6
          \/ m' = 7 \/ m' = 8 \/ m' = 9 \/ m' = 10 \/ m' = 11 \/ m' = 12)
    as Hc' by lia.
  destruct leap; repeat (destruct Hc as [->|Hc]); try subst m;
    repeat (destruct Hc' as [->|Hc']); try subst m'; eval_monthStart; lia.
Qed.

(** The date of a day number gives the day number back, and days added
    to the date are days added to the day number. *)
Lemma MakeDay_of_day (d k : Z) :
  MakeDay (YearFromDay d) (MonthFromDay d) (DateFromDay d + k) = d + k.
Proof.
  pose proof (MonthFromDay_bounds d) as Hm.
  unfold MakeDay. cbv zeta.
  replace (MonthFromDay d / 12) with 0
    by (Z.to_euclidean_division_equations; lia).
  replace (MonthFromDay d mod 12) with (MonthFromDay d)
    by (Z.to_euclidean_division_equations; lia).
  rewrite Z.add_0_r. unfold DateFromDay, DayWithinYear. lia.
Qed.

(** A calendar date of a year gives its year, month and day back from
    its day number. *)
Lemma MakeDay_within (y m date : Z) :
  0 <= m <= 11 -> 1 <= date <= daysInMonth (isLeapYear y) m ->
  DayFromYear y <= MakeDay y m date < DayFromYear (y + 1)
  /\ MakeDay y m date - DayFromYear y = monthStart (isLeapYear y) m + date - 1.
Proof.
  intros Hm Hd. unfold MakeDay. cbv zeta.
  replace (m / 12) with 0 by (Z.to_euclidean_division_equations; lia).
  replace (m mod 12) with m by (Z.to_euclidean_division_equations; lia).
  rewrite Z.add_0_r, DayFromYear_succ. unfold daysInMonth in Hd.
  pose proof (monthStart_bounds (isLeapYear y) m ltac:(lia)).
  pose proof (monthStart_bounds (isLeapYear y) (m + 1) ltac:(lia)).
  unfold DaysInYear. destruct (isLeapYear y); lia.
Qed.

Lemma MonthFromDay_unique (d m : Z) :
  0 <= m <= 11 ->
  monthStart (isLeapYear (YearFromDay d)) m <= DayWithinYear d
  < monthStart (isLeapYear (YearFromDay d)) (m + 1) ->
  MonthFromDay d = m.
Proof.
  intros Hm Hw.
  pose proof (MonthFromDay_spec d) as Hs. cbv zeta in Hs.
  pose proof (MonthFromDay_bounds d) as Hb.
  destruct (Z.lt_trichotomy (MonthFromDay d) m) as [Hlt|[Heq|Hgt]]; [|done|].
  - pose proof (monthStart_mono (isLeapYear (YearFromDay d))
                  (MonthFromDay d + 1) m ltac:(lia) ltac:(lia)). lia.
  - pose proof (monthStart_mono (isLeapYear (YearFromDay d))
                  (m + 1) (MonthFromDay d) ltac:(lia) ltac:(lia)). lia.
Qed.

Lemma MakeDay_back (y m date : Z) :
  0 <= m <= 11 -> 1 <= date <= daysInMonth (isLeapYear y) m ->
  YearFromDay (MakeDay y m date) = y
  /\ MonthFromDay (MakeDay y m date) = m
  /\ DateFromDay (MakeDay y m date) = date.
Proof.
  intros Hm Hd.
  destruct (MakeDay_within y m date Hm Hd) as [Hin Hoff].
  pose proof (YearFromDay_unique _ _ Hin) as Hy.
  assert (DayWithinYear (MakeDay y m date)
          = monthStart (isLeapYear y) m + date - 1) as Hw
    by (unfold DayWithinYear; rewrite Hy; lia).
  assert (MonthFromDay (MakeDay y m date) = m) as Hmo.
  { apply MonthFromDay_unique; [done|]. rewrite Hy, Hw.
    unfold daysInMonth in Hd. lia. }
  split; [done|]. split; [done|].
  unfold DateFromDay. rewrite Hy, Hmo, Hw. lia.
Qed.

End Calendar.

(** ** Dates the parser accepts ([normalizeIsoDate]) *)

(** A calendar date written [YYYY-MM-DD], from the year 100 on. *)
Definition isCalendarDate (s : string) : bool :=
  match isoShape s with
  | Some (y, m, d) =>
      let year := NumberOfDigits y in
      let month := NumberOfDigits m in
      let day := NumberOfDigits d in
      ((100 <=? year) && (1 <=? month) && (month <=? 12) && (1 <=? day)
       && (day <=? daysInMonth (isLeapYear year) (month - 1)))%Z
  | None => false
  end.

Section DigitFacts.
Local Open Scope Z_scope.

Lemma digitVal_bounds (c : ascii) : isDigit c = true -> 0 <= digitVal c <= 9.
Proof.
  destruct c as [[] [] [] [] [] [] [] []]; vm_compute; try discriminate;
    intros _; split; discriminate.
Qed.

Lemma digitsVal_bounds (s : string) (acc : Z) :
  strAll isDigit s = true -> 0 <= acc ->
  acc * 10 ^ Z.of_nat (String.length s) <= digitsVal acc s
  < (acc + 1) * 10 ^ Z.of_nat (String.length s).
Proof.
  revert acc. induction s as [|c r IH]; intros acc Hd Hacc.
  - simpl. lia.
  - simpl in Hd. apply andb_prop in Hd as [Hc Hr].
    pose proof (digitVal_bounds c Hc) as Hv.
    cbn [digitsVal String.length].
    specialize (IH (10 * acc + digitVal c) Hr ltac:(lia)).
    rewrite Nat2Z.inj_succ, Z.pow_succ_r by lia.
    pose proof (Z.pow_pos_nonneg 10 (Z.of_nat (String.length r))
                  ltac:(lia) ltac:(lia)).
    nia.
Qed.

Lemma NumberOfDigits_bounds (s : string) :
  strAll isDigit s = true ->
  0 <= NumberOfDigits s < 10 ^ Z.of_nat (String.length s).
Proof.
  intros Hd. pose proof (digitsVal_bounds s 0 Hd ltac:(lia)) as H.
  unfold NumberOfDigits. lia.
Qed.

Lemma takeDigits_app (ds rest : string) :
  strAll isDigit ds = true ->
  takeDigits (String.length ds) (ds ++ rest) = Some (ds, rest).
Proof.
  induction ds as [|c r IH]; intros Hd.
  - by rewrite append_nil.
  - simpl in Hd. apply andb_prop in Hd as [Hc Hr].
    rewrite append_cons. cbn [String.length takeDigits].
    by rewrite Hc, (IH Hr).
Qed.

Lemma isoShape_app (y m d : string) :
  String.length y = 4%nat -> strAll isDigit y = true ->
  String.length m = 2%nat -> strAll isDigit m = true ->
  String.length d = 2%nat -> strAll isDigit d = true ->
  isoShape (y ++ "-" ++ m ++ "-" ++ d) = Some (y, m, d).
Proof.
  intros Hly Hy Hlm Hm Hld Hd. unfold isoShape.
  rewrite <- Hly, <- Hlm.
  rewrite (takeDigits_app y ("-" ++ m ++ "-" ++ d)) by done.
  change ("-" ++ m ++ "-" ++ d) with (String "-" (m ++ "-" ++ d)).
  cbv beta iota. change (codeUnit "-" =? 45)%N with true. cbv beta iota.
  rewrite (takeDigits_app m ("-" ++ d)) by done.
  change ("-" ++ d) with (String "-" d).
  cbv beta iota. change (codeUnit "-" =? 45)%N with true. cbv beta iota.
  rewrite Hlm, <- Hld.
  pose proof (takeDigits_app d "" Hd) as Hday.
  rewrite append_nil_r in Hday. by rewrite Hday.
Qed.

End DigitFacts.

Section NormalizeIsoDate.
Local Open Scope Z_scope.
Context {tz : TimeZone}.

(** X1.  On every host: a string that [normalizeIsoDate] accepts is written
    [YYYY-MM-DD] and names a month from 1 to 12 and a day that this
    month has in this year. *)
Theorem normalizeIsoDate_month_day (s r : string) :
  normalizeIsoDate s = Some r ->
  exists y m d,
    isoShape s = Some (y, m, d)
    /\ s = (y ++ "-" ++ m ++ "-" ++ d)%string
    /\ 1 <= NumberOfDigits m <= 12
    /\ 1 <= NumberOfDigits d
       <= daysInMonth (isLeapYear (NumberOfDigits y)) (NumberOfDigits m - 1).
Proof.
  intros Hn.
  destruct (normalizeIsoDate_Some s r Hn)
    as (y & m & d & Hshape & _ & [t Ht] & Hy & Hm & Hd).
  exists y, m, d. split; [done|].
  split; [by apply isoShape_Some in Hshape as (-> & _)|].
  destruct (newDate _ _ _) as [|t']; [done|]. cbn in Hy, Hm, Hd.
  injection Hy as Hy. injection Hm as Hm. injection Hd as Hd.
  pose proof (MonthFromDay_bounds (Day (LocalTime t'))) as Hmb.
  pose proof (DateFromDay_bounds (Day (LocalTime t'))) as Hdb.
  rewrite Hy, Hm, Hd in Hdb. lia.
Qed.

End NormalizeIsoDate.

Lemma normalizeIsoDate_month_day_witness :
  exists y m d,
    isoShape "2024-02-29" = Some (y, m, d)
    /\ (1 <= NumberOfDigits d
        <= daysInMonth (isLeapYear (NumberOfDigits y)) (NumberOfDigits m - 1))%Z.
Proof.
  destruct (normalizeIsoDate_month_day (tz:=pacific2024)
              "2024-02-29" "2024-02-29" eq_refl)
    as (y & m & d & Hs & _ & _ & Hd).
  by exists y, m, d.
Defined.

(** ** The order of the days of the calendar *)

Section CalendarOrder.
Local Open Scope Z_scope.

Lemma YearFromDay_ge (k d : Z) : DayFromYear k <= d -> k <= YearFromDay d.
Proof.
  intros Hk. pose proof (YearFromDay_bounds d) as [_ Hhi].
  destruct (Z.le_gt_cases k (YearFromDay d)) as [|Hlt]; [done|].
  pose proof (DayFromYear_mono (YearFromDay d + 1) k ltac:(lia)). lia.
Qed.

Lemma YearFromDay_lt (k d : Z) : d < DayFromYear k -> YearFromDay d < k.
Proof.
  intros Hk. pose proof (YearFromDay_bounds d) as [Hlo _].
  destruct (Z.lt_ge_cases (YearFromDay d) k) as [|Hge]; [done|].
  pose proof (DayFromYear_mono k (YearFromDay d) ltac:(lia)). lia.
Qed.

Lemma DayFromYear_range (y : Z) :
  0 <= y <= 10100 -> -720000 <= DayFromYear y <= 2970000.
Proof.
  intros Hy. unfold DayFromYear. Z.to_euclidean_division_equations. lia.
Qed.

Lemma MakeDay_range (y m date : Z) :
  100 <= y <= 9999 -> -1 <= m <= 99 -> 0 <= date <= 99 ->
  DayFromYear (y - 1) - 1 <= MakeDay y m date <= 2980000.
Proof.
  intros Hy Hm Hd. unfold MakeDay. cbv zeta.
  assert (-1 <= m / 12 <= 8) as Hq
    by (Z.to_euclidean_division_equations; lia).
  assert (0 <= m mod 12 <= 11) as Hr
    by (Z.to_euclidean_division_equations; lia).
  pose proof (monthStart_bounds (isLeapYear (y + m / 12)) (m mod 12)
                ltac:(lia)) as Hs.
  pose proof (DayFromYear_mono (y - 1) (y + m / 12) ltac:(lia)).
  pose proof (DayFromYear_range (y + m / 12) ltac:(lia)).
  destruct (isLeapYear _); lia.
Qed.

End CalendarOrder.

(** ** Hosts with one offset from UTC all year *)

Section FixedOffset.
Local Open Scope Z_scope.
Context {tz : TimeZone}.
Variable offset : Z.
Hypothesis Hfixed : forall t isUTC, LocalTZA t isUTC = offset.
Hypothesis Hoffset : - msPerDay < offset < msPerDay.

Lemma Day_LocalTime_midnight (d : Z) :
  Day (LocalTime (UTC (d * msPerDay))) = d.
Proof.
  unfold LocalTime, UTC, Day. rewrite !Hfixed.
  replace (d * msPerDay - offset + offset) with (d * msPerDay) by lia.
  by apply Z.div_mul.
Qed.

Lemma TimeClip_midnight (d : Z) :
  -99000000 <= d <= 99000000 ->
  TimeClip (UTC (d * msPerDay)) = TimeValue (d * msPerDay - offset).
Proof.
  intros Hd. unfold TimeClip, UTC. rewrite Hfixed.
  unfold msPerDay in *.
  destruct (Z.gtb_spec (Z.abs (d * 86400000 - offset)) 8640000000000000);
    [lia|done].
Qed.

Lemma yearOfText (y : string) :
  String.length y = 4%nat -> strAll isDigit y = true ->
  let year := NumberOfDigits y in
  let yr := if (0 <=? year) && (year <=? 99) then 1900 + year else year in
  0 <= year <= 9999 /\ 100 <= yr <= 9999
  /\ (100 <= year -> yr = year) /\ (year < 100 -> yr = 1900 + year).
Proof.
  intros Hl Hd. pose proof (NumberOfDigits_bounds y Hd) as Hb.
  rewrite Hl in Hb. change (10 ^ Z.of_nat 4) with 10000 in Hb. cbv zeta.
  destruct (Z.leb_spec 0 (NumberOfDigits y)),
    (Z.leb_spec (NumberOfDigits y) 99); cbn [andb]; lia.
Qed.

Lemma twoDigitsOfText (m : string) :
  String.length m = 2%nat -> strAll isDigit m = true ->
  0 <= NumberOfDigits m <= 99.
Proof.
  intros Hl Hd. pose proof (NumberOfDigits_bounds m Hd) as Hb.
  rewrite Hl in Hb. change (10 ^ Z.of_nat 2) with 100 in Hb. lia.
Qed.

(** [new Date(year, month - 1, day)] for the three texts of a date. *)
Lemma newDate_of_texts (s y m d : string) :
  isoShape s = Some (y, m, d) ->
  newDate (Some (NumberOfDigits y)) (Some (NumberOfDigits m - 1))
          (Some (NumberOfDigits d))
  = TimeValue (dayNumberOfIso s * msPerDay - offset)
  /\ -3000000 <= dayNumberOfIso s <= 3000000.
Proof.
  intros Hshape. unfold dayNumberOfIso. rewrite Hshape.
  apply isoShape_Some in Hshape as (_ & [Hly Hy] & [Hlm Hm] & [Hld Hd]).
  destruct (yearOfText y Hly Hy) as (Hyear & Hyr & _).
  pose proof (twoDigitsOfText m Hlm Hm) as Hmonth.
  pose proof (twoDigitsOfText d Hld Hd) as Hday.
  cbv zeta in Hyr. unfold newDate.
  set (yr := if (0 <=? NumberOfDigits y) && (NumberOfDigits y <=? 99)
             then 1900 + NumberOfDigits y else NumberOfDigits y) in *.
  pose proof (MakeDay_range yr (NumberOfDigits m - 1) (NumberOfDigits d)
                Hyr ltac:(lia) ltac:(lia)) as Hrange.
  pose proof (DayFromYear_range (yr - 1) ltac:(lia)).
  split; [|lia]. apply TimeClip_midnight. lia.
Qed.

Lemma normalizeIsoDate_fixed (s : string) :
  normalizeIsoDate s = if isCalendarDate s then Some s else None.
Proof.
  unfold normalizeIsoDate, isCalendarDate.
  destruct (isoShape s) as [[[y m] d]|] eqn:Hshape; [|done].
  destruct (newDate_of_texts s y m d Hshape) as [Hdate Hrange].
  pose proof Hshape as Hparts.
  apply isoShape_Some in Hparts as (Hs & [Hly Hy] & [Hlm Hm] & [Hld Hd]).
  destruct (yearOfText y Hly Hy) as (Hyear & Hyr & Hbig & Hsmall).
  pose proof (twoDigitsOfText m Hlm Hm) as Hmonth.
  pose proof (twoDigitsOfText d Hld Hd) as Hday.
  cbv zeta in Hyr, Hbig, Hsmall.
  rewrite Hdate. cbn [getTime getFullYear getMonth getDate].
  assert (Day (LocalTime (dayNumberOfIso s * msPerDay - offset))
          = dayNumberOfIso s) as ->.
  { pose proof (Day_LocalTime_midnight (dayNumberOfIso s)) as H.
    unfold UTC in H. by rewrite Hfixed in H. }
  assert (dayNumberOfIso s
          = MakeDay (if (0 <=? NumberOfDigits y) && (NumberOfDigits y <=? 99)
                     then 1900 + NumberOfDigits y else NumberOfDigits y)
                    (NumberOfDigits m - 1) (NumberOfDigits d)) as HD
    by (unfold dayNumberOfIso; by rewrite Hshape).
  set (D := dayNumberOfIso s) in *.
  set (yr := if (0 <=? NumberOfDigits y) && (NumberOfDigits y <=? 99)
             then 1900 + NumberOfDigits y else NumberOfDigits y) in *.
  destruct ((100 <=? NumberOfDigits y) && (1 <=? NumberOfDigits m)
            && (NumberOfDigits m <=? 12) && (1 <=? NumberOfDigits d)
            && (NumberOfDigits d
                <=? daysInMonth (isLeapYear (NumberOfDigits y))
                      (NumberOfDigits m - 1))) eqn:Hvalid.
  - repeat (apply andb_prop in Hvalid as [Hvalid ?]).
    assert (yr = NumberOfDigits y) as Hyreq by (apply Hbig; lia).
    destruct (MakeDay_back (NumberOfDigits y) (NumberOfDigits m - 1)
                (NumberOfDigits d) ltac:(lia) ltac:(lia)) as (Hb1 & Hb2 & Hb3).
    rewrite Hyreq in HD. rewrite HD, Hb1, Hb2, Hb3.
    rewrite !bool_decide_eq_true_2 by done. cbn [negb orb].
    by rewrite <- Hs.
  - destruct (negb _ || _ || _) eqn:Hc; [done|]. exfalso.
    apply orb_false_elim in Hc as [[H1 H2]%orb_false_elim H3].
    apply negb_false_iff, bool_decide_eq_true in H1, H2, H3.
    injection H1 as H1. injection H2 as H2. injection H3 as H3.
    pose proof (MonthFromDay_bounds D) as Hmb.
    pose proof (DateFromDay_bounds D) as Hdb.
    rewrite H1, H2, H3 in Hdb.
    assert (100 <= NumberOfDigits y) as Hy100.
    { destruct (Z.le_gt_cases 100 (NumberOfDigits y)) as [|Hlt]; [done|].
      exfalso.
      pose proof (MakeDay_range yr (NumberOfDigits m - 1) (NumberOfDigits d)
                    Hyr ltac:(lia) ltac:(lia)) as [Hlo _].
      rewrite <- HD in Hlo.
      assert (DayFromYear 1898 <= D).
      { pose proof (DayFromYear_mono 1899 (yr - 1) ltac:(lia)).
        assert (DayFromYear 1898 + 365 <= DayFromYear 1899)
          by (vm_compute; discriminate).
        lia. }
      pose proof (YearFromDay_ge 1898 D ltac:(done)). lia. }
    assert ((100 <=? NumberOfDigits y) = true) by (apply Z.leb_le; lia).
    assert ((1 <=? NumberOfDigits m) = true) by (apply Z.leb_le; lia).
    assert ((NumberOfDigits m <=? 12) = true) by (apply Z.leb_le; lia).
    assert ((1 <=? NumberOfDigits d) = true) by (apply Z.leb_le; lia).
    assert ((NumberOfDigits d
             <=? daysInMonth (isLeapYear (NumberOfDigits y))
                   (NumberOfDigits m - 1)) = true) by (apply Z.leb_le; lia).
    by repeat match goal with H : _ = true |- _ => rewrite H in Hvalid end.
Qed.

(** X2.  On a host with a fixed offset, [normalizeIsoDate] accepts exactly
    the calendar dates written [YYYY-MM-DD] with a year from 100 on,
    and answers the string it was given. *)
Theorem normalizeIsoDate_fixed_offset (s : string) :
  normalizeIsoDate s = if isCalendarDate s then Some s else None.
Proof. exact (normalizeIsoDate_fixed s). Qed.

End FixedOffset.

Lemma normalizeIsoDate_fixed_offset_witness :
  normalizeIsoDate (tz:=fixedZone 3600000) "2023-02-29" = None
  /\ normalizeIsoDate (tz:=fixedZone 3600000) "2024-02-29" = Some "2024-02-29".
Proof.
  split.
  - apply (normalizeIsoDate_fixed_offset (tz:=fixedZone 3600000) 3600000
             (fun _ _ => eq_refl)); unfold msPerDay; lia.
  - apply (normalizeIsoDate_fixed_offset (tz:=fixedZone 3600000) 3600000
             (fun _ _ => eq_refl)); unfold msPerDay; lia.
Defined.

(** ** Day numbers and the dates of a range on a fixed offset
    ([toIsoDate], [addDays], [dayDiffInclusive], [enumerateDates]) *)

(** The text [toIsoDate] writes for a day number. *)
Definition isoOfDay (d : Z) : string :=
  StringOfZ (YearFromDay d) ++ "-"
  ++ padStart 2 "0" (StringOfZ (MonthFromDay d + 1)) ++ "-"
  ++ padStart 2 "0" (StringOfZ (DateFromDay d)).

Section FixedOffsetDates.
Local Open Scope Z_scope.
Context {tz : TimeZone}.
Variable offset : Z.
Hypothesis Hfixed : forall t isUTC, LocalTZA t isUTC = offset.
Hypothesis Hoffset : - msPerDay < offset < msPerDay.

Lemma toIsoDate_fixed (t : Z) :
  toIsoDate (TimeValue t) = isoOfDay (Day (t + offset)).
Proof.
  unfold toIsoDate, isoOfDay. cbn [getFullYear getMonth getDate optAdd StringOfInt].
  unfold LocalTime. by rewrite Hfixed.
Qed.

Lemma Day_of_midnight (d : Z) : Day (d * msPerDay - offset + offset) = d.
Proof.
  replace (d * msPerDay - offset + offset) with (d * msPerDay) by lia.
  by apply Z.div_mul.
Qed.

Lemma newDate_of_day (L k : Z) :
  100 <= YearFromDay L ->
  -99000000 <= L + k <= 99000000 ->
  newDate (Some (YearFromDay L)) (Some (MonthFromDay L))
          (Some (DateFromDay L + k))
  = TimeValue ((L + k) * msPerDay - offset).
Proof.
  intros Hyear Hrange. unfold newDate.
  destruct (Z.leb_spec 0 (YearFromDay L)), (Z.leb_spec (YearFromDay L) 99);
    cbn [andb]; try lia.
  rewrite MakeDay_of_day.
  by apply (TimeClip_midnight offset Hfixed Hoffset).
Qed.

(** [addDays] goes to the local midnight of the day that many days
    after the day of the date. *)
Lemma addDays_fixed (t k : Z) :
  100 <= YearFromDay (Day (t + offset)) ->
  -99000000 <= Day (t + offset) + k <= 99000000 ->
  addDays (TimeValue t) k
  = TimeValue ((Day (t + offset) + k) * msPerDay - offset).
Proof.
  intros Hyear Hrange. unfold addDays.
  cbn [getFullYear getMonth getDate optAdd]. unfold LocalTime.
  rewrite Hfixed. by apply newDate_of_day.
Qed.

Lemma dayDiffInclusive_fixed (ts te : Z) :
  100 <= YearFromDay (Day (ts + offset)) ->
  100 <= YearFromDay (Day (te + offset)) ->
  -99000000 <= Day (ts + offset) <= 99000000 ->
  -99000000 <= Day (te + offset) <= 99000000 ->
  dayDiffInclusive (TimeValue ts) (TimeValue te)
  = Some (Day (te + offset) - Day (ts + offset) + 1).
Proof.
  intros Hys Hye Hrs Hre.
  pose proof (newDate_of_day (Day (ts + offset)) 0 Hys ltac:(lia)) as Hs.
  pose proof (newDate_of_day (Day (te + offset)) 0 Hye ltac:(lia)) as He.
  rewrite !Z.add_0_r in Hs, He.
  unfold dayDiffInclusive.
  cbn [getFullYear getMonth getDate]. unfold LocalTime. rewrite !Hfixed.
  rewrite Hs, He. cbn [getTime]. f_equal.
  generalize (Day (ts + offset)) (Day (te + offset)). clear. intros a b.
  replace (b * msPerDay - offset - (a * msPerDay - offset))
    with ((b - a) * msPerDay) by lia.
  apply (f_equal (fun z => z + 1)). apply Z.div_mul. unfold msPerDay. lia.
Qed.

(** What a calendar date is parsed to. *)
Lemma parseIsoDate_fixed (s : string) :
  isCalendarDate s = true ->
  parseIsoDate s = Some (TimeValue (dayNumberOfIso s * msPerDay - offset))
  /\ 100 <= YearFromDay (dayNumberOfIso s)
  /\ -3000000 <= dayNumberOfIso s <= 3000000.
Proof.
  intros Hcal.
  pose proof (normalizeIsoDate_fixed offset Hfixed Hoffset s) as Hn.
  rewrite Hcal in Hn.
  destruct (parseIsoDate_Some s s Hn)
    as (y & m & d & t & Hshape & Hp & Hdate & Ht & _).
  destruct (newDate_of_texts offset Hfixed Hoffset s y m d Hshape)
    as [Hnew Hrange].
  rewrite Hp, Hnew. split; [done|]. split; [|done].
  unfold isCalendarDate in Hcal. rewrite Hshape in Hcal.
  repeat (apply andb_prop in Hcal as [Hcal ?]).
  repeat match goal with H : (_ <=? _) = true |- _ => apply Z.leb_le in H end.
  unfold dayNumberOfIso. rewrite Hshape.
  destruct (Z.leb_spec 0 (NumberOfDigits y)),
    (Z.leb_spec (NumberOfDigits y) 99); cbn [andb]; try lia;
    destruct (MakeDay_back (NumberOfDigits y) (NumberOfDigits m - 1)
                (NumberOfDigits d) ltac:(lia) ltac:(lia)) as (-> & _); lia.
Qed.

(** The text of the day number of a calendar date from the year 1000
    on is the date. *)
Lemma isoOfDay_of_iso (s : string) :
  isCalendarDate s = true ->
  1000 <= YearFromDay (dayNumberOfIso s) ->
  isoOfDay (dayNumberOfIso s) = s.
Proof.
  intros Hcal Hyear. unfold isCalendarDate in Hcal.
  destruct (isoShape s) as [[[y m] d]|] eqn:Hshape; [|done].
  repeat (apply andb_prop in Hcal as [Hcal ?]).
  repeat match goal with H : (_ <=? _) = true |- _ => apply Z.leb_le in H end.
  unfold dayNumberOfIso in *. rewrite Hshape in *.
  apply isoShape_Some in Hshape as (Hs & [Hly Hy] & [Hlm Hm] & [Hld Hd]).
  assert ((if (0 <=? NumberOfDigits y) && (NumberOfDigits y <=? 99)
           then 1900 + NumberOfDigits y else NumberOfDigits y)
          = NumberOfDigits y) as Hyr.
  { destruct (Z.leb_spec 0 (NumberOfDigits y)),
      (Z.leb_spec (NumberOfDigits y) 99); cbn [andb]; lia. }
  rewrite Hyr in *.
  destruct (MakeDay_back (NumberOfDigits y) (NumberOfDigits m - 1)
              (NumberOfDigits d) ltac:(lia) ltac:(lia)) as (Hb1 & Hb2 & Hb3).
  unfold isoOfDay. rewrite Hb1, Hb2, Hb3. rewrite Hb1 in Hyear.
  replace (NumberOfDigits m - 1 + 1) with (NumberOfDigits m) by lia.
  rewrite four_digits_back, !two_digits_back by done. by rewrite Hs.
Qed.

Lemma enumerateDates_fixed (startIso endIso : string) :
  isCalendarDate startIso = true ->
  isCalendarDate endIso = true ->
  enumerateDates startIso endIso
  = List.map isoOfDay
      (seqZ (dayNumberOfIso startIso) (inclusiveDayCount startIso endIso))
  /\ List.length (enumerateDates startIso endIso)
     = Z.to_nat (inclusiveDayCount startIso endIso)
  /\ (1000 <= YearFromDay (dayNumberOfIso startIso) ->
      dayNumberOfIso startIso <= dayNumberOfIso endIso ->
      head (enumerateDates startIso endIso) = Some startIso
      /\ last (enumerateDates startIso endIso) = Some endIso).
Proof.
  intros Hs He.
  destruct (parseIsoDate_fixed startIso Hs) as (Hps & Hys & Hrs).
  destruct (parseIsoDate_fixed endIso He) as (Hpe & Hye & Hre).
  set (ds := dayNumberOfIso startIso) in *.
  set (de := dayNumberOfIso endIso) in *.
  assert (enumerateDates startIso endIso
          = List.map isoOfDay (seqZ ds (de - ds + 1))) as Hdates.
  { unfold enumerateDates. rewrite Hps, Hpe. cbn [getTime].
    destruct (Z.gtb_spec (ds * msPerDay - offset) (de * msPerDay - offset))
      as [Hgt|Hle].
    - unfold msPerDay in Hgt. rewrite seqZ_nil by lia. done.
    - unfold msPerDay in Hle.
      rewrite dayDiffInclusive_fixed by (rewrite ?Day_of_midnight; lia).
      rewrite !Day_of_midnight. cbn [loopIndices].
      rewrite <- (Z.add_0_r ds) at 2.
      rewrite <- (fmap_add_seqZ ds 0 (de - ds + 1)).
      change (Z.add ds <$> seqZ 0 (de - ds + 1))
        with (List.map (Z.add ds) (seqZ 0 (de - ds + 1))).
      rewrite List.map_map. apply List.map_ext_in.
      intros i Hi. apply list_elem_of_In, elem_of_seqZ in Hi.
      rewrite addDays_fixed by (rewrite ?Day_of_midnight; lia).
      rewrite toIsoDate_fixed, !Day_of_midnight. done. }
  split; [done|]. split.
  { rewrite Hdates, length_map, length_seqZ. done. }
  intros Hyear Horder. rewrite Hdates.
  assert (1000 <= YearFromDay de) as Hyear_e.
  { pose proof (YearFromDay_bounds ds) as [Hlo _].
    apply YearFromDay_ge.
    pose proof (DayFromYear_mono 1000 (YearFromDay ds) Hyear). lia. }
  split.
  - rewrite seqZ_cons by lia. cbn [List.map head].
    f_equal. by apply isoOfDay_of_iso.
  - rewrite seqZ_app by lia. rewrite (seqZ_cons _ 1), (seqZ_nil _ (Z.pred 1)) by lia.
    rewrite List.map_app. cbn [List.map].
    rewrite last_snoc. replace (ds + (de - ds)) with de by lia.
    f_equal. by apply isoOfDay_of_iso.
Qed.

(** X3.  On a host with a fixed offset, [enumerateDates] of two calendar
    dates lists the days from the first to the second in order, each
    one once; there are as many entries as days, the first entry is the
    first date and the last entry is the second (for years from 1000
    on, which [toIsoDate] writes with four digits). *)
Theorem enumerateDates_fixed_offset (startIso endIso : string) :
  isCalendarDate startIso = true ->
  isCalendarDate endIso = true ->
  enumerateDates startIso endIso
  = List.map isoOfDay
      (seqZ (dayNumberOfIso startIso) (inclusiveDayCount startIso endIso))
  /\ List.length (enumerateDates startIso endIso)
     = Z.to_nat (inclusiveDayCount startIso endIso)
  /\ (1000 <= YearFromDay (dayNumberOfIso startIso) ->
      dayNumberOfIso startIso <= dayNumberOfIso endIso ->
      head (enumerateDates startIso endIso) = Some startIso
      /\ last (enumerateDates startIso endIso) = Some endIso).
Proof. exact (enumerateDates_fixed startIso endIso). Qed.

End FixedOffsetDates.

Lemma enumerateDates_fixed_offset_witness :
  List.length (enumerateDates (tz:=UTCZone) "2024-02-27" "2024-03-02")
  = 5%nat
  /\ last (enumerateDates (tz:=UTCZone) "2024-02-27" "2024-03-02")
     = Some "2024-03-02".
Proof.
  destruct (enumerateDates_fixed_offset (tz:=UTCZone) 0 (fun _ _ => eq_refl)
              ltac:(unfold msPerDay; lia) "2024-02-27" "2024-03-02"
              eq_refl eq_refl) as (_ & Hlen & Hends).
  split; [exact Hlen|].
  apply Hends; vm_compute; discriminate.
Defined.

(** ** Numbers of a configuration as texts of dates *)

(** A year from 1000 to 9999 is written with four digits. *)
Definition yearTextOk (y : Z) : bool :=
  let text := StringOfZ y in
  (String.length text =? 4)%nat && strAll isDigit text
  && (NumberOfDigits text =? y)%Z.

(** A number from 0 to 99 is padded to two digits. *)
Definition twoDigitTextOk (n : Z) : bool :=
  let text := padStart 2 "0" (StringOfZ n) in
  (String.length text =? 2)%nat && strAll isDigit text
  && (NumberOfDigits text =? n)%Z.

(** The number of a year from 1970 to 9999 is a valid year. *)
Definition yearNumberOk (y : Z) : bool :=
  isValidYear (JNum (numOfZ y))
  && bool_decide (jsonToZ (JNum (numOfZ y)) = Some y).

(** The number of a month from 1 to 12 is a valid month. *)
Definition monthNumberOk (m : Z) : bool :=
  negb (isInvalidMonth (JNum (numOfZ m)))
  && bool_decide (jsonToZ (JNum (numOfZ m)) = Some m).

Section NumberTexts.
Local Open Scope Z_scope.

Lemma forallb_seqZ (p : Z -> bool) (m n k : Z) :
  forallb p (seqZ m n) = true -> m <= k < m + n -> p k = true.
Proof.
  intros Hall Hk. rewrite forallb_forall in Hall. apply Hall.
  by apply list_elem_of_In, elem_of_seqZ.
Qed.

Lemma yearText (y : Z) :
  1000 <= y <= 9999 ->
  String.length (StringOfZ y) = 4%nat
  /\ strAll isDigit (StringOfZ y) = true
  /\ NumberOfDigits (StringOfZ y) = y.
Proof.
  intros Hy.
  assert (yearTextOk y = true) as Hok
    by (apply (forallb_seqZ _ 1000 9000); [vm_compute; reflexivity|lia]).
  unfold yearTextOk in Hok.
  apply andb_prop in Hok as [[H1 H2]%andb_prop H3].
  apply Nat.eqb_eq in H1. apply Z.eqb_eq in H3. done.
Qed.

Lemma twoDigitText (n : Z) :
  0 <= n <= 99 ->
  String.length (padStart 2 "0" (StringOfZ n)) = 2%nat
  /\ strAll isDigit (padStart 2 "0" (StringOfZ n)) = true
  /\ NumberOfDigits (padStart 2 "0" (StringOfZ n)) = n.
Proof.
  intros Hn.
  assert (twoDigitTextOk n = true) as Hok
    by (apply (forallb_seqZ _ 0 100); [vm_compute; reflexivity|lia]).
  unfold twoDigitTextOk in Hok.
  apply andb_prop in Hok as [[H1 H2]%andb_prop H3].
  apply Nat.eqb_eq in H1. apply Z.eqb_eq in H3. done.
Qed.

Lemma yearNumber (y : Z) :
  1970 <= y <= 9999 ->
  isValidYear (JNum (numOfZ y)) = true
  /\ jsonToZ (JNum (numOfZ y)) = Some y.
Proof.
  intros Hy.
  assert (yearNumberOk y = true) as Hok
    by (apply (forallb_seqZ _ 1970 8030); [vm_compute; reflexivity|lia]).
  unfold yearNumberOk in Hok. apply andb_prop in Hok as [H1 H2].
  by apply bool_decide_eq_true in H2.
Qed.

Lemma monthNumber (m : Z) :
  1 <= m <= 12 ->
  isInvalidMonth (JNum (numOfZ m)) = false
  /\ jsonToZ (JNum (numOfZ m)) = Some m.
Proof.
  intros Hm.
  assert (monthNumberOk m = true) as Hok
    by (apply (forallb_seqZ _ 1 12); [vm_compute; reflexivity|lia]).
  unfold monthNumberOk in Hok. apply andb_prop in Hok as [H1 H2].
  apply negb_true_iff in H1. by apply bool_decide_eq_true in H2.
Qed.

(** The date written for a year, a month and a day of the calendar is a
    calendar date, with the day number of that day. *)
Lemma calendarText (y m d : Z) :
  1000 <= y <= 9999 -> 1 <= m <= 12 ->
  1 <= d <= daysInMonth (isLeapYear y) (m - 1) ->
  let text := (StringOfZ y ++ "-" ++ padStart 2 "0" (StringOfZ m) ++ "-"
               ++ padStart 2 "0" (StringOfZ d))%string in
  isCalendarDate text = true
  /\ dayNumberOfIso text = MakeDay y (m - 1) d
  /\ isoOfDay (MakeDay y (m - 1) d) = text.
Proof.
  intros Hy Hm Hd text.
  pose proof (daysInMonth_bounds (isLeapYear y) (m - 1) ltac:(lia)) as Hdim.
  destruct (yearText y Hy) as (Hly & Hdy & Hny).
  destruct (twoDigitText m ltac:(lia)) as (Hlm & Hdm & Hnm).
  destruct (twoDigitText d ltac:(lia)) as (Hld & Hdd & Hnd).
  pose proof (isoShape_app _ _ _ Hly Hdy Hlm Hdm Hld Hdd) as Hshape.
  fold text in Hshape.
  assert (isCalendarDate text = true) as Hcal.
  { unfold isCalendarDate. rewrite Hshape, Hny, Hnm, Hnd.
    repeat (apply andb_true_intro; split); apply Z.leb_le; lia. }
  assert (dayNumberOfIso text = MakeDay y (m - 1) d) as Hday.
  { unfold dayNumberOfIso. rewrite Hshape, Hny, Hnm, Hnd.
    destruct (Z.leb_spec 0 y), (Z.leb_spec y 99); cbn [andb]; try lia; done. }
  split; [done|]. split; [done|].
  rewrite <- Hday. apply isoOfDay_of_iso; [done|].
  rewrite Hday.
  destruct (MakeDay_back y (m - 1) d ltac:(lia) ltac:(lia)) as (-> & _). lia.
Qed.

(** The last day of a month, as [new Date(year, month, 0)] counts it. *)
Lemma MakeDay_last (y m : Z) :
  1 <= m <= 12 ->
  MakeDay y m 0 = MakeDay y (m - 1) (daysInMonth (isLeapYear y) (m - 1)).
Proof.
  intros Hm. unfold MakeDay, daysInMonth. cbv zeta.
  replace ((m - 1) / 12) with 0 by (Z.to_euclidean_division_equations; lia).
  replace ((m - 1) mod 12) with (m - 1)
    by (Z.to_euclidean_division_equations; lia).
  replace (m - 1 + 1) with m by lia. rewrite !Z.add_0_r.
  destruct (Z.eq_dec m 12) as [->|Hne].
  - change (12 / 12) with 1. change (12 mod 12) with 0.
    rewrite DayFromYear_succ. unfold DaysInYear.
    destruct (isLeapYear y), (isLeapYear (y + 1)); eval_monthStart; lia.
  - replace (m / 12) with 0 by (Z.to_euclidean_division_equations; lia).
    replace (m mod 12) with m by (Z.to_euclidean_division_equations; lia).
    rewrite Z.add_0_r. lia.
Qed.

End NumberTexts.

(** ** Month and year ranges on a fixed offset ([resolveRange]) *)

(** The date written for a year, a month and a day. *)
Definition isoOfDate (year month day : Z) : string :=
  StringOfZ year ++ "-" ++ padStart 2 "0" (StringOfZ month) ++ "-"
  ++ padStart 2 "0" (StringOfZ day).

Section FixedOffsetRanges.
Local Open Scope Z_scope.
Context {tz : TimeZone}.
Variable offset : Z.
Hypothesis Hfixed : forall t isUTC, LocalTZA t isUTC = offset.
Hypothesis Hoffset : - msPerDay < offset < msPerDay.

(** X4.  On a host with a fixed offset, a month range of a year from 1970
    to 9999 resolves to the whole month: from the first day to the last
    one, with one date for each day of the month, in order. *)
Theorem resolveRange_month_fixed_offset
    (config : NormalizedConfig.t) (f : TFile) (year month : Z) :
  NormalizedConfig.type (NormalizedConfig.range config) = "month" ->
  NormalizedConfig.year (NormalizedConfig.range config) = JNum (numOfZ year) ->
  NormalizedConfig.month (NormalizedConfig.range config)
  = JNum (numOfZ month) ->
  1970 <= year <= 9999 -> 1 <= month <= 12 ->
  let days := daysInMonth (isLeapYear year) (month - 1) in
  exists dates,
    resolveRange config f
    = Ok {| RangeResolution.type := "month";
            RangeResolution.startDate := isoOfDate year month 1;
            RangeResolution.endDate := isoOfDate year month days;
            RangeResolution.dates := dates |}
    /\ dates = List.map (fun day => isoOfDate year month day) (seqZ 1 days)
    /\ List.length dates = Z.to_nat days
    /\ 28 <= days <= 31.
Proof.
  intros Htype Hyear Hmonth Hy Hm days.
  pose proof (daysInMonth_bounds (isLeapYear year) (month - 1) ltac:(lia))
    as Hdays. fold days in Hdays.
  destruct (yearNumber year Hy) as [Hvalid Hyz].
  destruct (monthNumber month Hm) as [Hmvalid Hmz].
  destruct (calendarText year month 1 ltac:(lia) Hm ltac:(lia))
    as (Hcal1 & Hday1 & Hiso1).
  destruct (calendarText year month days ltac:(lia) Hm ltac:(lia))
    as (Hcal2 & Hday2 & Hiso2).
  fold (isoOfDate year month 1) in Hcal1, Hday1, Hiso1.
  fold (isoOfDate year month days) in Hcal2, Hday2, Hiso2.
  assert (-3000000 <= MakeDay year (month - 1) days <= 3000000) as Hrange.
  { destruct (MakeDay_within year (month - 1) days ltac:(lia) ltac:(lia))
      as [Hin _].
    pose proof (DayFromYear_range year ltac:(lia)).
    pose proof (DayFromYear_range (year + 1) ltac:(lia)). lia. }
  assert (toIsoDate (newDate (Some year) (Some month) (Some 0))
          = isoOfDate year month days) as Hend.
  { unfold newDate.
    destruct (Z.leb_spec 0 year), (Z.leb_spec year 99); cbn [andb]; try lia.
    rewrite MakeDay_last by done. fold days.
    rewrite (TimeClip_midnight offset Hfixed Hoffset) by lia.
    rewrite (toIsoDate_fixed offset Hfixed).
    by rewrite (Day_of_midnight offset). }
  destruct (enumerateDates_fixed offset Hfixed Hoffset
              (isoOfDate year month 1) (isoOfDate year month days)
              Hcal1 Hcal2) as (Hdates & Hlen & _).
  assert (inclusiveDayCount (isoOfDate year month 1)
                            (isoOfDate year month days) = days) as Hcount.
  { unfold inclusiveDayCount. rewrite Hday1, Hday2. unfold MakeDay. lia. }
  rewrite Hcount, Hday1 in Hdates. rewrite Hcount in Hlen.
  exists (enumerateDates (isoOfDate year month 1) (isoOfDate year month days)).
  split; [|split; [|done]].
  - unfold resolveRange. rewrite Htype, Hyear, Hmonth.
    change (String.eqb "month" "week") with false.
    change (String.eqb "month" "month") with true. cbv iota.
    rewrite Hvalid, Hmvalid. cbn [negb pushIf List.length Nat.ltb Nat.leb].
    rewrite Hyz, Hmz, Hend. cbn [StringOfInt]. reflexivity.
  - rewrite Hdates.
    replace (seqZ (MakeDay year (month - 1) 1) days)
      with (Z.add (MakeDay year (month - 1) 1 - 1) <$> seqZ 1 days)
      by (rewrite fmap_add_seqZ; f_equal; lia).
    change (Z.add (MakeDay year (month - 1) 1 - 1) <$> seqZ 1 days)
      with (List.map (Z.add (MakeDay year (month - 1) 1 - 1)) (seqZ 1 days)).
    rewrite List.map_map. apply List.map_ext_in.
    intros day Hday. apply list_elem_of_In, elem_of_seqZ in Hday.
    destruct (calendarText year month day ltac:(lia) Hm ltac:(lia))
      as (_ & _ & Hiso).
    etrans; [|exact Hiso]. f_equal. unfold MakeDay. lia.
Qed.

(** X5.  On a host with a fixed offset, a year range of a year from 1970 to
    9999 resolves to the whole year: from 1 January to 31 December,
    with one date for each of its 365 or 366 days, in order. *)
Theorem resolveRange_year_fixed_offset
    (config : NormalizedConfig.t) (f : TFile) (year : Z) :
  NormalizedConfig.type (NormalizedConfig.range config) = "year" ->
  NormalizedConfig.year (NormalizedConfig.range config) = JNum (numOfZ year) ->
  1970 <= year <= 9999 ->
  exists dates,
    resolveRange config f
    = Ok {| RangeResolution.type := "year";
            RangeResolution.startDate := isoOfDate year 1 1;
            RangeResolution.endDate := isoOfDate year 12 31;
            RangeResolution.dates := dates |}
    /\ dates = List.map isoOfDay (seqZ (DayFromYear year) (DaysInYear year))
    /\ List.length dates = (if isLeapYear year then 366 else 365)%nat
    /\ head dates = Some (isoOfDate year 1 1)
    /\ last dates = Some (isoOfDate year 12 31).
Proof.
  intros Htype Hyear Hy.
  destruct (yearNumber year Hy) as [Hvalid Hyz].
  assert (daysInMonth (isLeapYear year) (12 - 1) = 31) as Hdec
    by (unfold daysInMonth; destruct (isLeapYear year); eval_monthStart; lia).
  assert (daysInMonth (isLeapYear year) (1 - 1) = 31) as Hjan
    by (unfold daysInMonth; destruct (isLeapYear year); eval_monthStart; lia).
  destruct (calendarText year 1 1 ltac:(lia) ltac:(lia) ltac:(lia))
    as (Hcal1 & Hday1 & Hiso1).
  destruct (calendarText year 12 31 ltac:(lia) ltac:(lia) ltac:(lia))
    as (Hcal2 & Hday2 & Hiso2).
  fold (isoOfDate year 1 1) in Hcal1, Hday1, Hiso1.
  fold (isoOfDate year 12 31) in Hcal2, Hday2, Hiso2.
  assert (isoOfDate year 1 1 = StringOfZ year ++ "-01-01")%string as Hs
    by reflexivity.
  assert (isoOfDate year 12 31 = StringOfZ year ++ "-12-31")%string as He
    by reflexivity.
  destruct (enumerateDates_fixed offset Hfixed Hoffset
              (isoOfDate year 1 1) (isoOfDate year 12 31)
              Hcal1 Hcal2) as (Hdates & Hlen & Hends).
  assert (MakeDay year (1 - 1) 1 = DayFromYear year) as Hfirst.
  { unfold MakeDay. change ((1 - 1) / 12) with 0. change ((1 - 1) mod 12) with 0.
    rewrite !Z.add_0_r. destruct (isLeapYear year); eval_monthStart; lia. }
  assert (MakeDay year (12 - 1) 31 = DayFromYear year + DaysInYear year - 1)
    as Hlast.
  { unfold MakeDay, DaysInYear. change ((12 - 1) / 12) with 0.
    change ((12 - 1) mod 12) with 11.
    rewrite !Z.add_0_r. destruct (isLeapYear year); eval_monthStart; lia. }
  assert (inclusiveDayCount (isoOfDate year 1 1) (isoOfDate year 12 31)
          = DaysInYear year) as Hcount.
  { unfold inclusiveDayCount. rewrite Hday1, Hday2, Hfirst, Hlast. lia. }
  rewrite Hcount, Hday1, Hfirst in Hdates. rewrite Hcount in Hlen.
  rewrite Hday1, Hday2, Hfirst, Hlast in Hends.
  exists (enumerateDates (isoOfDate year 1 1) (isoOfDate year 12 31)).
  split; [|split; [done|split]].
  - unfold resolveRange. rewrite Htype, Hyear.
    change (String.eqb "year" "week") with false.
    change (String.eqb "year" "month") with false. cbv iota.
    rewrite Hvalid. cbn [negb]. rewrite Hyz. cbn [StringOfInt].
    by rewrite <- Hs, <- He.
  - rewrite Hlen. unfold DaysInYear. by destruct (isLeapYear year).
  - apply Hends.
    + pose proof (YearFromDay_unique (DayFromYear year) year) as Hu.
      rewrite Hu; [lia|]. rewrite DayFromYear_succ. unfold DaysInYear.
      destruct (isLeapYear year); lia.
    + unfold DaysInYear. destruct (isLeapYear year); lia.
Qed.

End FixedOffsetRanges.

Lemma resolveRange_month_fixed_offset_witness :
  exists dates,
    resolveRange (tz:=fixedZone 3600000) (calendarConfig "month" 2024 3)
                 (noteTitled "March")
    = Ok {| RangeResolution.type := "month";
            RangeResolution.startDate := isoOfDate 2024 3 1;
            RangeResolution.endDate := isoOfDate 2024 3 31;
            RangeResolution.dates := dates |}
    /\ List.length dates = 31%nat.
Proof.
  destruct (resolveRange_month_fixed_offset (tz:=fixedZone 3600000) 3600000
              (fun _ _ => eq_refl) ltac:(unfold msPerDay; lia)
              (calendarConfig "month" 2024 3) (noteTitled "March") 2024 3
              eq_refl eq_refl eq_refl ltac:(lia) ltac:(lia))
    as (dates & Hr & _ & Hlen & _).
  exists dates. split; [exact Hr|exact Hlen].
Defined.

Lemma resolveRange_year_fixed_offset_witness :
  exists dates,
    resolveRange (tz:=UTCZone) (calendarConfig "year" 2024 0) (noteTitled "x")
    = Ok {| RangeResolution.type := "year";
            RangeResolution.startDate := isoOfDate 2024 1 1;
            RangeResolution.endDate := isoOfDate 2024 12 31;
            RangeResolution.dates := dates |}
    /\ List.length dates = 366%nat.
Proof.
  destruct (resolveRange_year_fixed_offset (tz:=UTCZone) 0
              (fun _ _ => eq_refl) ltac:(unfold msPerDay; lia)
              (calendarConfig "year" 2024 0) (noteTitled "x") 2024
              eq_refl eq_refl ltac:(lia))
    as (dates & Hr & _ & Hlen & _).
  exists dates. split; [exact Hr|exact Hlen].
Defined.

(** ** Round trips of the date codecs *)

Section FixedOffsetRoundTrips.
Local Open Scope Z_scope.
Context {tz : TimeZone}.
Variable offset : Z.
Hypothesis Hfixed : forall t isUTC, LocalTZA t isUTC = offset.
Hypothesis Hoffset : - msPerDay < offset < msPerDay.

(** X6.  On a host with a fixed offset, the text [toIsoDate] writes for an
    instant of a year from 1000 to 9999 is a date that
    [normalizeIsoDate] accepts, and [parseIsoDate] reads it back as the
    local midnight of the day of the instant. *)
Theorem toIsoDate_parse_back (t : Z) :
  1000 <= YearFromDay (Day (t + offset)) <= 9999 ->
  normalizeIsoDate (toIsoDate (TimeValue t)) = Some (toIsoDate (TimeValue t))
  /\ parseIsoDate (toIsoDate (TimeValue t))
     = Some (TimeValue (Day (t + offset) * msPerDay - offset))
  /\ toIsoDate (TimeValue (Day (t + offset) * msPerDay - offset))
     = toIsoDate (TimeValue t).
Proof.
  intros Hyear. rewrite !(toIsoDate_fixed offset Hfixed).
  rewrite (Day_of_midnight offset).
  set (L := Day (t + offset)) in *.
  pose proof (MonthFromDay_bounds L) as Hm.
  pose proof (DateFromDay_bounds L) as Hd.
  destruct (calendarText (YearFromDay L) (MonthFromDay L + 1) (DateFromDay L)
              Hyear ltac:(lia)) as (Hcal & Hday & _).
  { by replace (MonthFromDay L + 1 - 1) with (MonthFromDay L) by lia. }
  fold (isoOfDay L) in Hcal, Hday.
  replace (MonthFromDay L + 1 - 1) with (MonthFromDay L) in Hday by lia.
  pose proof (MakeDay_of_day L 0) as Hback. rewrite !Z.add_0_r in Hback.
  rewrite Hback in Hday.
  split; [|split; [|done]].
  - rewrite (normalizeIsoDate_fixed offset Hfixed Hoffset). by rewrite Hcal.
  - destruct (parseIsoDate_fixed offset Hfixed Hoffset _ Hcal) as (Hp & _).
    by rewrite Hp, Hday.
Qed.

(** X7.  On a host with a fixed offset and for years from 100 on, days
    added in two steps are the days added in one, and no day added to
    what [addDays] answers is that answer again. *)
Theorem addDays_sum (t a b : Z) :
  100 <= YearFromDay (Day (t + offset)) ->
  100 <= YearFromDay (Day (t + offset) + a) ->
  -99000000 <= Day (t + offset) + a <= 99000000 ->
  -99000000 <= Day (t + offset) + a + b <= 99000000 ->
  addDays (addDays (TimeValue t) a) b = addDays (TimeValue t) (a + b)
  /\ addDays (addDays (TimeValue t) a) 0 = addDays (TimeValue t) a.
Proof.
  intros Hy Hya Hra Hrb.
  rewrite !(addDays_fixed offset Hfixed Hoffset t)
    by (rewrite ?(Day_of_midnight offset); lia).
  rewrite !(addDays_fixed offset Hfixed Hoffset)
    by (rewrite ?(Day_of_midnight offset); lia).
  rewrite !(Day_of_midnight offset).
  split; do 2 f_equal; lia.
Qed.

End FixedOffsetRoundTrips.

Lemma toIsoDate_parse_back_witness :
  parseIsoDate (tz:=fixedZone 3600000)
    (toIsoDate (tz:=fixedZone 3600000) (TimeValue 1709249999000))
  = Some (TimeValue (Day (1709249999000 + 3600000) * msPerDay - 3600000)).
Proof.
  apply (toIsoDate_parse_back (tz:=fixedZone 3600000) 3600000
           (fun _ _ => eq_refl) ltac:(unfold msPerDay; lia) 1709249999000).
  vm_compute. split; discriminate.
Defined.

Lemma addDays_sum_witness :
  addDays (tz:=UTCZone) (addDays (tz:=UTCZone) (TimeValue 1709251200000) 30) (-29)
  = addDays (tz:=UTCZone) (TimeValue 1709251200000) (30 + -29).
Proof.
  apply (addDays_sum (tz:=UTCZone) 0 (fun _ _ => eq_refl)
           ltac:(unfold msPerDay; lia) 1709251200000 30 (-29));
    vm_compute; try split; discriminate.
Defined.

(** ** The calendar grid ([getCalendarBounds]) *)

Section CalendarGridFacts.
Local Open Scope Z_scope.
Context {tz : TimeZone}.
Variable offset : Z.
Hypothesis Hfixed : forall t isUTC, LocalTZA t isUTC = offset.
Hypothesis Hoffset : - msPerDay < offset < msPerDay.

Lemma weekdayIndex_midnight (d : Z) (weekStart : WeekStart) :
  weekdayIndex (TimeValue (d * msPerDay - offset)) weekStart
  = Some match weekStart with
         | Sunday => (d + 4) mod 7
         | Monday => (d + 3) mod 7
         end.
Proof.
  unfold weekdayIndex, getDay, WeekDay, LocalTime. rewrite Hfixed.
  rewrite (Day_of_midnight offset). destruct weekStart; [|done].
  f_equal. Z.to_euclidean_division_equations. lia.
Qed.

(** X8.  On a host with a fixed offset, the grid of a calendar range (of a
    year from 101 on) starts on the first day of a week, at most six
    days before the range, ends on the last day of a week, at most six
    days after the range, and so holds a whole number of weeks. *)
Theorem calendar_grid_whole_weeks
    (range : RangeResolution.t) (weekStart : WeekStart) :
  isCalendarDate (RangeResolution.startDate range) = true ->
  isCalendarDate (RangeResolution.endDate range) = true ->
  101 <= YearFromDay (dayNumberOfIso (RangeResolution.startDate range)) ->
  dayNumberOfIso (RangeResolution.startDate range)
  <= dayNumberOfIso (RangeResolution.endDate range) ->
  exists first last weeks,
    getCalendarBounds range weekStart
    = Some (TimeValue (first * msPerDay - offset),
            TimeValue (last * msPerDay - offset))
    /\ first <= dayNumberOfIso (RangeResolution.startDate range) < first + 7
    /\ last - 7 < dayNumberOfIso (RangeResolution.endDate range) <= last
    /\ weekdayIndex (TimeValue (first * msPerDay - offset)) weekStart = Some 0
    /\ weekdayIndex (TimeValue (last * msPerDay - offset)) weekStart = Some 6
    /\ dayDiffInclusive (TimeValue (first * msPerDay - offset))
                        (TimeValue (last * msPerDay - offset))
       = Some (7 * weeks)
    /\ 1 <= weeks.
Proof.
  intros Hs He Hyear Horder.
  destruct (parseIsoDate_fixed offset Hfixed Hoffset _ Hs) as (Hps & Hys & Hrs).
  destruct (parseIsoDate_fixed offset Hfixed Hoffset _ He) as (Hpe & Hye & Hre).
  set (ds := dayNumberOfIso (RangeResolution.startDate range)) in *.
  set (de := dayNumberOfIso (RangeResolution.endDate range)) in *.
  set (si := match weekStart with
             | Sunday => (ds + 4) mod 7 | Monday => (ds + 3) mod 7 end).
  set (ei := match weekStart with
             | Sunday => (de + 4) mod 7 | Monday => (de + 3) mod 7 end).
  assert (0 <= si < 7) as Hsi
    by (subst si; destruct weekStart; apply Z.mod_pos_bound; lia).
  assert (0 <= ei < 7) as Hei
    by (subst ei; destruct weekStart; apply Z.mod_pos_bound; lia).
  assert (DayFromYear 101 <= ds) as Hlow.
  { pose proof (YearFromDay_bounds ds) as [Hlo _].
    pose proof (DayFromYear_mono 101 (YearFromDay ds) Hyear). lia. }
  assert (DayFromYear 100 + 365 <= DayFromYear 101) as Hgap
    by (vm_compute; discriminate).
  exists (ds - si), (de + (6 - ei)), ((de + (6 - ei) - (ds - si) + 1) / 7).
  assert (100 <= YearFromDay (ds - si)) as Hyfirst
    by (apply YearFromDay_ge; lia).
  assert (100 <= YearFromDay (de + (6 - ei))) as Hylast
    by (apply YearFromDay_ge; lia).
  assert ((ds - si + 4) mod 7 = match weekStart with
                                | Sunday => 0 | Monday => 1 end) as Hfirst.
  { subst si. destruct weekStart; Z.to_euclidean_division_equations; lia. }
  assert ((de + (6 - ei) + 4) mod 7 = match weekStart with
                                      | Sunday => 6 | Monday => 0 end) as Hlast.
  { subst ei. destruct weekStart; Z.to_euclidean_division_equations; lia. }
  split; [|split; [lia|split; [lia|split; [|split; [|split]]]]].
  - unfold getCalendarBounds. rewrite Hps, Hpe.
    rewrite !weekdayIndex_midnight. fold si ei. cbn [option_map addDaysBy].
    rewrite !(addDays_fixed offset Hfixed Hoffset)
      by (rewrite ?(Day_of_midnight offset); lia).
    rewrite !(Day_of_midnight offset).
    by replace (ds + - si) with (ds - si) by lia.
  - rewrite weekdayIndex_midnight. f_equal.
    destruct weekStart; Z.to_euclidean_division_equations; lia.
  - rewrite weekdayIndex_midnight. f_equal.
    destruct weekStart; Z.to_euclidean_division_equations; lia.
  - rewrite (dayDiffInclusive_fixed offset Hfixed Hoffset)
      by (rewrite ?(Day_of_midnight offset); lia).
    rewrite !(Day_of_midnight offset). f_equal.
    destruct weekStart; Z.to_euclidean_division_equations; lia.
  - destruct weekStart; Z.to_euclidean_division_equations; lia.
Qed.

End CalendarGridFacts.

Lemma calendar_grid_whole_weeks_witness :
  exists first last weeks,
    getCalendarBounds (tz:=UTCZone)
      {| RangeResolution.type := "month";
         RangeResolution.startDate := "2024-02-01";
         RangeResolution.endDate := "2024-02-29";
         RangeResolution.dates := [] |} Monday
    = Some (TimeValue (first * msPerDay - 0), TimeValue (last * msPerDay - 0))
    /\ dayDiffInclusive (tz:=UTCZone) (TimeValue (first * msPerDay - 0))
                        (TimeValue (last * msPerDay - 0))
       = Some (7 * weeks)%Z.
Proof.
  destruct (calendar_grid_whole_weeks (tz:=UTCZone) 0 (fun _ _ => eq_refl)
              ltac:(unfold msPerDay; lia)
              {| RangeResolution.type := "month";
                 RangeResolution.startDate := "2024-02-01";
                 RangeResolution.endDate := "2024-02-29";
                 RangeResolution.dates := [] |} Monday
              eq_refl eq_refl ltac:(vm_compute; discriminate)
              ltac:(vm_compute; discriminate))
    as (first & last & weeks & Hb & _ & _ & _ & _ & Hd & _).
  exists first, last, weeks. split; [exact Hb|exact Hd].
Defined.

(** ** The parse of a document (parser.ts, [parseMarkdownHabits]) *)

(** The numbers, counted from 1, of the lines that are headings of a
    date. *)
Definition headingLinesOf {tz : TimeZone} (date : string)
    (lines : list (Z * string)) : list Z :=
  List.map (fun p => (fst p + 1)%Z)
    (List.filter (fun p => bool_decide (parseDateHeading (snd p) = Some date))
                 lines).

Section ChecklistTokens.

Lemma scanHabitNames_shape (skip : nat) (s : string) :
  Forall (fun name => strAll isHabitChar name = true
                      /\ (0 < String.length name)%nat)
         (scanHabitNames skip s).
Proof.
  revert skip. induction s as [|c r IH]; intros skip; simpl; [constructor|].
  destruct skip as [|k]; [|apply IH].
  destruct (matchHabitNameAt (String c r)) as [[n rest]|] eqn:Hm; [|apply IH].
  constructor; [|apply IH].
  by apply matchHabitNameAt_Some in Hm as (_ & ? & ?).
Qed.

Lemma checklistTokenStep_spec (checked : bool) (date : string)
    (m : Accumulators) (name : string) :
  strAll isHabitChar name = true -> (0 < String.length name)%nat ->
  forall d' h',
    lookup2 (checklistTokenStep checked date m name) d' h'
    = if bool_decide (date = d' /\ name = h')
      then Some ((if checked then setChecklistTrue else setChecklistFalse)
                   (default freshAccumulator (lookup2 m date name)))
      else lookup2 m d' h'.
Proof.
  intros Hname Hlen d' h'.
  assert (trim name = name) as Hn
    by (apply trim_id; eapply strAll_impl; [apply habit_unit_not_space|done]).
  unfold checklistTokenStep. rewrite Hn.
  destruct (String.length name =? 0)%nat eqn:Hz; [apply Nat.eqb_eq in Hz; lia|].
  destruct (getAccumulator_spec m date name Hn) as [Hb Hm].
  destruct (getAccumulator m date name) as [m1 bucket]. simpl in Hb, Hm.
  subst bucket.
  destruct checked; rewrite putAccumulator_spec, Hm by done;
    by repeat case_bool_decide.
Qed.

Lemma isLowerSnakeCase_shape (name : string) :
  strAll isHabitChar name = true -> (0 < String.length name)%nat ->
  isLowerSnakeCase name = true.
Proof.
  intros Hall Hlen. unfold isLowerSnakeCase. rewrite Hall.
  destruct (String.length name =? 0)%nat eqn:Hz; [|done].
  apply Nat.eqb_eq in Hz. lia.
Qed.

(** The buckets after a line are the buckets before it and buckets of
    the active date, named in lower snake case. *)
Lemma extractInlineTokens_keys (line date : string) (accs : Accumulators)
    (d h : string) :
  is_Some (lookup2 (extractInlineTokens line date accs) d h) ->
  is_Some (lookup2 accs d h) \/ (d = date /\ isLowerSnakeCase h = true).
Proof.
  unfold extractInlineTokens, matchAllInline.
  pose proof (scanInline_shape 0 line) as Hshape.
  revert accs. induction Hshape as [|[name value] l Hm _ IH]; intros accs.
  - by left.
  - cbn [fold_left]. intros [Hs|Hr]%IH; [|by right].
    rewrite inlineTokenStep_spec in Hs by done.
    case_bool_decide as Hk; [|by left].
    destruct Hk as [<- <-]. right. split; [done|].
    destruct Hm as (? & ? & _). by apply isLowerSnakeCase_shape.
Qed.

Lemma extractChecklistTokens_keys (line date : string) (accs : Accumulators)
    (d h : string) :
  is_Some (lookup2 (extractChecklistTokens line date accs) d h) ->
  is_Some (lookup2 accs d h) \/ (d = date /\ isLowerSnakeCase h = true).
Proof.
  unfold extractChecklistTokens.
  destruct (matchChecklist line) as [[mark text]|]; [|by left].
  unfold matchAllChecklistHabits.
  pose proof (scanHabitNames_shape 0 text) as Hshape.
  revert accs. induction Hshape as [|name l [Hn Hl] _ IH]; intros accs.
  - by left.
  - cbn [fold_left]. intros [Hs|Hr]%IH; [|by right].
    rewrite checklistTokenStep_spec in Hs by done.
    case_bool_decide as Hk; [|by left].
    destruct Hk as [<- <-]. right. split; [done|].
    by apply isLowerSnakeCase_shape.
Qed.

End ChecklistTokens.

Section ParsedDocument.
Context {tz : TimeZone}.

(** What the loop over the lines keeps true. *)
Definition parseInvariant (st : ParseState) : Prop :=
  (forall d, activeDate st = Some d -> is_Some (headingLines st !! d))
  /\ (forall d h, is_Some (lookup2 (accumulators st) d h) ->
                  is_Some (headingLines st !! d)
                  /\ isLowerSnakeCase h = true)
  /\ (forall d, is_Some (headingLines st !! d) -> normalizeIsoDate d = Some d).

Lemma parseDateHeading_normal (line date : string) :
  parseDateHeading line = Some date -> normalizeIsoDate date = Some date.
Proof.
  unfold parseDateHeading. destruct (matchDateHeading line) as [d|]; [|done].
  intros Hn. pose proof (normalizeIsoDate_id _ _ Hn) as Hid.
  by rewrite <- Hid in Hn.
Qed.

Lemma parseLine_invariant (st : ParseState) (p : Z * string) :
  parseInvariant st -> parseInvariant (parseLine st p).
Proof.
  intros Hst. pose proof Hst as (Ha & Hb & Hc).
  destruct p as [index line]. unfold parseLine.
  destruct (parseDateHeading line) as [heading|] eqn:Hh.
  - split; [|split]; cbn [activeDate accumulators headingLines].
    + intros d [= <-]. rewrite lookup_insert_eq. by eexists.
    + intros d h Hs. destruct (Hb d h Hs) as [Hd Hl]. split; [|done].
      destruct (decide (heading = d)) as [<-|Hne].
      * rewrite lookup_insert_eq. by eexists.
      * by rewrite lookup_insert_ne.
    + intros d. destruct (decide (heading = d)) as [<-|Hne].
      * intros _. by eapply parseDateHeading_normal.
      * rewrite lookup_insert_ne by done. apply Hc.
  - destruct (activeDate st) as [date|] eqn:Hact; [|exact Hst].
    split; [|split]; cbn [activeDate accumulators headingLines]; [done| |done].
    intros d h [[Hs|[-> Hl]]%extractInlineTokens_keys|[-> Hl]]%extractChecklistTokens_keys.
    + by apply Hb.
    + split; [by apply Ha|done].
    + split; [by apply Ha|done].
Qed.

Lemma parseLines_invariant (ps : list (Z * string)) (st : ParseState) :
  parseInvariant st -> parseInvariant (fold_left parseLine ps st).
Proof.
  revert st. induction ps as [|p ps IH]; intros st Hst; [done|].
  cbn [fold_left]. by apply IH, parseLine_invariant.
Qed.

Lemma parsed_values_headed
    (f : TFile) (content date habit : string) (v : ResolvedHabitValue) :
  lookup2 (ParsedFileData.valuesByDateHabit (parseMarkdownHabits f content))
          date habit = Some v ->
  is_Some (ParsedFileData.headingLinesByDate (parseMarkdownHabits f content)
             !! date)
  /\ normalizeIsoDate date = Some date
  /\ isLowerSnakeCase habit = true.
Proof.
  unfold parseMarkdownHabits.
  cbn [ParsedFileData.valuesByDateHabit ParsedFileData.headingLinesByDate].
  set (init := {| activeDate := None; accumulators := ∅; headingLines := ∅ |}).
  assert (parseInvariant init) as Hinit.
  { split; [done|]. split.
    - intros d h. unfold lookup2. cbn. rewrite lookup_empty. by intros [? ?].
    - intros d. cbn. rewrite lookup_empty. by intros [? ?]. }
  pose proof (parseLines_invariant (indexed (splitLines content)) init Hinit)
    as (_ & Hb & Hc).
  intros Hv. rewrite resolveAccumulators_lookup in Hv.
  destruct (lookup2 _ date habit) as [acc|] eqn:Hacc; [|done].
  destruct (Hb date habit ltac:(by eexists)) as [Hd Hl].
  split; [done|]. split; [by apply Hc|done].
Qed.

(** X9.  Every value of a parsed document stands under a date heading of
    the document; its date is one [normalizeIsoDate] accepts and
    answers unchanged, and its habit name is in lower snake case. *)
Theorem parsed_values_under_headings
    (f : TFile) (content date habit : string) (v : ResolvedHabitValue) :
  lookup2 (ParsedFileData.valuesByDateHabit (parseMarkdownHabits f content))
          date habit = Some v ->
  is_Some (ParsedFileData.headingLinesByDate (parseMarkdownHabits f content)
             !! date)
  /\ normalizeIsoDate date = Some date
  /\ isLowerSnakeCase habit = true.
Proof. exact (parsed_values_headed f content date habit v). Qed.

(** The heading lines after some lines: the ones before, and after
    them the numbers of the new headings of the date. *)
Lemma parseLines_headings (ps : list (Z * string)) (st : ParseState)
    (date : string) :
  headingLines (fold_left parseLine ps st) !! date
  = match headingLinesOf date ps with
    | [] => headingLines st !! date
    | new => Some (default [] (headingLines st !! date) ++ new)%list
    end.
Proof.
  revert st. induction ps as [|[index line] ps IH]; intros st; [done|].
  cbn [fold_left]. rewrite IH.
  assert (headingLines (parseLine st (index, line)) !! date
          = if bool_decide (parseDateHeading line = Some date)
            then Some (default [] (headingLines st !! date)
                       ++ [(index + 1)%Z])%list
            else headingLines st !! date) as ->.
  { unfold parseLine. destruct (parseDateHeading line) as [heading|] eqn:Hh.
    - cbn [headingLines]. destruct (decide (heading = date)) as [->|Hne].
      + by rewrite bool_decide_eq_true_2, lookup_insert_eq.
      + rewrite bool_decide_eq_false_2 by congruence.
        by rewrite lookup_insert_ne.
    - rewrite bool_decide_eq_false_2 by done. by destruct (activeDate st). }
  unfold headingLinesOf. cbn [List.filter snd].
  destruct (bool_decide (parseDateHeading line = Some date)).
  - cbn [List.map fst default].
    destruct (List.map _ (List.filter _ ps)) as [|n ns]; [done|].
    cbn [from_option id]. by rewrite <- List.app_assoc.
  - done.
Qed.

Lemma parsed_headings (f : TFile) (content date : string) :
  ParsedFileData.headingLinesByDate (parseMarkdownHabits f content) !! date
  = match headingLinesOf date (indexed (splitLines content)) with
    | [] => None
    | lines => Some lines
    end.
Proof.
  unfold parseMarkdownHabits. cbn [ParsedFileData.headingLinesByDate].
  rewrite parseLines_headings. cbn [headingLines].
  rewrite lookup_empty. by destruct (headingLinesOf _ _).
Qed.

(** X10.  [headingLinesByDate] holds, for each date, the numbers of the
    lines that are headings of that date, counted from 1 and in the
    order of the document; a date without a heading has no entry. *)
Theorem parsed_heading_lines (f : TFile) (content date : string) :
  ParsedFileData.headingLinesByDate (parseMarkdownHabits f content) !! date
  = match headingLinesOf date (indexed (splitLines content)) with
    | [] => None
    | lines => Some lines
    end.
Proof. exact (parsed_headings f content date). Qed.

(** X11.  A document without a date heading has no value and no heading
    line: tokens outside the section of a date are passed over. *)
Theorem parsed_without_heading (f : TFile) (content : string) :
  Forall (fun line => parseDateHeading line = None) (splitLines content) ->
  ParsedFileData.valuesByDateHabit (parseMarkdownHabits f content) = ∅
  /\ ParsedFileData.headingLinesByDate (parseMarkdownHabits f content) = ∅.
Proof.
  intros Hnone.
  assert (forall ps st,
            Forall (fun p : Z * string => parseDateHeading (snd p) = None) ps ->
            activeDate st = None ->
            fold_left parseLine ps st = st) as Hfold.
  { induction ps as [|[i l] ps IH]; intros st Hall Hact; [done|].
    inversion Hall as [|? ? Hl Hrest]; subst. cbn [fold_left].
    assert (parseLine st (i, l) = st) as ->
      by (unfold parseLine; cbn [snd] in Hl; by rewrite Hl, Hact).
    by apply IH. }
  unfold parseMarkdownHabits.
  cbn [ParsedFileData.valuesByDateHabit ParsedFileData.headingLinesByDate].
  rewrite Hfold; [done| |done].
  unfold indexed. generalize (seqZ 0 (Z.of_nat (List.length (splitLines content)))).
  induction Hnone as [|l ls Hl _ IH]; intros [|n ns]; cbn; constructor; auto.
Qed.

End ParsedDocument.

Lemma parsed_values_under_headings_witness :
  is_Some (ParsedFileData.headingLinesByDate
             (parseMarkdownHabits (tz:=UTCZone) weekNote weekNoteText)
             !! "2026-02-10")
  /\ isLowerSnakeCase "workout" = true.
Proof.
  destruct (parsed_values_under_headings (tz:=UTCZone) weekNote weekNoteText
              "2026-02-10" "workout" (Numeric (NumberOfDecimal "20")) eq_refl)
    as (Hh & _ & Hn).
  split; [exact Hh|exact Hn].
Defined.

Lemma parsed_without_heading_witness :
  ParsedFileData.valuesByDateHabit
    (parseMarkdownHabits (tz:=UTCZone) weekNote "habit-run::5") = ∅.
Proof.
  apply (parsed_without_heading (tz:=UTCZone) weekNote "habit-run::5").
  repeat constructor.
Defined.

(** ** Date headings (parser.ts, [parseDateHeading]) *)

(** [n] times the unit [c]. *)
Definition repeatUnit (c : ascii) (n : nat) : string :=
  string_of_list_ascii (List.repeat c n).

(** What the mark of a checkbox stands for. *)
Definition checklistMark (mark : ascii) : option bool :=
  if ((codeUnit mark =? 120) || (codeUnit mark =? 88))%N then Some true
  else if (codeUnit mark =? 32)%N then Some false
  else None.

Fixpoint countUnit (n : N) (s : string) : nat :=
  match s with
  | EmptyString => 0
  | String c r => (if (codeUnit c =? n)%N then 1 else 0) + countUnit n r
  end.

Section HeadingText.
Context {tz : TimeZone}.

Lemma repeatUnit_S (c : ascii) (n : nat) :
  repeatUnit c (S n) = String c (repeatUnit c n).
Proof. reflexivity. Qed.

Lemma strAll_repeatUnit (p : ascii -> bool) (c : ascii) (n : nat) :
  p c = true -> strAll p (repeatUnit c n) = true.
Proof.
  intros Hc. induction n as [|n IH]; [done|].
  rewrite repeatUnit_S. simpl. by rewrite Hc, IH.
Qed.

Lemma length_repeatUnit (c : ascii) (n : nat) :
  String.length (repeatUnit c n) = n.
Proof.
  induction n as [|n IH]; [done|]. rewrite repeatUnit_S. simpl. by rewrite IH.
Qed.

Lemma replaceUnit_app (a b : ascii) (s t : string) :
  replaceUnit a b (s ++ t) = replaceUnit a b s ++ replaceUnit a b t.
Proof.
  induction s as [|c r IH]; [done|].
  rewrite append_cons. simpl. by rewrite IH, append_cons.
Qed.

Lemma replaceUnit_digits (a b : ascii) (s : string) :
  isDigit a = false -> strAll isDigit s = true -> replaceUnit a b s = s.
Proof.
  intros Ha. induction s as [|c r IH]; simpl; [done|].
  intros [Hc Hr]%andb_prop. rewrite (IH Hr).
  destruct (Ascii.eqb c a) eqn:E; [|done].
  apply Ascii.eqb_eq in E as ->. congruence.
Qed.

Lemma takeDottedDate_app (y m d rest : string) :
  String.length y = 4%nat -> strAll isDigit y = true ->
  String.length m = 2%nat -> strAll isDigit m = true ->
  String.length d = 2%nat -> strAll isDigit d = true ->
  takeDottedDate (y ++ "." ++ m ++ "." ++ d ++ rest)
  = Some (y ++ "." ++ m ++ "." ++ d, rest).
Proof.
  intros Hly Hy Hlm Hm Hld Hd. unfold takeDottedDate.
  rewrite <- Hly, <- Hlm.
  rewrite (takeDigits_app y ("." ++ m ++ "." ++ d ++ rest)) by done.
  change ("." ++ m ++ "." ++ d ++ rest)
    with (String "." (m ++ "." ++ d ++ rest)).
  cbv beta iota. change (codeUnit "." =? 46)%N with true. cbv beta iota.
  rewrite (takeDigits_app m ("." ++ d ++ rest)) by done.
  change ("." ++ d ++ rest) with (String "." (d ++ rest)).
  cbv beta iota. change (codeUnit "." =? 46)%N with true. cbv beta iota.
  rewrite Hlm, <- Hld.
  by rewrite (takeDigits_app d rest) by done.
Qed.

(** X12.  The heading written for a date is read back as that date, with up
    to three blanks before it and from one to six [#]; with more of
    either, or no [#] at all, the line is no date heading. *)
Theorem date_heading_round_trip (s : string) (indent level : nat) :
  normalizeIsoDate s = Some s ->
  parseDateHeading (repeatUnit " " indent ++ repeatUnit "#" level ++ " "
                    ++ replaceUnit "-" "." s)
  = if (indent <=? 3)%nat && (1 <=? level)%nat && (level <=? 6)%nat
    then Some s else None.
Proof.
  intros Hn.
  destruct (normalizeIsoDate_Some s s Hn) as (y & m & d & Hshape & _).
  apply isoShape_Some in Hshape as (Hs & [Hly Hy] & [Hlm Hm] & [Hld Hd]).
  assert (replaceUnit "-" "." s = y ++ "." ++ m ++ "." ++ d) as Hdotted.
  { rewrite Hs, !replaceUnit_app.
    by rewrite (replaceUnit_digits "-" "." y), (replaceUnit_digits "-" "." m),
      (replaceUnit_digits "-" "." d) by first [done|reflexivity]. }
  assert (replaceUnit "." "-" (y ++ "." ++ m ++ "." ++ d) = s) as Hback.
  { rewrite Hs, !replaceUnit_app.
    by rewrite (replaceUnit_digits "." "-" y), (replaceUnit_digits "." "-" m),
      (replaceUnit_digits "." "-" d) by first [done|reflexivity]. }
  rewrite Hdotted. set (dotted := y ++ "." ++ m ++ "." ++ d) in *.
  assert (exists c r, dotted = String c r /\ isDigit c = true) as (c & r & Hc & Hdc).
  { subst dotted. destruct y as [|c y']; [done|]. exists c, (y' ++ "." ++ m ++ "." ++ d).
    split; [done|]. simpl in Hy. by apply andb_prop in Hy as [? _]. }
  assert (isSpace c = false /\ isHash c = false) as [Hcs Hch].
  { clear -Hdc. revert Hdc.
    destruct c as [[] [] [] [] [] [] [] []]; vm_compute; try discriminate; done. }
  assert (takeDottedDate dotted = Some (dotted, "")) as Htake.
  { subst dotted. pose proof (takeDottedDate_app y m d "" Hly Hy Hlm Hm Hld Hd) as H.
    by rewrite append_nil_r in H. }
  unfold parseDateHeading, matchDateHeading.
  destruct level as [|level].
  - (* no [#]: the blanks run up to the date *)
    change (repeatUnit "#" 0 ++ " " ++ dotted) with (String " " dotted).
    replace (repeatUnit " " indent ++ String " " dotted)
      with ((repeatUnit " " indent ++ " ") ++ dotted)
      by (by rewrite append_assoc).
    assert (strAll isSpace (repeatUnit " " indent ++ " ") = true) as Hsp
      by (rewrite strAll_app, strAll_repeatUnit by done; done).
    rewrite dropWhile_app_stop by (rewrite ?Hc; done).
    rewrite Hc. cbn [takeWhile]. rewrite Hch. cbn [String.length Nat.leb].
    by rewrite !andb_false_r.
  - rewrite repeatUnit_S.
    rewrite takeWhile_app_stop, dropWhile_app_stop
      by (rewrite ?append_cons, ?strAll_repeatUnit; done).
    rewrite <- repeatUnit_S.
    change (" " ++ dotted) with (String " " dotted).
    rewrite takeWhile_app_stop, dropWhile_app_stop
      by (rewrite ?strAll_repeatUnit; done).
    change (String " " dotted) with (" " ++ dotted).
    rewrite takeWhile_app_stop, dropWhile_app_stop by (rewrite ?Hc; done).
    rewrite !length_repeatUnit. cbn [String.length].
    rewrite Htake. cbn [strAll].
    change (1 <=? 1)%nat with true. change (1 <=? S level)%nat with true.
    rewrite !andb_true_r.
    destruct ((indent <=? 3)%nat && (S level <=? 6)%nat); [|done].
    cbv beta iota. unfold headingToIso. by rewrite Hback.
Qed.

End HeadingText.

Lemma date_heading_round_trip_witness :
  parseDateHeading (tz:=pacific2024) "  ### 2024.02.29" = Some "2024-02-29".
Proof.
  exact (date_heading_round_trip (tz:=pacific2024) "2024-02-29" 2 3 eq_refl).
Defined.

(** ** Checklist lines and the lines of a note (parser.ts,
    [extractChecklistTokens]) *)

Section ChecklistLine.

Lemma habit_unit_not_terminator (c : ascii) :
  isHabitChar c = true -> negb (isLineTerminator c) = true.
Proof. destruct c as [[] [] [] [] [] [] [] []]; vm_compute; congruence. Qed.

Lemma scanHabitNames_short (skip : nat) (s : string) :
  (String.length s <= skip)%nat -> scanHabitNames skip s = [].
Proof.
  revert skip. induction s as [|c r IH]; intros skip Hl; [done|].
  simpl in *. destruct skip as [|k]; [lia|]. apply IH. lia.
Qed.

Lemma matchAllChecklistHabits_one (name : string) :
  strAll isHabitChar name = true -> (0 < String.length name)%nat ->
  matchAllChecklistHabits ("habit-" ++ name) = [name].
Proof.
  intros Hall Hlen. unfold matchAllChecklistHabits.
  assert (matchHabitNameAt ("habit-" ++ name) = Some (name, "")) as Hm.
  { unfold matchHabitNameAt.
    change (stripPrefix "habit-" ("habit-" ++ name)) with (Some name).
    cbv beta iota. rewrite takeWhile_all, dropWhile_all by done.
    destruct name; [simpl in Hlen; lia|done]. }
  change ("habit-" ++ name) with (String "h" ("abit-" ++ name)) in *.
  cbn [scanHabitNames]. rewrite Hm. f_equal.
  apply scanHabitNames_short. rewrite length_app_string. simpl. lia.
Qed.

(** X13.  A checklist line [- [m] habit-<name>] changes the bucket of
    (date, name) only, a fresh one when there was none: its
    checklist-true flag becomes true when the mark is [x] or [X], its
    checklist-false flag becomes true when the mark is a blank, and the
    other fields stay as they were; with another mark the line is no
    checklist line and changes nothing. *)
Theorem checklist_line_flags
    (mark : ascii) (name date : string) (accs : Accumulators) :
  isLowerSnakeCase name = true ->
  let line := "- [" ++ String mark "] habit-" ++ name in
  let bucket := default freshAccumulator (lookup2 accs date name) in
  match checklistMark mark with
  | Some checked =>
      forall d h,
        lookup2 (extractChecklistTokens line date accs) d h
        = if bool_decide (date = d /\ name = h)
          then Some {| numericSum := numericSum bucket;
                       hasNumeric := hasNumeric bucket;
                       inlineTrue := inlineTrue bucket;
                       inlineFalse := inlineFalse bucket;
                       checklistTrue :=
                         if checked then true else checklistTrue bucket;
                       checklistFalse :=
                         if checked then checklistFalse bucket else true |}
          else lookup2 accs d h
  | None => extractChecklistTokens line date accs = accs
  end.
Proof.
  intros Hname line bucket. unfold isLowerSnakeCase in Hname.
  apply andb_prop in Hname as [Hlen Hall].
  apply negb_true_iff, Nat.eqb_neq in Hlen.
  assert (strAll (fun c => negb (isLineTerminator c)) ("habit-" ++ name) = true)
    as Hterm.
  { rewrite strAll_app. change (strAll _ "habit-") with true.
    eapply strAll_impl; [apply habit_unit_not_terminator|done]. }
  assert (matchChecklist line
          = if ((codeUnit mark =? 32) || (codeUnit mark =? 120)
                || (codeUnit mark =? 88))%N
            then Some (mark, "habit-" ++ name) else None) as Hmatch.
  { subst line. unfold matchChecklist.
    set (text := "habit-" ++ name) in *.
    set (box := String "[" (String mark (String "]" (String " " text)))).
    assert (dropWhile isSpace ("- [" ++ String mark "] habit-" ++ name)
            = String "-" (String " " box)) as -> by reflexivity.
    cbv beta iota.
    change ((codeUnit "-" =? 45) || (codeUnit "-" =? 42))%N with true.
    cbv beta iota.
    assert (takeWhile isSpace (String " " box) = " ") as -> by reflexivity.
    assert (dropWhile isSpace (String " " box) = box) as -> by reflexivity.
    subst box. cbv beta iota.
    change (codeUnit "[" =? 91)%N with true.
    change (codeUnit "]" =? 93)%N with true.
    rewrite andb_true_r. cbn [andb].
    destruct ((codeUnit mark =? 32) || (codeUnit mark =? 120)
              || (codeUnit mark =? 88))%N; [|done].
    assert (takeWhile isSpace (String " " text) = " ") as -> by reflexivity.
    assert (dropWhile isSpace (String " " text) = text) as -> by reflexivity.
    assert (text = String "h" ("abit-" ++ name)) as Htext by reflexivity.
    rewrite Htext at 1. cbv beta iota. rewrite <- Htext.
    cbn [String.length Nat.leb andb]. by rewrite Hterm. }
  unfold checklistMark, extractChecklistTokens. rewrite Hmatch.
  assert (forall checked d h,
            lookup2 (fold_left (checklistTokenStep checked date)
                       (matchAllChecklistHabits ("habit-" ++ name)) accs) d h
            = if bool_decide (date = d /\ name = h)
              then Some ((if checked then setChecklistTrue
                          else setChecklistFalse)
                           (default freshAccumulator (lookup2 accs date name)))
              else lookup2 accs d h) as Hfold.
  { intros checked d h. rewrite matchAllChecklistHabits_one by (done || lia).
    cbn [fold_left]. apply checklistTokenStep_spec; [done|lia]. }
  destruct (codeUnit mark =? 120)%N eqn:Hx.
  { apply (codeUnit_eqb _ 120) in Hx as ->; [|done]. cbn [orb].
    exact (Hfold true). }
  destruct (codeUnit mark =? 88)%N eqn:HX.
  { apply (codeUnit_eqb _ 88) in HX as ->; [|done]. cbn [orb].
    exact (Hfold true). }
  destruct (codeUnit mark =? 32)%N eqn:Hs; [|done].
  apply (codeUnit_eqb _ 32) in Hs as ->; [|done]. cbn [orb].
  exact (Hfold false).
Qed.

End ChecklistLine.

Lemma checklist_line_flags_witness :
  lookup2 (extractChecklistTokens "- [X] habit-workout" "2026-02-10" ∅)
          "2026-02-10" "workout"
  = Some {| numericSum := S754_zero false; hasNumeric := false;
            inlineTrue := false; inlineFalse := false;
            checklistTrue := true; checklistFalse := false |}
  /\ lookup2 (extractChecklistTokens "- [ ] habit-workout" "2026-02-10" ∅)
             "2026-02-10" "workout"
     = Some {| numericSum := S754_zero false; hasNumeric := false;
               inlineTrue := false; inlineFalse := false;
               checklistTrue := false; checklistFalse := true |}.
Proof.
  split.
  - exact (checklist_line_flags "X" "workout" "2026-02-10" ∅ eq_refl
             "2026-02-10" "workout").
  - exact (checklist_line_flags " " "workout" "2026-02-10" ∅ eq_refl
             "2026-02-10" "workout").
Defined.

Section Lines.

Lemma splitLines_nonempty (s : string) : splitLines s <> [].
Proof.
  destruct s as [|c r]; [done|]. simpl.
  destruct (codeUnit c =? 10)%N; [done|].
  destruct r as [|c' r']; [done|].
  destruct ((codeUnit c =? 13)%N && (codeUnit c' =? 10)%N); [done|].
  by destruct (splitLines (String c' r')).
Qed.

Lemma splitLines_cons (c : ascii) (r : string) :
  splitLines (String c r)
  = if (codeUnit c =? 10)%N then "" :: splitLines r
    else match r with
         | String c' r' =>
             if (codeUnit c =? 13)%N && (codeUnit c' =? 10)%N
             then "" :: List.tail (splitLines r)
             else match splitLines r with
                  | [] => [String c ""]
                  | h :: t => String c h :: t
                  end
         | "" => [String c ""]
         end.
Proof.
  cbn [splitLines]. destruct (codeUnit c =? 10)%N; [done|].
  destruct r as [|c' r']; [done|].
  destruct ((codeUnit c =? 13)%N && (codeUnit c' =? 10)%N); [|done].
  by destruct (splitLines (String c' r')).
Qed.

Lemma join_cons (sep x y : string) (r : list string) :
  join sep (x :: y :: r) = x ++ sep ++ join sep (y :: r).
Proof. reflexivity. Qed.

(** X14.  [content.split(/\r?\n/)] gives one line more than the text has line
    feeds, no line holds a line feed, and for a text without carriage
    returns the lines joined by line feeds are the text again. *)
Theorem splitLines_lines (s : string) :
  List.length (splitLines s) = S (countUnit 10 s)
  /\ Forall (fun line => countUnit 10 line = 0%nat) (splitLines s)
  /\ (countUnit 13 s = 0%nat -> join lineFeed (splitLines s) = s).
Proof.
  induction s as [|c r (IHlen & IHall & IHjoin)]; [by repeat constructor|].
  rewrite splitLines_cons. cbn [countUnit].
  destruct (codeUnit c =? 10)%N eqn:Hlf.
  - apply (codeUnit_eqb _ 10) in Hlf as ->; [|done].
    split; [cbn [List.length]; lia|]. split; [by constructor|].
    change (codeUnit (ascii_of_N 10) =? 13)%N with false. cbn [Nat.add].
    intros Hcr. specialize (IHjoin Hcr).
    pose proof (splitLines_nonempty r) as Hne.
    destruct (splitLines r) as [|l ls]; [done|].
    rewrite join_cons, append_nil. unfold lineFeed at 1.
    by rewrite append_cons, append_nil, IHjoin.
  - destruct r as [|c' r'].
    { split; [done|]. split.
      - repeat constructor. cbn [countUnit]. by rewrite Hlf.
      - done. }
    destruct ((codeUnit c =? 13)%N && (codeUnit c' =? 10)%N) eqn:Hcrlf.
    + apply andb_prop in Hcrlf as [Hcr Hlf'].
      rewrite splitLines_cons, Hlf' in IHlen, IHall |- *.
      cbn [List.tail List.length] in *.
      split; [done|]. split; [done|].
      rewrite Hcr. discriminate.
    + pose proof (splitLines_nonempty (String c' r')) as Hne.
      destruct (splitLines (String c' r')) as [|l ls]; [done|].
      cbn [List.length] in *. split; [lia|]. split.
      * inversion IHall; subst. constructor; [|done].
        cbn [countUnit]. rewrite Hlf. lia.
      * intros Hcr.
        destruct (codeUnit c =? 13)%N; [discriminate|].
        specialize (IHjoin Hcr).
        destruct ls as [|l' ls'].
        -- cbn [join] in *. by rewrite IHjoin.
        -- rewrite join_cons in IHjoin |- *.
           by rewrite append_cons, IHjoin.
Qed.

End Lines.

(** ** Week ranges on a fixed offset ([resolveRange]) *)

Section FixedOffsetWeek.
Local Open Scope Z_scope.
Context {tz : TimeZone}.
Variable offset : Z.
Hypothesis Hfixed : forall t isUTC, LocalTZA t isUTC = offset.
Hypothesis Hoffset : - msPerDay < offset < msPerDay.

Lemma dottedDate (s : string) :
  isCalendarDate s = true ->
  exists y m d,
    replaceUnit "-" "." s = (y ++ "." ++ m ++ "." ++ d)%string
    /\ replaceUnit "." "-" (y ++ "." ++ m ++ "." ++ d) = s
    /\ (String.length y = 4%nat /\ strAll isDigit y = true)
    /\ (String.length m = 2%nat /\ strAll isDigit m = true)
    /\ (String.length d = 2%nat /\ strAll isDigit d = true).
Proof.
  unfold isCalendarDate.
  destruct (isoShape s) as [[[y m] d]|] eqn:Hshape; [|done]. intros _.
  apply isoShape_Some in Hshape as (Hs & [Hly Hy] & [Hlm Hm] & [Hld Hd]).
  exists y, m, d. split; [|split; [|done]].
  - rewrite Hs, !replaceUnit_app.
    by rewrite (replaceUnit_digits "-" "." y), (replaceUnit_digits "-" "." m),
      (replaceUnit_digits "-" "." d) by first [done|reflexivity].
  - rewrite Hs, !replaceUnit_app.
    by rewrite (replaceUnit_digits "." "-" y), (replaceUnit_digits "." "-" m),
      (replaceUnit_digits "." "-" d) by first [done|reflexivity].
Qed.

Lemma matchWeekTitle_dates (first second : string) :
  isCalendarDate first = true -> isCalendarDate second = true ->
  matchWeekTitle (replaceUnit "-" "." first ++ " - "
                  ++ replaceUnit "-" "." second)
  = Some (replaceUnit "-" "." first, replaceUnit "-" "." second).
Proof.
  intros H1 H2.
  destruct (dottedDate first H1)
    as (y1 & m1 & d1 & -> & _ & [Hly1 Hy1] & [Hlm1 Hm1] & [Hld1 Hd1]).
  destruct (dottedDate second H2)
    as (y2 & m2 & d2 & -> & _ & [Hly2 Hy2] & [Hlm2 Hm2] & [Hld2 Hd2]).
  assert (forall y r, String.length y = 4%nat -> strAll isDigit y = true ->
                      dropWhile isSpace (y ++ r) = y ++ r) as Hdigit.
  { intros y r Hl Hd. destruct y as [|c y']; [done|].
    rewrite append_cons. cbn [dropWhile]. simpl in Hd.
    apply andb_prop in Hd as [Hc _].
    assert (isSpace c = false) as ->; [|done].
    clear -Hc. revert Hc.
    destruct c as [[] [] [] [] [] [] [] []]; vm_compute; congruence. }
  unfold matchWeekTitle.
  rewrite !append_assoc. rewrite Hdigit by done.
  rewrite (takeDottedDate_app y1 m1 d1
             (" - " ++ y2 ++ "." ++ m2 ++ "." ++ d2)) by done.
  change (dropWhile isSpace (" - " ++ y2 ++ "." ++ m2 ++ "." ++ d2))
    with (String "-" (String " " (y2 ++ "." ++ m2 ++ "." ++ d2))).
  cbv beta iota. change (codeUnit "-" =? 45)%N with true. cbv beta iota.
  change (dropWhile isSpace (String " " (y2 ++ "." ++ m2 ++ "." ++ d2)))
    with (dropWhile isSpace (y2 ++ "." ++ m2 ++ "." ++ d2)).
  rewrite Hdigit by done.
  pose proof (takeDottedDate_app y2 m2 d2 "" Hly2 Hy2 Hlm2 Hm2 Hld2 Hd2) as Ht.
  rewrite append_nil_r in Ht. by rewrite Ht.
Qed.

(** X15.  On a host with a fixed offset, a week note titled with two
    calendar dates resolves exactly when the days from the first to the
    second, both counted, are seven; the dates are then these seven
    days in order, and otherwise the error names the number of days, 0
    when the second date is the earlier one. *)
Theorem resolveRange_week_fixed_offset
    (config : NormalizedConfig.t) (f : TFile) (start end_ : string) :
  NormalizedConfig.type (NormalizedConfig.range config) = "week" ->
  isTrue (NormalizedConfig.fromTitle (NormalizedConfig.range config)) = true ->
  isCalendarDate start = true -> isCalendarDate end_ = true ->
  basename f = (replaceUnit "-" "." start ++ " - "
                ++ replaceUnit "-" "." end_)%string ->
  resolveRange config f
  = if inclusiveDayCount start end_ =? 7
    then Ok {| RangeResolution.type := "week";
               RangeResolution.startDate := start;
               RangeResolution.endDate := end_;
               RangeResolution.dates :=
                 List.map isoOfDay (seqZ (dayNumberOfIso start) 7) |}
    else Failed ["week range must include exactly 7 dates, found "
                 ++ StringOfZ (Z.max 0 (inclusiveDayCount start end_))]%string.
Proof.
  intros Htype Hflag Hs He Hname.
  pose proof (matchWeekTitle_dates start end_ Hs He) as Htitle.
  rewrite <- Hname in Htitle.
  destruct (dottedDate start Hs) as (y1 & m1 & d1 & Hd1 & Hb1 & _).
  destruct (dottedDate end_ He) as (y2 & m2 & d2 & Hd2 & Hb2 & _).
  pose proof (normalizeIsoDate_fixed offset Hfixed Hoffset start) as Hns.
  pose proof (normalizeIsoDate_fixed offset Hfixed Hoffset end_) as Hne.
  rewrite Hs in Hns. rewrite He in Hne.
  rewrite (resolveRange_week_count config f _ _ start end_ Htype Hflag Htitle)
    by (rewrite ?Hd1, ?Hb1, ?Hd2, ?Hb2, ?Hfixed; done).
  destruct (Z.eqb_spec (inclusiveDayCount start end_) 7) as [Hseven|_]; [|done].
  destruct (enumerateDates_fixed offset Hfixed Hoffset start end_ Hs He)
    as (-> & _). by rewrite Hseven.
Qed.

End FixedOffsetWeek.

Lemma resolveRange_week_fixed_offset_witness :
  exists dates,
    resolveRange (tz:=fixedZone 3600000) (weekConfig (JBool true))
                 (noteTitled "2024.03.10 - 2024.03.16")
    = Ok {| RangeResolution.type := "week";
            RangeResolution.startDate := "2024-03-10";
            RangeResolution.endDate := "2024-03-16";
            RangeResolution.dates := dates |}.
Proof.
  eexists.
  exact (resolveRange_week_fixed_offset (tz:=fixedZone 3600000) 3600000
           (fun _ _ => eq_refl) ltac:(unfold msPerDay; lia)
           (weekConfig (JBool true)) (noteTitled "2024.03.10 - 2024.03.16")
           "2024-03-10" "2024-03-16" eq_refl eq_refl eq_refl eq_refl eq_refl).
Defined.

(** ** The files of a range (scanner.ts, [getFilesForRange],
       [shouldIgnoreFile] and [getParentPath]) *)

Definition isSlash (c : ascii) : bool := (codeUnit c =? 47)%N.

(** A text without [/]. *)
Definition noSlash (s : string) : bool := strAll (fun c => negb (isSlash c)) s.

Section Paths.

Lemma parentPathOpt_noSlash (name : string) :
  noSlash name = true -> parentPathOpt name = None.
Proof.
  induction name as [|c r IH]; [done|]. unfold noSlash. simpl.
  intros [Hc Hr]%andb_prop. rewrite (IH Hr).
  apply negb_true_iff in Hc. unfold isSlash in Hc. by rewrite Hc.
Qed.

Lemma parentPathOpt_app (dir name : string) :
  noSlash name = true ->
  parentPathOpt (dir ++ String "/" name) = Some dir.
Proof.
  intros Hn. induction dir as [|c r IH].
  - rewrite append_nil. cbn [parentPathOpt].
    by rewrite (parentPathOpt_noSlash name Hn).
  - rewrite append_cons. cbn [parentPathOpt]. by rewrite IH.
Qed.

(** X16.  [getParentPath] answers what stands before the last [/] of a path,
    and the empty text for a path without [/]. *)
Theorem getParentPath_of_path (dir name : string) :
  noSlash name = true ->
  getParentPath (dir ++ "/" ++ name) = dir /\ getParentPath name = "".
Proof.
  intros Hn. unfold getParentPath. split.
  - change ("/" ++ name) with (String "/" name).
    by rewrite parentPathOpt_app.
  - by rewrite parentPathOpt_noSlash.
Qed.

Lemma splitOn_noSep (sep : ascii) (s : string) :
  strAll (fun c => negb (Ascii.eqb c sep)) s = true -> splitOn sep s = [s].
Proof.
  induction s as [|c r IH]; [done|]. simpl.
  intros [Hc Hr]%andb_prop. rewrite (IH Hr).
  apply negb_true_iff in Hc. by rewrite Hc.
Qed.

Lemma splitOn_nonempty (sep : ascii) (s : string) : splitOn sep s <> [].
Proof.
  destruct s as [|c r]; [done|]. simpl.
  destruct (Ascii.eqb c sep); [done|]. by destruct (splitOn sep r).
Qed.

Lemma splitOn_app (sep : ascii) (a b : string) :
  splitOn sep (a ++ String sep b) = (splitOn sep a ++ splitOn sep b)%list.
Proof.
  induction a as [|c r IH].
  - rewrite append_nil. simpl. by rewrite Ascii.eqb_refl.
  - rewrite append_cons. cbn [splitOn]. rewrite IH.
    destruct (Ascii.eqb c sep); [done|].
    pose proof (splitOn_nonempty sep r) as Hne.
    by destruct (splitOn sep r).
Qed.

Lemma isSlash_eqb (c : ascii) : Ascii.eqb c "/" = isSlash c.
Proof.
  destruct c as [[] [] [] [] [] [] [] []]; reflexivity.
Qed.

(** X17.  A path is ignored exactly when one of its segments, the file name
    included, is [templates] in any case of letters: the path made of
    two paths is ignored when one of the two is, and a single segment
    when its lower case is [templates]. *)
Theorem shouldIgnoreFile_segments (a b : string) :
  shouldIgnoreFile (a ++ "/" ++ b) = shouldIgnoreFile a || shouldIgnoreFile b
  /\ (noSlash a = true ->
      shouldIgnoreFile a = String.eqb (toLowerCase a) "templates").
Proof.
  unfold shouldIgnoreFile. split.
  - change ("/" ++ b) with (String "/" b).
    by rewrite splitOn_app, existsb_app.
  - intros Ha. rewrite splitOn_noSep.
    + cbn [existsb]. by rewrite orb_false_r.
    + eapply strAll_impl; [|exact Ha]. intros c Hc. by rewrite isSlash_eqb.
Qed.

End Paths.

Lemma getParentPath_of_path_witness :
  getParentPath "journal/2026/week.md" = "journal/2026".
Proof.
  exact (proj1 (getParentPath_of_path "journal/2026" "week.md" eq_refl)).
Defined.

Section FilesForRange.
Context {tz : TimeZone}.
Variable vault : Vault.

Lemma startsWith_slash_parent (p : string) :
  startsWith p "/" = false -> startsWith (getParentPath p) "/" = false.
Proof.
  unfold startsWith. destruct p as [|c r]; [done|]. cbn [stripPrefix].
  destruct (Ascii.eqb "/" c) eqn:Hc; [done|]. intros _.
  unfold getParentPath. cbn [parentPathOpt].
  destruct (parentPathOpt r) as [d|]; cbn [default from_option id stripPrefix].
  - by rewrite Hc.
  - by destruct (codeUnit c =? 47)%N.
Qed.

(** X18.  The files of a range never hold an ignored file; the files of the
    month are among those of the year; a week has the current file
    only; and the current file itself is scanned for a month or a year
    when the vault lists it and it is not ignored. *)
Theorem getFilesForRange_files (currentFile : TFile) (type : string) :
  Forall (fun f => shouldIgnoreFile (path f) = false)
         (getFilesForRange vault currentFile type)
  /\ incl (getFilesForRange vault currentFile "month")
          (getFilesForRange vault currentFile "year")
  /\ Forall (fun f => f = currentFile)
            (getFilesForRange vault currentFile "week")
  /\ (type <> "week" ->
      In currentFile (getMarkdownFiles vault) ->
      shouldIgnoreFile (path currentFile) = false ->
      In currentFile (getFilesForRange vault currentFile type)).
Proof.
  unfold getFilesForRange. split; [|split; [|split]].
  - destruct (String.eqb type "week").
    + destruct (shouldIgnoreFile (path currentFile)) eqn:Hi; by repeat constructor.
    + apply List.Forall_forall. intros f Hf.
      destruct (String.eqb type "month");
        apply filter_In in Hf as [Hf _];
        apply filter_In in Hf as [_ Hf]; by apply negb_true_iff in Hf.
  - change (String.eqb "month" "week") with false.
    change (String.eqb "year" "week") with false.
    change (String.eqb "month" "month") with true.
    change (String.eqb "year" "month") with false. cbv iota.
    intros f [Hf Hd]%filter_In. apply filter_In. split; [done|].
    by rewrite Hd.
  - change (String.eqb "week" "week") with true. cbv iota.
    destruct (shouldIgnoreFile (path currentFile)); by repeat constructor.
  - intros Hw Hin Hig. apply String.eqb_neq in Hw. rewrite Hw.
    assert (In currentFile
              (List.filter (fun f => negb (shouldIgnoreFile (path f)))
                           (getMarkdownFiles vault))) as Hall
      by (apply filter_In; split; [done|by rewrite Hig]).
    destruct (String.eqb type "month"); apply filter_In; (split; [done|]).
    + apply String.eqb_refl.
    + by rewrite String.eqb_refl.
Qed.

(** X19.  For a current file at the root of the vault the directory is the
    empty text, and no directory of the vault starts with [/]: the year
    then has the files of the root only, as the month has. *)
Theorem getFilesForRange_year_at_root (currentFile : TFile) :
  getParentPath (path currentFile) = "" ->
  Forall (fun f => startsWith (path f) "/" = false) (getMarkdownFiles vault) ->
  getFilesForRange vault currentFile "year"
  = getFilesForRange vault currentFile "month".
Proof.
  intros Hroot Hrel. unfold getFilesForRange.
  change (String.eqb "month" "week") with false.
  change (String.eqb "year" "week") with false.
  change (String.eqb "month" "month") with true.
  change (String.eqb "year" "month") with false. cbv iota.
  rewrite Hroot. rewrite append_nil.
  apply List.filter_ext_in. intros f [Hf _]%filter_In.
  rewrite List.Forall_forall in Hrel.
  rewrite (startsWith_slash_parent _ (Hrel f Hf)). by rewrite orb_false_r.
Qed.

End FilesForRange.

Definition rootNote : TFile :=
  {| path := "index.md"; basename := "index"; stat_mtime := 1 |}.

Definition nestedNote : TFile :=
  {| path := "journal/2026.md"; basename := "2026"; stat_mtime := 1 |}.

Lemma getFilesForRange_files_witness :
  In nestedNote
     (getFilesForRange
        {| getMarkdownFiles := [rootNote; nestedNote];
           cachedRead := fun _ => "" |} nestedNote "month").
Proof.
  apply (getFilesForRange_files
           {| getMarkdownFiles := [rootNote; nestedNote];
              cachedRead := fun _ => "" |} nestedNote "month").
  - discriminate.
  - right. left. reflexivity.
  - reflexivity.
Defined.

Lemma getFilesForRange_year_at_root_witness :
  getFilesForRange
    {| getMarkdownFiles := [rootNote; nestedNote]; cachedRead := fun _ => "" |}
    rootNote "year"
  = [rootNote].
Proof.
  rewrite (getFilesForRange_year_at_root
             {| getMarkdownFiles := [rootNote; nestedNote];
                cachedRead := fun _ => "" |} rootNote eq_refl).
  - reflexivity.
  - repeat constructor.
Defined.

(** ** The result of a scan (scanner.ts, [scan]) *)

(** The candidate a scanned file gives for a date: one when the date
    is in the range and the file has a heading of it. *)
Definition candidateOf (dateSet : gset string) (f : TFile)
    (parsed : ParsedFileData.t) (date : string) : option ScanCandidate.t :=
  if bool_decide (date ∈ dateSet) then
    match ParsedFileData.headingLinesByDate parsed !! date with
    | Some lines =>
        Some {| ScanCandidate.file := f;
                ScanCandidate.headingLine := default 1%Z (head lines);
                ScanCandidate.habitsWithData :=
                  match ParsedFileData.valuesByDateHabit parsed !! date with
                  | Some dateValues => dom dateValues
                  | None => ∅
                  end |}
    | None => None
    end
  else None.

(** The bucket of a date and habit after one more scanned file. *)
Definition mergeBucket (dateSet : gset string) (date habit : string)
    (bucket : option AggregateBucket.t) (parsed : ParsedFileData.t)
  : option AggregateBucket.t :=
  if bool_decide (date ∈ dateSet) then
    match lookup2 (ParsedFileData.valuesByDateHabit parsed) date habit with
    | Some v => Some (foldValue v (default freshBucket bucket))
    | None => bucket
    end
  else bucket.

(** The pure part of one turn of the loop over the files. *)
Definition scanParsed (dateSet : gset string) (st : ScanState)
    (p : TFile * ParsedFileData.t) : ScanState :=
  map_fold (dateStep dateSet)
    {| aggregates := aggregates st;
       candidates :=
         map_fold (candidateStep (fst p) (snd p) dateSet) (candidates st)
                  (ParsedFileData.headingLinesByDate (snd p));
       found := found st |}
    (ParsedFileData.valuesByDateHabit (snd p)).

Section ScanFacts.
#[local] Set Warnings "-clear-no-such-hyp".
Context {tz : TimeZone}.
Variable vault : Vault.

Lemma scanFiles_parsed (dateSet : gset string) (files : list TFile)
    (this : HabitScanner) (st : ScanState) :
  fold_left (scanFile vault dateSet) files (this, st)
  = (visit vault files this,
     fold_left (scanParsed dateSet) (parsedDuringScan vault this files) st).
Proof.
  revert this st. induction files as [|f rest IH]; intros this st; [done|].
  cbn [fold_left parsedDuringScan]. unfold visit. cbn [fold_left].
  unfold scanFile at 2.
  destruct (getParsedFile vault this f) as [this' ref] eqn:Hg.
  cbn [fst snd]. rewrite IH. reflexivity.
Qed.

Lemma lookup2_default {A} (m : gmap string (gmap string A)) (k1 k2 : string) :
  default ∅ (m !! k1) !! k2 = lookup2 m k1 k2.
Proof. unfold lookup2. by destruct (m !! k1). Qed.

Lemma valueStep_fold (date : string) (st : ScanState)
    (values : gmap string ResolvedHabitValue) :
  let r := map_fold (valueStep date) st values in
  candidates r = candidates st
  /\ forall h d,
       lookup2 (aggregates r) h d
       = if bool_decide (d = date) then
           match values !! h with
           | Some v =>
               Some (foldValue v
                       (default freshBucket (lookup2 (aggregates st) h d)))
           | None => lookup2 (aggregates st) h d
           end
         else lookup2 (aggregates st) h d.
Proof.
  apply (map_fold_weak_ind
           (fun r (m : gmap string ResolvedHabitValue) =>
              candidates r = candidates st
              /\ forall h d,
                   lookup2 (aggregates r) h d
                   = if bool_decide (d = date) then
                       match m !! h with
                       | Some v =>
                           Some (foldValue v
                                   (default freshBucket
                                      (lookup2 (aggregates st) h d)))
                       | None => lookup2 (aggregates st) h d
                       end
                     else lookup2 (aggregates st) h d)).
  - split; [done|]. intros h d. rewrite lookup_empty. by case_bool_decide.
  - intros habit v m r Hfresh [IHc IHa]. split; [done|]. intros h d.
    assert (lookup2 (aggregates r) habit date
            = lookup2 (aggregates st) habit date) as Hold
      by (by rewrite IHa, bool_decide_eq_true_2, Hfresh).
    unfold valueStep. cbn [aggregates].
    rewrite lookup2_insert_bucket, lookup2_default, Hold, IHa.
    destruct (decide (habit = h)) as [<-|Hne].
    + rewrite lookup_insert_eq.
      destruct (decide (d = date)) as [->|Hd].
      * by rewrite !bool_decide_eq_true_2.
      * rewrite !bool_decide_eq_false_2 by naive_solver. done.
    + rewrite lookup_insert_ne by done.
      by rewrite bool_decide_eq_false_2 by naive_solver.
Qed.

Lemma dateStep_fold (dateSet : gset string) (st : ScanState)
    (values : gmap string (gmap string ResolvedHabitValue)) :
  let r := map_fold (dateStep dateSet) st values in
  candidates r = candidates st
  /\ forall h d,
       lookup2 (aggregates r) h d
       = if bool_decide (d ∈ dateSet) then
           match lookup2 values d h with
           | Some v =>
               Some (foldValue v
                       (default freshBucket (lookup2 (aggregates st) h d)))
           | None => lookup2 (aggregates st) h d
           end
         else lookup2 (aggregates st) h d.
Proof.
  apply (map_fold_weak_ind
           (fun r (m : gmap string (gmap string ResolvedHabitValue)) =>
              candidates r = candidates st
              /\ forall h d,
                   lookup2 (aggregates r) h d
                   = if bool_decide (d ∈ dateSet) then
                       match lookup2 m d h with
                       | Some v =>
                           Some (foldValue v
                                   (default freshBucket
                                      (lookup2 (aggregates st) h d)))
                       | None => lookup2 (aggregates st) h d
                       end
                     else lookup2 (aggregates st) h d)).
  - split; [done|]. intros h d. unfold lookup2. rewrite lookup_empty.
    by case_bool_decide.
  - intros date vh m r Hfresh [IHc IHa]. unfold dateStep.
    assert (forall d h, lookup2 (<[date := vh]> m) d h
                        = if bool_decide (d = date) then vh !! h
                          else lookup2 m d h) as Hlk.
    { intros d h. unfold lookup2. destruct (decide (d = date)) as [->|Hd].
      - by rewrite lookup_insert_eq, bool_decide_eq_true_2.
      - rewrite lookup_insert_ne by done.
        by rewrite bool_decide_eq_false_2. }
    assert (forall h, lookup2 m date h = None) as Hnone
      by (intros h; unfold lookup2; by rewrite Hfresh).
    case_bool_decide as Hin.
    + destruct (valueStep_fold date r vh) as [Hc Ha]. cbv zeta in Hc, Ha.
      split; [by rewrite Hc|]. intros h d. rewrite Ha, Hlk, IHa.
      destruct (decide (d = date)) as [->|Hd].
      * rewrite !bool_decide_eq_true_2 by done. by rewrite !Hnone.
      * by rewrite !(bool_decide_eq_false_2 (d = date)) by done.
    + split; [done|]. intros h d. rewrite IHa, Hlk.
      destruct (decide (d = date)) as [->|Hd].
      * by rewrite !(bool_decide_eq_false_2 (date ∈ dateSet)) by done.
      * by rewrite (bool_decide_eq_false_2 (d = date)) by done.
Qed.

Lemma candidateStep_fold (dateSet : gset string) (f : TFile)
    (parsed : ParsedFileData.t) (cands : gmap string (list ScanCandidate.t))
    (date : string) :
  map_fold (candidateStep f parsed dateSet) cands
           (ParsedFileData.headingLinesByDate parsed) !! date
  = match candidateOf dateSet f parsed date with
    | Some c => Some (default [] (cands !! date) ++ [c])%list
    | None => cands !! date
    end.
Proof.
  unfold candidateOf.
  apply (map_fold_weak_ind
           (fun r (m : gmap string (list Z)) =>
              r !! date
              = match
                  (if bool_decide (date ∈ dateSet) then
                     match m !! date with
                     | Some lines =>
                         Some {| ScanCandidate.file := f;
                                 ScanCandidate.headingLine :=
                                   default 1%Z (head lines);
                                 ScanCandidate.habitsWithData :=
                                   match ParsedFileData.valuesByDateHabit parsed
                                         !! date with
                                   | Some dateValues => dom dateValues
                                   | None => ∅
                                   end |}
                     | None => None
                     end
                   else None)
                with
                | Some c => Some (default [] (cands !! date) ++ [c])%list
                | None => cands !! date
                end)).
  - rewrite lookup_empty. by case_bool_decide.
  - intros d lines m r Hfresh IH. unfold candidateStep.
    destruct (decide (d = date)) as [->|Hne].
    + rewrite lookup_insert_eq. rewrite Hfresh in IH.
      case_bool_decide as Hin.
      * rewrite lookup_insert_eq. rewrite IH. reflexivity.
      * exact IH.
    + rewrite (lookup_insert_ne m) by done.
      destruct (decide (d ∈ dateSet)) as [Hin|Hin].
      * rewrite (bool_decide_eq_true_2 (d ∈ dateSet)) by done.
        by rewrite lookup_insert_ne.
      * by rewrite (bool_decide_eq_false_2 (d ∈ dateSet)) by done.
Qed.

(** One scanned file: its values are folded into the buckets and its
    candidate is appended. *)
Lemma scanParsed_spec (dateSet : gset string) (st : ScanState)
    (f : TFile) (parsed : ParsedFileData.t) :
  (forall h d,
     lookup2 (aggregates (scanParsed dateSet st (f, parsed))) h d
     = mergeBucket dateSet d h (lookup2 (aggregates st) h d) parsed)
  /\ (forall d,
        default [] (candidates (scanParsed dateSet st (f, parsed)) !! d)
        = (default [] (candidates st !! d)
           ++ option_list (candidateOf dateSet f parsed d))%list).
Proof.
  unfold scanParsed. cbn [fst snd].
  match goal with
  | |- context [map_fold (dateStep dateSet) ?s ?v] =>
      destruct (dateStep_fold dateSet s v) as [Hc Ha]
  end.
  cbv zeta in Hc, Ha. cbn [aggregates candidates] in Hc, Ha. split.
  - intros h d. rewrite Ha. unfold mergeBucket. by case_bool_decide.
  - intros d. rewrite Hc, candidateStep_fold.
    destruct (candidateOf dateSet f parsed d); cbn [option_list]; [done|].
    by rewrite app_nil_r.
Qed.

Lemma scanParsedList_spec (dateSet : gset string)
    (ps : list (TFile * ParsedFileData.t)) (st : ScanState) :
  (forall h d,
     lookup2 (aggregates (fold_left (scanParsed dateSet) ps st)) h d
     = fold_left (mergeBucket dateSet d h) (List.map snd ps)
                 (lookup2 (aggregates st) h d))
  /\ (forall d,
        default [] (candidates (fold_left (scanParsed dateSet) ps st) !! d)
        = (default [] (candidates st !! d)
           ++ omap (fun p => candidateOf dateSet (fst p) (snd p) d) ps)%list).
Proof.
  revert st. induction ps as [|[f parsed] ps IH]; intros st.
  - split; [done|]. intros d. cbn. by rewrite app_nil_r.
  - cbn [fold_left List.map snd].
    destruct (IH (scanParsed dateSet st (f, parsed))) as [IHa IHc].
    destruct (scanParsed_spec dateSet st f parsed) as [Ha Hc].
    split.
    + intros h d. by rewrite IHa, Ha.
    + intros d. rewrite IHc, Hc. cbn [omap list_omap fst snd].
      rewrite <- List.app_assoc. f_equal.
      by destruct (candidateOf dateSet f parsed d).
Qed.

End ScanFacts.

(** ** Results of a scan *)

(** The numbers among some values, in their order. *)
Definition numericParts (values : list ResolvedHabitValue) : list number :=
  omap (fun v => match v with Numeric n => Some n | Boolean _ => None end)
       values.

Definition holdsBoolean (b : bool) (values : list ResolvedHabitValue) : bool :=
  existsb (fun v => match v with
                    | Boolean b' => Bool.eqb b b'
                    | Numeric _ => false
                    end) values.

(** The values that the files of a scan hold for a date and a habit,
    in the order of the files. *)
Definition fileValues (date habit : string)
    (ps : list (TFile * ParsedFileData.t)) : list ResolvedHabitValue :=
  omap (fun p => lookup2 (ParsedFileData.valuesByDateHabit (snd p)) date habit)
       ps.

Section ScanResults.
#[local] Set Warnings "-clear-no-such-hyp".
Context {tz : TimeZone}.
Variable vault : Vault.

Lemma foldValue_list (values : list ResolvedHabitValue)
    (bucket : AggregateBucket.t) :
  let r := fold_left (fun b v => foldValue v b) values bucket in
  AggregateBucket.numericSum r
  = fold_left num_add (numericParts values) (AggregateBucket.numericSum bucket)
  /\ AggregateBucket.hasNumeric r
     = AggregateBucket.hasNumeric bucket
       || negb (List.length (numericParts values) =? 0)%nat
  /\ AggregateBucket.boolTrue r
     = AggregateBucket.boolTrue bucket || holdsBoolean true values
  /\ AggregateBucket.boolFalse r
     = AggregateBucket.boolFalse bucket || holdsBoolean false values.
Proof.
  revert bucket. induction values as [|v vs IH]; intros bucket.
  - cbn. by rewrite !orb_false_r.
  - cbn [fold_left]. destruct (IH (foldValue v bucket)) as (H1 & H2 & H3 & H4).
    cbv zeta. rewrite H1, H2, H3, H4.
    destruct v as [n|[]]; cbn; rewrite ?orb_true_r, ?orb_false_r, ?orb_assoc;
      try done.
    all: by rewrite ?orb_true_r.
Qed.

Lemma mergeBucket_list (dateSet : gset string) (date habit : string)
    (ps : list (TFile * ParsedFileData.t)) (bucket : option AggregateBucket.t) :
  fold_left (mergeBucket dateSet date habit) (List.map snd ps) bucket
  = if bool_decide (date ∈ dateSet) then
      match fileValues date habit ps with
      | [] => bucket
      | values =>
          Some (fold_left (fun b v => foldValue v b) values
                          (default freshBucket bucket))
      end
    else bucket.
Proof.
  revert bucket. induction ps as [|[f parsed] ps IH]; intros bucket.
  - cbn. by case_bool_decide.
  - cbn [List.map snd fold_left]. rewrite IH. unfold mergeBucket, fileValues.
    cbn [omap list_omap snd]. case_bool_decide as Hin; [|done].
    destruct (lookup2 (ParsedFileData.valuesByDateHabit parsed) date habit)
      as [v|]; [|done].
    cbn [fold_left from_option id].
    by destruct (omap _ ps).
Qed.

Lemma scan_values
    (this : HabitScanner) (currentFile : TFile) (range : RangeResolution.t)
    (habit date : string) :
  let values :=
    fileValues date habit
      (parsedDuringScan vault this
         (getFilesForRange vault currentFile (RangeResolution.type range))) in
  lookup2 (ScanResult.valuesByHabit (snd (scan vault this currentFile range)))
          habit date
  = if bool_decide (date ∈ RangeResolution.dates range) then
      match numericParts values with
      | [] =>
          if holdsBoolean true values then Some (Boolean true)
          else if holdsBoolean false values then Some (Boolean false)
          else None
      | numbers => Some (Numeric (fold_left num_add numbers (S754_zero false)))
      end
    else None.
Proof.
  intros values. unfold scan. rewrite scanFiles_parsed.
  cbn [snd ScanResult.valuesByHabit].
  set (ps := parsedDuringScan vault this _) in *.
  set (dateSet := list_to_set (RangeResolution.dates range) : gset string).
  destruct (scanParsedList_spec dateSet ps
              {| aggregates := ∅; candidates := ∅; found := ∅ |}) as [Ha _].
  assert (forall (m : gmap string (gmap string AggregateBucket.t)),
            lookup2 (fmap (M:=gmap string)
                       (fun byDate : gmap string AggregateBucket.t =>
                          omap resolveBucket byDate) m) habit date
            = match lookup2 m habit date with
              | Some b => resolveBucket b
              | None => None
              end) as Hres.
  { intros m. unfold lookup2. rewrite lookup_fmap.
    destruct (m !! habit) as [byDate|]; [|done]. cbn.
    rewrite lookup_omap. by destruct (byDate !! date). }
  rewrite Hres, Ha. cbn [aggregates].
  assert (lookup2 (∅ : gmap string (gmap string AggregateBucket.t)) habit date
          = None) as -> by (unfold lookup2; by rewrite lookup_empty).
  rewrite mergeBucket_list. fold values.
  assert (bool_decide (date ∈ dateSet)
          = bool_decide (date ∈ RangeResolution.dates range)) as ->.
  { apply bool_decide_ext. subst dateSet. by rewrite elem_of_list_to_set. }
  case_bool_decide as Hin; [|done].
  destruct values as [|v vs] eqn:Hvs; [done|].
  destruct (foldValue_list (v :: vs) freshBucket) as (H1 & H2 & H3 & H4).
  cbv zeta in H1, H2, H3, H4. cbn [from_option id].
  unfold resolveBucket. rewrite H1, H2, H3, H4.
  cbn [freshBucket AggregateBucket.numericSum AggregateBucket.hasNumeric
       AggregateBucket.boolTrue AggregateBucket.boolFalse orb].
  by destruct (numericParts (v :: vs)).
Qed.

(** X20.  The values of a scan for a date and a habit.  A date outside the
    range has none.  For a date of the range the values of the scanned
    files are merged: when some of them are numbers the value is their
    sum, added file after file from zero; otherwise it is true when some
    file says true, false when some file says false, and there is no
    value when no file has one. *)
Theorem scan_merges_files
    (this : HabitScanner) (currentFile : TFile) (range : RangeResolution.t)
    (habit date : string) :
  let values :=
    fileValues date habit
      (parsedDuringScan vault this
         (getFilesForRange vault currentFile (RangeResolution.type range))) in
  lookup2 (ScanResult.valuesByHabit (snd (scan vault this currentFile range)))
          habit date
  = if bool_decide (date ∈ RangeResolution.dates range) then
      match numericParts values with
      | [] =>
          if holdsBoolean true values then Some (Boolean true)
          else if holdsBoolean false values then Some (Boolean false)
          else None
      | numbers => Some (Numeric (fold_left num_add numbers (S754_zero false)))
      end
    else None.
Proof. exact (scan_values this currentFile range habit date). Qed.

(** X21.  The habits found by a scan are the habits that have a value in its
    result, and every date with a value is a date of the range. *)
Theorem scan_found_have_values
    (this : HabitScanner) (currentFile : TFile) (range : RangeResolution.t)
    (habit : string) :
  let result := snd (scan vault this currentFile range) in
  (habit ∈ ScanResult.habitsFound result
   <-> exists date,
         is_Some (lookup2 (ScanResult.valuesByHabit result) habit date))
  /\ (forall date,
        is_Some (lookup2 (ScanResult.valuesByHabit result) habit date) ->
        date ∈ RangeResolution.dates range).
Proof.
  cbv zeta.
  assert (forall date,
            is_Some (lookup2 (ScanResult.valuesByHabit
                                (snd (scan vault this currentFile range)))
                             habit date)
            <-> date ∈ RangeResolution.dates range
                /\ exists f parsed,
                     In (f, parsed)
                        (parsedDuringScan vault this
                           (getFilesForRange vault currentFile
                              (RangeResolution.type range)))
                     /\ is_Some (lookup2 (ParsedFileData.valuesByDateHabit
                                            parsed) date habit)) as Hvalue.
  { intros date. rewrite scan_values.
    set (ps := parsedDuringScan vault this _).
    assert ((exists f parsed,
               In (f, parsed) ps
               /\ is_Some (lookup2 (ParsedFileData.valuesByDateHabit parsed)
                                   date habit))
            <-> fileValues date habit ps <> []) as ->.
    { unfold fileValues. induction ps as [|[f parsed] ps IH].
      - split; [by intros (? & ? & [] & _)|done].
      - cbn [omap list_omap snd].
        destruct (lookup2 (ParsedFileData.valuesByDateHabit parsed) date habit)
          as [v|] eqn:Hv.
        + split; [done|]. intros _. exists f, parsed. split; [by left|].
          rewrite Hv. by eexists.
        + rewrite <- IH. split.
          * intros (f' & p' & [[= <- <-]|Hin] & Hs).
            -- rewrite Hv in Hs. by destruct Hs.
            -- by exists f', p'.
          * intros (f' & p' & Hin & Hs). exists f', p'. by split; [right|]. }
    case_bool_decide as Hin.
    - destruct (fileValues date habit ps) as [|v vs]; cbn.
      + split; [by intros [? ?]|]. by intros [_ ?].
      + split; [done|]. intros _.
        destruct v as [n|[]]; cbn; try by eexists.
        all: destruct (omap _ vs); cbn; try by eexists.
        all: destruct (existsb _ vs); by eexists.
    - split; [by intros [? ?]|]. by intros [? _]. }
  split.
  - assert (ScanResult.habitsFound (snd (scan vault this currentFile range))
            = found (fold_left
                       (scanParsed (list_to_set (RangeResolution.dates range)))
                       (parsedDuringScan vault this
                          (getFilesForRange vault currentFile
                             (RangeResolution.type range)))
                       {| aggregates := ∅; candidates := ∅; found := ∅ |}))
      as -> by (unfold scan; by rewrite scanFiles_parsed).
    pose proof (scanFiles_found vault
                  (list_to_set (RangeResolution.dates range))
                  (getFilesForRange vault currentFile
                     (RangeResolution.type range))
                  this {| aggregates := ∅; candidates := ∅; found := ∅ |}
                  habit) as Hfound.
    rewrite scanFiles_parsed in Hfound. cbn [snd] in Hfound.
    rewrite Hfound. cbn [found]. split.
    + intros [?|(f & p & date & Hin & Hd & Hs)]; [set_solver|].
      exists date. apply Hvalue.
      rewrite elem_of_list_to_set in Hd. eauto.
    + intros (date & (Hd & f & p & Hin & Hs)%Hvalue). right.
      exists f, p, date. rewrite elem_of_list_to_set. auto.
  - intros date Hs. by apply Hvalue in Hs as [? _].
Qed.

Lemma scan_candidates_list
    (this : HabitScanner) (currentFile : TFile) (range : RangeResolution.t)
    (date : string) :
  let result := snd (scan vault this currentFile range) in
  default [] (ScanResult.candidatesByDate result !! date)
  = omap (fun p => candidateOf (list_to_set (RangeResolution.dates range))
                     (fst p) (snd p) date)
         (parsedDuringScan vault this
            (getFilesForRange vault currentFile (RangeResolution.type range)))
  /\ (date ∉ RangeResolution.dates range ->
      ScanResult.candidatesByDate result !! date = None)
  /\ Forall (fun c => In (ScanCandidate.file c) (ScanResult.scannedFiles result))
            (default [] (ScanResult.candidatesByDate result !! date)).
Proof.
  cbv zeta. unfold scan. rewrite scanFiles_parsed.
  cbn [snd ScanResult.candidatesByDate ScanResult.scannedFiles].
  set (files := getFilesForRange vault currentFile _).
  set (dateSet := list_to_set (RangeResolution.dates range) : gset string).
  set (init := {| aggregates := ∅; candidates := ∅; found := ∅ |}).
  destruct (scanParsedList_spec dateSet (parsedDuringScan vault this files) init)
    as [_ Hc].
  assert (forall d, default [] (candidates init !! d) = []) as Hinit
    by (intros d; cbn; by rewrite lookup_empty).
  split; [by rewrite Hc, Hinit|]. split.
  - intros Hout.
    assert (forall ps st,
              candidates st !! date = None ->
              candidates (fold_left (scanParsed dateSet) ps st) !! date = None)
      as Hnone.
    { induction ps as [|[f parsed] ps IH]; intros st Hst; [done|].
      cbn [fold_left]. apply IH. unfold scanParsed. cbn [fst snd].
      match goal with
      | |- context [map_fold (dateStep dateSet) ?s ?v] =>
          destruct (dateStep_fold dateSet s v) as [Hcs _]
      end.
      cbv zeta in Hcs. rewrite Hcs. cbn [candidates].
      rewrite candidateStep_fold. unfold candidateOf.
      rewrite bool_decide_eq_false_2; [done|].
      subst dateSet. by rewrite elem_of_list_to_set. }
    apply Hnone. cbn. by rewrite lookup_empty.
  - rewrite Hc, Hinit. cbn [app].
    assert (forall this0 fs,
              Forall (fun p : TFile * ParsedFileData.t => In (fst p) fs)
                     (parsedDuringScan vault this0 fs)) as Hfiles.
    { intros this0 fs. revert this0.
      induction fs as [|f fs IH]; intros this0; [constructor|].
      cbn [parsedDuringScan]. constructor; [by left|].
      eapply Forall_impl; [apply IH|]. intros p Hp. by right. }
    specialize (Hfiles this files). clear Hc.
    induction Hfiles as [|[f parsed] ps Hf _ IH]; [constructor|].
    cbn [omap list_omap fst snd].
    destruct (candidateOf dateSet f parsed date) as [c|] eqn:Hcand;
      [|apply IH].
    constructor; [|apply IH].
    unfold candidateOf in Hcand. case_bool_decide; [|done].
    destruct (_ !! date); [|done]. by injection Hcand as <-.
Qed.

(** X22.  The candidates of a date after a scan: one for each scanned file
    that has a heading of the date, in the order of the files, and none
    for a date outside the range. *)
Theorem scan_candidates
    (this : HabitScanner) (currentFile : TFile) (range : RangeResolution.t)
    (date : string) :
  let result := snd (scan vault this currentFile range) in
  default [] (ScanResult.candidatesByDate result !! date)
  = omap (fun p => candidateOf (list_to_set (RangeResolution.dates range))
                     (fst p) (snd p) date)
         (parsedDuringScan vault this
            (getFilesForRange vault currentFile (RangeResolution.type range)))
  /\ (date ∉ RangeResolution.dates range ->
      ScanResult.candidatesByDate result !! date = None)
  /\ Forall (fun c => In (ScanCandidate.file c) (ScanResult.scannedFiles result))
            (default [] (ScanResult.candidatesByDate result !! date)).
Proof. exact (scan_candidates_list this currentFile range date). Qed.

End ScanResults.

(** ** The scan and the parse cache *)

(** The cache holds, for a file, an entry with the modification time
    of the file and a given object. *)
Definition cached (this : HabitScanner) (f : TFile)
    (ref : Ref ParsedFileData.t) : Prop :=
  cache this !! path f
  = Some {| CacheEntry.mtime := stat_mtime f; CacheEntry.parsed := ref |}.

(** Every cached object is the parse of some text. *)
Definition cacheParsed {tz : TimeZone} (this : HabitScanner) : Prop :=
  forall p e, cache this !! p = Some e ->
    exists f text, content (CacheEntry.parsed e) = parseMarkdownHabits f text.

Section ScanAndCache.
#[local] Set Warnings "-clear-no-such-hyp".
Context {tz : TimeZone}.

(** The files of a scan with the object each one got. *)
Fixpoint objectsDuringScan (vault : Vault) (this : HabitScanner)
    (files : list TFile) : list (TFile * Ref ParsedFileData.t) :=
  match files with
  | [] => []
  | f :: rest =>
      (f, snd (getParsedFile vault this f))
        :: objectsDuringScan vault (fst (getParsedFile vault this f)) rest
  end.

Lemma getParsedFile_cached (vault : Vault) (this : HabitScanner) (f : TFile) :
  cached (fst (getParsedFile vault this f)) f (snd (getParsedFile vault this f)).
Proof.
  unfold cached.
  destruct (getParsedFile_cases vault this f) as [(e & He & Hm & ->)|[_ ->]];
    cbn [fst snd cache].
  - rewrite He, <- Hm. by destruct e.
  - by rewrite lookup_insert_eq.
Qed.

Lemma cached_hit (vault : Vault) (this : HabitScanner) (f : TFile)
    (ref : Ref ParsedFileData.t) :
  cached this f ref -> getParsedFile vault this f = (this, ref).
Proof.
  unfold cached, getParsedFile. intros ->. cbn [CacheEntry.mtime].
  by rewrite Z.eqb_refl.
Qed.

Lemma getParsedFile_parsed (vault : Vault) (this : HabitScanner) (f : TFile) :
  cacheParsed this ->
  cacheParsed (fst (getParsedFile vault this f))
  /\ exists f' text,
       content (snd (getParsedFile vault this f)) = parseMarkdownHabits f' text.
Proof.
  intros Hc.
  destruct (getParsedFile_cases vault this f) as [(e & He & _ & ->)|[_ ->]];
    cbn [fst snd].
  - split; [done|]. by apply (Hc (path f)).
  - split; [|by eexists _, _]. intros p e. cbn [cache].
    destruct (decide (path f = p)) as [<-|Hne].
    + rewrite lookup_insert_eq. intros [= <-]. by eexists _, _.
    + rewrite lookup_insert_ne by done. apply Hc.
Qed.

Lemma reachable_parsed (this : HabitScanner) : Reachable this -> cacheParsed this.
Proof.
  induction 1 as [|vault this f _ IH|p this _ IH|this _ IH].
  - intros p e. cbn. by rewrite lookup_empty.
  - by apply getParsedFile_parsed.
  - intros q e. cbn. intros [_ He]%lookup_delete_Some. by apply IH in He.
  - intros p e. cbn. by rewrite lookup_empty.
Qed.

Lemma parsedDuringScan_parsed (vault : Vault) (files : list TFile)
    (this : HabitScanner) :
  cacheParsed this ->
  Forall (fun p : TFile * ParsedFileData.t =>
            exists f' text, snd p = parseMarkdownHabits f' text)
         (parsedDuringScan vault this files).
Proof.
  revert this. induction files as [|f rest IH]; intros this Hc; [constructor|].
  cbn [parsedDuringScan].
  destruct (getParsedFile_parsed vault this f Hc) as [Hc' Hp].
  constructor; [done|]. by apply IH.
Qed.

(** A value in the result of a scan comes from a scanned file that has
    it, under a date of the range. *)
Lemma scan_value_source (vault : Vault) (this : HabitScanner)
    (currentFile : TFile) (range : RangeResolution.t) (habit date : string) :
  is_Some (lookup2 (ScanResult.valuesByHabit
                      (snd (scan vault this currentFile range))) habit date) ->
  date ∈ RangeResolution.dates range
  /\ exists f parsed,
       In (f, parsed)
          (parsedDuringScan vault this
             (getFilesForRange vault currentFile (RangeResolution.type range)))
       /\ is_Some (lookup2 (ParsedFileData.valuesByDateHabit parsed) date habit).
Proof.
  rewrite scan_values.
  set (ps := parsedDuringScan vault this _).
  case_bool_decide as Hin; [|by intros [? ?]].
  intros Hs. split; [done|].
  assert (fileValues date habit ps <> []) as Hne.
  { intros He. rewrite He in Hs. cbn in Hs. by destruct Hs. }
  clear Hs. unfold fileValues in Hne.
  induction ps as [|[f parsed] ps IH]; [done|].
  cbn [omap list_omap snd] in Hne.
  destruct (lookup2 (ParsedFileData.valuesByDateHabit parsed) date habit)
    as [v|] eqn:Hv.
  - exists f, parsed. split; [by left|]. rewrite Hv. by eexists.
  - destruct (IH Hne) as (f' & p' & Hin' & Hs'). exists f', p'.
    by split; [right|].
Qed.

Lemma scan_candidate_of_value
    (vault : Vault) (this : HabitScanner) (currentFile : TFile)
    (range : RangeResolution.t) (habit date : string) :
  Reachable this ->
  is_Some (lookup2 (ScanResult.valuesByHabit
                      (snd (scan vault this currentFile range))) habit date) ->
  exists c,
    In c (default []
            (ScanResult.candidatesByDate
               (snd (scan vault this currentFile range)) !! date))
    /\ habit ∈ ScanCandidate.habitsWithData c.
Proof.
  intros Hreach Hs.
  destruct (scan_value_source vault this currentFile range habit date Hs)
    as (Hd & f & parsed & Hin & Hv).
  destruct (scan_candidates_list vault this currentFile range date)
    as (Hlist & _ & _).
  pose proof (parsedDuringScan_parsed vault
                (getFilesForRange vault currentFile (RangeResolution.type range))
                this (reachable_parsed this Hreach)) as Hparsed.
  rewrite List.Forall_forall in Hparsed.
  destruct (Hparsed _ Hin) as (f' & text & Hp). cbn [snd] in Hp.
  destruct Hv as [v Hv].
  assert (is_Some (ParsedFileData.headingLinesByDate parsed !! date))
    as [lines Hlines].
  { rewrite Hp in Hv |- *.
    by destruct (parsed_values_headed f' text date habit v Hv) as (? & _). }
  eexists. split.
  - rewrite Hlist. apply list_elem_of_In, list_elem_of_omap.
    exists (f, parsed). split; [by apply list_elem_of_In|].
    cbn [fst snd]. unfold candidateOf.
    rewrite bool_decide_eq_true_2 by (by rewrite elem_of_list_to_set).
    by rewrite Hlines.
  - cbn [ScanCandidate.habitsWithData]. unfold lookup2 in Hv.
    destruct (ParsedFileData.valuesByDateHabit parsed !! date) as [dv|];
      [|done].
    apply elem_of_dom. by eexists.
Qed.

(** X23.  After a scan by a scanner that has only cached what it parsed,
    every value of the result has a candidate to open: a scanned file
    with a heading of the date of the value and with data for its
    habit. *)
Theorem scan_value_has_candidate
    (vault : Vault) (this : HabitScanner) (currentFile : TFile)
    (range : RangeResolution.t) (habit date : string) :
  Reachable this ->
  let result := snd (scan vault this currentFile range) in
  is_Some (lookup2 (ScanResult.valuesByHabit result) habit date) ->
  exists c,
    In c (default [] (ScanResult.candidatesByDate result !! date))
    /\ habit ∈ ScanCandidate.habitsWithData c
    /\ In (ScanCandidate.file c) (ScanResult.scannedFiles result)
    /\ (1 <= ScanCandidate.headingLine c)%Z.
Proof.
  intros Hreach result Hs.
  destruct (scan_value_source vault this currentFile range habit date Hs)
    as (Hd & f & parsed & Hin & Hv).
  destruct (scan_candidates_list vault this currentFile range date)
    as (Hlist & _ & Hfiles).
  fold result in Hlist, Hfiles.
  pose proof (parsedDuringScan_parsed vault
                (getFilesForRange vault currentFile (RangeResolution.type range))
                this (reachable_parsed this Hreach)) as Hparsed.
  rewrite List.Forall_forall in Hparsed.
  destruct (Hparsed _ Hin) as (f' & text & Hp). cbn [snd] in Hp.
  destruct Hv as [v Hv].
  assert (exists lines,
            ParsedFileData.headingLinesByDate parsed !! date = Some lines
            /\ (1 <= default 1 (head lines))%Z) as (lines & Hlines & Hfirst).
  { rewrite Hp in Hv |- *.
    destruct (parsed_values_headed f' text date habit v Hv) as ([ls Hls] & _).
    exists ls. split; [done|].
    rewrite parsed_headings in Hls. unfold headingLinesOf in Hls.
    destruct (List.filter _ _) as [|[i l] rest] eqn:Hfilter; [done|].
    cbn [List.map fst] in Hls. injection Hls as <-. cbn [head default from_option id].
    assert (In (i, l) (indexed (splitLines text))) as Hi.
    { eapply (proj1 (filter_In _ _ _)). rewrite Hfilter. by left. }
    unfold indexed in Hi. apply in_combine_l in Hi.
    apply list_elem_of_In, elem_of_seqZ in Hi. lia. }
  set (c := {| ScanCandidate.file := f;
               ScanCandidate.headingLine := default 1%Z (head lines);
               ScanCandidate.habitsWithData :=
                 match ParsedFileData.valuesByDateHabit parsed !! date with
                 | Some dateValues => dom dateValues
                 | None => ∅
                 end |}).
  assert (candidateOf (list_to_set (RangeResolution.dates range)) f parsed date
          = Some c) as Hcand.
  { unfold candidateOf. rewrite bool_decide_eq_true_2
      by (by rewrite elem_of_list_to_set). by rewrite Hlines. }
  assert (In c (default [] (ScanResult.candidatesByDate result !! date))) as Hc.
  { rewrite Hlist. apply list_elem_of_In, list_elem_of_omap.
    exists (f, parsed). split; [by apply list_elem_of_In|done]. }
  exists c. split; [done|]. split; [|split; [|done]].
  - subst c. cbn [ScanCandidate.habitsWithData].
    unfold lookup2 in Hv.
    destruct (ParsedFileData.valuesByDateHabit parsed !! date) as [dv|];
      [|done].
    apply elem_of_dom. by eexists.
  - rewrite List.Forall_forall in Hfiles. by apply Hfiles.
Qed.

Lemma objects_contents (vault : Vault) (files : list TFile)
    (this : HabitScanner) :
  parsedDuringScan vault this files
  = List.map (fun p => (fst p, content (snd p)))
             (objectsDuringScan vault this files).
Proof.
  revert this. induction files as [|f rest IH]; intros this; [done|].
  cbn [parsedDuringScan objectsDuringScan List.map fst snd]. by rewrite IH.
Qed.

(** With every object of a run in the cache, a new run hands out the
    same objects and leaves the scanner as it is. *)
Lemma cached_run (vault vault' : Vault) (files : list TFile)
    (this this' : HabitScanner) :
  Forall (fun p => cached this' (fst p) (snd p))
         (objectsDuringScan vault this files) ->
  objectsDuringScan vault' this' files = objectsDuringScan vault this files
  /\ visit vault' files this' = this'.
Proof.
  revert this. induction files as [|f rest IH]; intros this Hall; [done|].
  cbn [objectsDuringScan] in *. inversion Hall as [|? ? Hf Hrest]; subst.
  cbn [fst snd] in Hf. rewrite (cached_hit vault' this' f _ Hf). cbn [fst snd].
  destruct (IH _ Hrest) as [-> Hv]. split; [done|].
  unfold visit in *. cbn [fold_left]. rewrite (cached_hit vault' this' f _ Hf).
  exact Hv.
Qed.

Lemma visit_cached (vault : Vault) (files : list TFile) (this : HabitScanner) :
  NoDup (List.map path files) ->
  Forall (fun p => cached (visit vault files this) (fst p) (snd p))
         (objectsDuringScan vault this files).
Proof.
  revert this. induction files as [|f rest IH]; intros this Hnd; [constructor|].
  cbn [List.map] in Hnd. apply NoDup_cons in Hnd as [Hf Hnd].
  cbn [objectsDuringScan].
  change (visit vault (f :: rest) this)
    with (visit vault rest (fst (getParsedFile vault this f))).
  constructor; [|by apply IH].
  cbn [fst snd]. unfold cached.
  rewrite visit_other_paths; [apply getParsedFile_cached|].
  apply List.Forall_forall. intros g Hg Heq. apply Hf.
  rewrite <- Heq. by apply list_elem_of_In, in_map.
Qed.

Lemma NoDup_map_filter {A B} (f : A -> B) (p : A -> bool) (l : list A) :
  NoDup (List.map f l) -> NoDup (List.map f (List.filter p l)).
Proof.
  induction l as [|x l IH]; [done|]. cbn [List.map List.filter].
  intros [Hx Hl]%NoDup_cons. destruct (p x); [|by apply IH].
  cbn [List.map]. apply NoDup_cons. split; [|by apply IH].
  intros Hin. apply Hx. apply list_elem_of_In in Hin.
  apply list_elem_of_In. apply in_map_iff in Hin as (y & Hy & [Hin _]%filter_In).
  apply in_map_iff. by exists y.
Qed.

(** X24.  A scan repeated right away, the files having the paths and
    modification times they had, reads no file and parses nothing: it
    leaves the scanner as the first scan left it, and answers the result
    of the first scan, whatever the files now hold. *)
Theorem scan_again_from_cache
    (vault vault' : Vault) (this : HabitScanner) (currentFile : TFile)
    (range : RangeResolution.t) :
  NoDup (List.map path (getMarkdownFiles vault)) ->
  getMarkdownFiles vault' = getMarkdownFiles vault ->
  scan vault' (fst (scan vault this currentFile range)) currentFile range
  = scan vault this currentFile range.
Proof.
  intros Hnd Hsame.
  set (files := getFilesForRange vault currentFile (RangeResolution.type range)).
  assert (getFilesForRange vault' currentFile (RangeResolution.type range)
          = files) as Hfiles
    by (unfold files, getFilesForRange; by rewrite Hsame).
  assert (NoDup (List.map path files)) as Hnd'.
  { unfold files, getFilesForRange.
    destruct (String.eqb _ "week").
    - destruct (shouldIgnoreFile _); cbn; [constructor|].
      apply NoDup_singleton.
    - destruct (String.eqb _ "month"); by repeat apply NoDup_map_filter. }
  unfold scan. rewrite Hfiles. fold files.
  rewrite !scanFiles_parsed. cbn [fst].
  destruct (cached_run vault vault' files this (visit vault files this)
              (visit_cached vault files this Hnd')) as [Hobj Hvisit].
  rewrite Hvisit, !objects_contents, Hobj. reflexivity.
Qed.

End ScanAndCache.

Lemma scan_value_has_candidate_witness :
  exists c,
    In c (default []
            (ScanResult.candidatesByDate
               (snd (scan (tz:=UTCZone) weekVault newScanner weekNote weekRange))
               !! "2026-02-10"))
    /\ "workout" ∈ ScanCandidate.habitsWithData c.
Proof.
  destruct (scan_value_has_candidate (tz:=UTCZone) weekVault newScanner weekNote
              weekRange "workout" "2026-02-10" reach_new)
    as (c & Hc & Hh & _).
  - vm_compute. by eexists.
  - exists c. split; [exact Hc|exact Hh].
Defined.

Lemma scan_again_from_cache_witness :
  scan (tz:=UTCZone) (sampleVault "habit-a::2")
       (fst (scan (tz:=UTCZone) (sampleVault "habit-a::1") newScanner
                  sampleNote weekRange))
       sampleNote weekRange
  = scan (tz:=UTCZone) (sampleVault "habit-a::1") newScanner sampleNote
         weekRange.
Proof.
  apply (scan_again_from_cache (tz:=UTCZone) (sampleVault "habit-a::1")
           (sampleVault "habit-a::2") newScanner sampleNote weekRange).
  - apply NoDup_singleton.
  - reflexivity.
Defined.

(** ** Configured habits (renderer.ts, [normalizeConfig] and
    [resolveHabitList]) *)

Section ConfiguredHabits.

Lemma pushIf_nil (cond : bool) (message : string) (errors : list string) :
  pushIf cond message errors = [] -> cond = false /\ errors = [].
Proof.
  unfold pushIf. destruct cond; [|done].
  intros H. by apply app_eq_nil in H as [_ ?].
Qed.

Lemma existsb_eqb_In (x : string) (l : list string) :
  existsb (String.eqb x) l = true <-> In x l.
Proof.
  rewrite existsb_exists. split.
  - by intros (y & Hy & ->%String.eqb_eq).
  - intros Hx. exists x. split; [done|apply String.eqb_refl].
Qed.

Lemma dedupeFrom_spec (seen l : list string) :
  NoDup (dedupeFrom seen l)
  /\ (forall x, In x (dedupeFrom seen l) <-> In x l /\ ~ In x seen).
Proof.
  revert seen. induction l as [|x l IH]; intros seen.
  - split; [constructor|]. intros y. cbn. tauto.
  - cbn [dedupeFrom].
    destruct (existsb (String.eqb x) seen) eqn:Hx.
    + apply existsb_eqb_In in Hx. destruct (IH seen) as [Hnd Hin].
      split; [done|]. intros y. rewrite Hin. cbn. split; [tauto|].
      intros [[<-|?] ?]; tauto.
    + assert (~ In x seen) as Hnx
        by (intros Hin; apply existsb_eqb_In in Hin; congruence).
      destruct (IH (x :: seen)) as [Hnd Hin]. split.
      * apply NoDup_cons. split; [|done].
        rewrite list_elem_of_In, Hin. cbn. tauto.
      * intros y. cbn. rewrite Hin. cbn. split.
        -- intros [<-|[? ?]]; tauto.
        -- intros [[<-|?] ?]; [tauto|].
           destruct (String.eqb_spec x y) as [->|Hne]; tauto.
Qed.

Lemma dedupeFrom_NoDup (seen l : list string) :
  NoDup l -> Forall (fun x => ~ In x seen) l -> dedupeFrom seen l = l.
Proof.
  revert seen. induction l as [|x l IH]; intros seen Hnd Hall; [done|].
  apply NoDup_cons in Hnd as [Hx Hnd].
  inversion Hall as [|? ? Hxs Hrest]; subst. cbn [dedupeFrom].
  destruct (existsb (String.eqb x) seen) eqn:He.
  - apply existsb_eqb_In in He. done.
  - f_equal. apply IH; [done|].
    apply List.Forall_forall. intros y Hy [<-|Hin].
    + apply Hx. by apply list_elem_of_In.
    + rewrite List.Forall_forall in Hrest. by apply (Hrest y).
Qed.

Lemma filter_all {A} (p : A -> bool) (l : list A) :
  Forall (fun x => p x = true) l -> List.filter p l = l.
Proof.
  induction 1 as [|x l Hx _ IH]; [done|]. cbn. by rewrite Hx, IH.
Qed.

Lemma filter_none {A} (p : A -> bool) (l : list A) :
  List.length (List.filter (fun x => negb (p x)) l) = 0%nat ->
  Forall (fun x => p x = true) l.
Proof.
  induction l as [|x l IH]; [constructor|]. cbn.
  destruct (p x) eqn:Hx; cbn; [|done]. intros Hl. constructor; auto.
Qed.

(** What a configuration that [normalizeConfig] accepts holds: a range
    type that is one of the three, a list of habits without repetition,
    all of them in lower snake case and none of them empty, not empty
    itself in the list mode, and at least one threshold. *)
Lemma normalizeConfig_accepted (input : HeatmapBlockConfig.t)
    (config : NormalizedConfig.t) :
  normalizeConfig input = Ok config ->
  let habits := NormalizedConfig.habits config in
  In (NormalizedConfig.type (NormalizedConfig.range config))
     ["week"; "month"; "year"]
  /\ NoDup (NormalizedConfig.list habits)
  /\ Forall (fun h => isLowerSnakeCase h = true) (NormalizedConfig.list habits)
  /\ (NormalizedConfig.mode habits = ModeList ->
      NormalizedConfig.list habits <> [])
  /\ NormalizedConfig.thresholds
       (NormalizedConfig.numeric (NormalizedConfig.colors config)) <> [].
Proof.
  intros Hok. pose proof (normalizeConfig_thresholds_nonempty _ _ Hok) as Hth.
  revert Hok. unfold normalizeConfig.
  destruct (if (0 <? List.length _)%nat then _ else _) as [thresholds errors].
  set (list := List.filter _ (List.map trim _)).
  set (mode := default "auto" _).
  set (type := default "week" _).
  match goal with
  | |- (if (0 <? List.length ?e)%nat then _ else _) = _ -> _ =>
      destruct e as [|? ?] eqn:Herrors; [|done]
  end.
  cbn [List.length Nat.ltb Nat.leb]. intros [= <-].
  cbn [NormalizedConfig.habits NormalizedConfig.list NormalizedConfig.mode
       NormalizedConfig.range NormalizedConfig.type].
  cbn [NormalizedConfig.range NormalizedConfig.type] in Herrors.
  apply pushIf_nil in Herrors as [Htype Herrors].
  apply pushIf_nil in Herrors as [Hinvalid Herrors].
  apply pushIf_nil in Herrors as [Hempty Herrors].
  apply pushIf_nil in Herrors as [Hmode Herrors].
  destruct (dedupeFrom_spec [] list) as [Hnd Hin].
  split; [|split; [done|split; [|split; [|done]]]].
  - fold type in Htype. revert Htype.
    destruct (String.eqb_spec type "week") as [->|_]; [by left|].
    destruct (String.eqb_spec type "month") as [->|_]; [by right; left|].
    destruct (String.eqb_spec type "year") as [->|_]; [by right; right; left|].
    done.
  - apply Nat.ltb_ge in Hinvalid.
    assert (List.length (List.filter (fun h => negb (isLowerSnakeCase h)) list)
            = 0%nat) as Hzero by lia.
    apply filter_none in Hzero. rewrite List.Forall_forall in Hzero.
    apply List.Forall_forall. intros h Hh. apply Hzero. by apply Hin in Hh as [? _].
  - destruct (String.eqb mode "list") eqn:Hlist; [|done]. intros _.
    cbn [andb] in Hempty. apply Nat.eqb_neq in Hempty.
    destruct list as [|h l] eqn:Hl; [done|].
    intros Hnil. assert (In h (dedupeFrom [] (h :: l))) as Hh
      by (apply Hin; split; [by left|by intros []]).
    rewrite Hnil in Hh. done.
Qed.

(** X25.  A configuration that [normalizeConfig] accepts has a range type
    among week, month and year, habits without repetition that are all
    in lower snake case, at least one habit in the list mode, and at
    least one threshold. *)
Theorem normalizeConfig_accepted_config (input : HeatmapBlockConfig.t)
    (config : NormalizedConfig.t) :
  normalizeConfig input = Ok config ->
  let habits := NormalizedConfig.habits config in
  In (NormalizedConfig.type (NormalizedConfig.range config))
     ["week"; "month"; "year"]
  /\ NoDup (NormalizedConfig.list habits)
  /\ Forall (fun h => isLowerSnakeCase h = true) (NormalizedConfig.list habits)
  /\ (NormalizedConfig.mode habits = ModeList ->
      NormalizedConfig.list habits <> [])
  /\ NormalizedConfig.thresholds
       (NormalizedConfig.numeric (NormalizedConfig.colors config)) <> [].
Proof. exact (normalizeConfig_accepted input config). Qed.

(** X26.  In the list mode the habits to draw are the habits of the accepted
    configuration, in their order, whatever the scan has found; there
    is at least one. *)
Theorem resolveHabitList_listed
    (sortByLocale : gset string -> list string)
    (input : HeatmapBlockConfig.t) (config : NormalizedConfig.t)
    (scan : ScanResult.t) :
  normalizeConfig input = Ok config ->
  NormalizedConfig.mode (NormalizedConfig.habits config) = ModeList ->
  resolveHabitList sortByLocale config scan
  = NormalizedConfig.list (NormalizedConfig.habits config)
  /\ resolveHabitList sortByLocale config scan <> [].
Proof.
  intros Hok Hmode.
  destruct (normalizeConfig_accepted _ _ Hok) as (_ & Hnd & Hall & Hne & _).
  cbv zeta in Hnd, Hall, Hne.
  assert (resolveHabitList sortByLocale config scan
          = NormalizedConfig.list (NormalizedConfig.habits config)) as Heq.
  { unfold resolveHabitList. rewrite Hmode.
    rewrite filter_all by done. apply dedupeFrom_NoDup; [done|].
    apply List.Forall_forall. by intros x _ []. }
  split; [done|]. rewrite Heq. by apply Hne.
Qed.

End ConfiguredHabits.

Definition listedHabits : HeatmapBlockConfig.t :=
  {| HeatmapBlockConfig.range := None;
     HeatmapBlockConfig.habits :=
       Some {| HeatmapBlockConfig.mode := Some "list";
               HeatmapBlockConfig.list := Some [" run "; "read"; "run"] |};
     HeatmapBlockConfig.colors := None;
     HeatmapBlockConfig.display := None |}.

Lemma normalizeConfig_accepted_config_witness :
  exists config,
    normalizeConfig listedHabits = Ok config
    /\ NoDup (NormalizedConfig.list (NormalizedConfig.habits config)).
Proof.
  destruct (normalizeConfig listedHabits) as [config|errors] eqn:Hn;
    [|vm_compute in Hn; discriminate Hn].
  exists config. split; [reflexivity|].
  by destruct (normalizeConfig_accepted_config listedHabits config Hn)
    as (_ & Hnd & _).
Defined.

Lemma resolveHabitList_listed_witness :
  exists config,
    normalizeConfig listedHabits = Ok config
    /\ resolveHabitList (fun _ => []) config
         {| ScanResult.dates := []; ScanResult.valuesByHabit := ∅;
            ScanResult.habitsFound := ∅; ScanResult.candidatesByDate := ∅;
            ScanResult.scannedFiles := [] |}
       = ["run"; "read"].
Proof.
  destruct (normalizeConfig listedHabits) as [config|errors] eqn:Hn;
    [|vm_compute in Hn; discriminate Hn].
  exists config. split; [reflexivity|].
  destruct (resolveHabitList_listed (fun _ => []) listedHabits config
              {| ScanResult.dates := []; ScanResult.valuesByHabit := ∅;
                 ScanResult.habitsFound := ∅; ScanResult.candidatesByDate := ∅;
                 ScanResult.scannedFiles := [] |} Hn) as [Heq _].
  - vm_compute in Hn. by injection Hn as <-.
  - rewrite Heq. vm_compute in Hn. by injection Hn as <-.
Defined.

(** ** The nearest heading (renderer.ts, [findNearestHeading]) *)

(** The distance in time from the heading of a line to a date, when
    the line is the heading of another date. *)
Definition headingDistance {tz : TimeZone} (date : string) (target : Date)
    (line : string) : option Z :=
  match parseDateHeading line with
  | Some iso =>
      if String.eqb iso date then None
      else
        match parseIsoDate iso with
        | Some headingDate =>
            match getTime headingDate, getTime target with
            | Some h, Some t => Some (Z.abs (h - t))
            | _, _ => None
            end
        | None => None
        end
  | None => None
  end.

Section NavigationFacts.
Context {tz : TimeZone}.
Variable vault : Vault.

(** What the loop of [findNearestHeading] keeps true, [seen] being the
    lines gone through. *)
Definition nearestInvariant (date : string) (target : Date)
    (seen : list (Z * string)) (st : NearestState) : Prop :=
  match exactLine st with
  | Some l => head (headingLinesOf date seen) = Some l
  | None =>
      headingLinesOf date seen = []
      /\ (nearestDiff st <= MAX_SAFE_INTEGER)%Z
      /\ (forall i line d,
            In (i, line) seen -> headingDistance date target line = Some d ->
            (nearestDiff st <= d)%Z)
      /\ (forall l, nearestLine st = Some l ->
            exists line,
              In ((l - 1)%Z, line) seen
              /\ headingDistance date target line = Some (nearestDiff st))
  end.

Lemma headingLinesOf_app (date : string) (a b : list (Z * string)) :
  headingLinesOf date (a ++ b)
  = (headingLinesOf date a ++ headingLinesOf date b)%list.
Proof. unfold headingLinesOf. by rewrite List.filter_app, List.map_app. Qed.

(** The three ways a turn of the loop can go. *)
Lemma nearestStep_cases (date : string) (target : Date) (st : NearestState)
    (i : Z) (line : string) :
  exactLine st = None ->
  (parseDateHeading line = Some date
   /\ nearestStep date target st (i, line)
      = {| exactLine := Some (i + 1)%Z; nearestLine := nearestLine st;
           nearestDiff := nearestDiff st |})
  \/ (parseDateHeading line <> Some date
      /\ headingDistance date target line = None
      /\ nearestStep date target st (i, line) = st)
  \/ (parseDateHeading line <> Some date
      /\ exists d,
           headingDistance date target line = Some d
           /\ nearestStep date target st (i, line)
              = if (d <? nearestDiff st)%Z
                then {| exactLine := exactLine st;
                        nearestLine := Some (i + 1)%Z;
                        nearestDiff := d |}
                else st).
Proof.
  intros Hexact. unfold nearestStep, headingDistance, parseDateHeading.
  rewrite Hexact. unfold headingToIso.
  destruct (matchDateHeading line) as [dateMatch|]; [|by right; left].
  destruct (normalizeIsoDate (replaceUnit "." "-" dateMatch)) as [iso|];
    [|by right; left].
  destruct (String.eqb_spec iso date) as [->|Hne]; [by left|].
  assert (Some iso <> Some date) as Hother by congruence.
  destruct (parseIsoDate iso) as [headingDate|]; [|by right; left].
  destruct (getTime headingDate) as [h|]; [|by right; left].
  destruct (getTime target) as [t|]; [|by right; left].
  right; right. split; [done|]. eexists. split; reflexivity.
Qed.

Lemma nearestStep_left (date : string) (target : Date) (st : NearestState)
    (rest : list (Z * string)) :
  is_Some (exactLine st) ->
  fold_left (nearestStep date target) rest st = st.
Proof.
  intros [l Hl]. induction rest as [|[i line] rest IH]; [done|].
  cbn [fold_left]. unfold nearestStep at 2. by rewrite Hl.
Qed.

Lemma nearestStep_invariant (date : string) (target : Date)
    (seen : list (Z * string)) (st : NearestState) (p : Z * string) :
  nearestInvariant date target seen st ->
  nearestInvariant date target (seen ++ [p]) (nearestStep date target st p).
Proof.
  destruct p as [i line]. unfold nearestInvariant.
  destruct (exactLine st) as [l|] eqn:Hexact.
  { assert (nearestStep date target st (i, line) = st) as ->
      by (unfold nearestStep; by rewrite Hexact).
    rewrite Hexact. intros Hhead. rewrite headingLinesOf_app.
    destruct (headingLinesOf date seen); [discriminate Hhead|exact Hhead]. }
  intros (Hnone & Hmax & Hmin & Hline).
  assert (headingLinesOf date [(i, line)]
          = if bool_decide (parseDateHeading line = Some date)
            then [(i + 1)%Z] else []) as Hone.
  { unfold headingLinesOf. cbn [List.filter snd].
    by destruct (bool_decide _). }
  destruct (nearestStep_cases date target st i line Hexact)
    as [[Hd ->]|[(Hother & Hdist & ->)|(Hother & d & Hdist & ->)]].
  - cbn [exactLine]. rewrite headingLinesOf_app, Hnone, Hone.
    by rewrite bool_decide_eq_true_2.
  - rewrite Hexact. split; [|split; [done|split]].
    + rewrite headingLinesOf_app, Hnone, Hone.
      by rewrite bool_decide_eq_false_2.
    + intros i0 line0 d [Hin|[[= <- <-]|[]]]%in_app_or Hd.
      * by eapply Hmin.
      * congruence.
    + intros l Hl. destruct (Hline l Hl) as (line0 & Hin & Hd).
      exists line0. split; [|done]. apply in_or_app. by left.
  - assert (headingLinesOf date (seen ++ [(i, line)]) = []) as Hnone'.
    { rewrite headingLinesOf_app, Hnone, Hone.
      by rewrite bool_decide_eq_false_2. }
    destruct (Z.ltb_spec d (nearestDiff st)) as [Hlt|Hge].
    + rewrite Hexact. cbn [nearestLine nearestDiff].
      split; [done|]. split; [lia|]. split.
      * intros i0 line0 d0 [Hin|[[= <- <-]|[]]]%in_app_or Hd.
        -- pose proof (Hmin _ _ _ Hin Hd). lia.
        -- rewrite Hdist in Hd. injection Hd as <-. lia.
      * intros l [= <-]. exists line. split; [|done].
        apply in_or_app. right. left. f_equal. lia.
    + rewrite Hexact. split; [done|]. split; [done|]. split.
      * intros i0 line0 d0 [Hin|[[= <- <-]|[]]]%in_app_or Hd.
        -- by eapply Hmin.
        -- rewrite Hdist in Hd. injection Hd as <-. lia.
      * intros l Hl. destruct (Hline l Hl) as (line0 & Hin & Hd).
        exists line0. split; [|done]. apply in_or_app. by left.
Qed.

(** The distance kept goes down only, and stays where it started as
    long as no line is kept. *)
Lemma nearestLoop_diff (date : string) (target : Date)
    (rest : list (Z * string)) (st : NearestState) :
  let r := fold_left (nearestStep date target) rest st in
  (nearestDiff r <= nearestDiff st)%Z
  /\ (nearestLine st = None -> exactLine r = None ->
      forall l, nearestLine r = Some l -> (nearestDiff r < nearestDiff st)%Z)
  /\ (nearestLine st = None -> nearestLine r = None ->
      nearestDiff r = nearestDiff st).
Proof.
  revert st. induction rest as [|[i line] rest IH]; intros st.
  - cbn. split; [lia|]. split; [|done]. intros Hn _ l. by rewrite Hn.
  - cbn [fold_left]. cbv zeta.
    destruct (exactLine st) as [l0|] eqn:Hexact.
    { assert (nearestStep date target st (i, line) = st) as ->
        by (unfold nearestStep; by rewrite Hexact).
      apply IH. }
    destruct (IH (nearestStep date target st (i, line))) as (H1 & H2 & H3).
    cbv zeta in H1, H2, H3.
    destruct (nearestStep_cases date target st i line Hexact)
      as [[Hd Hs]|[(Hother & Hdist & Hs)|(Hother & d & Hdist & Hs)]];
      rewrite Hs in *; cbn [nearestDiff nearestLine exactLine] in *.
    + rewrite nearestStep_left in * by (by eexists).
      cbn [nearestDiff nearestLine exactLine] in *.
      split; [lia|]. split; [done|done].
    + done.
    + destruct (Z.ltb_spec d (nearestDiff st)) as [Hlt|Hge]; [|done].
      cbn [nearestDiff nearestLine exactLine] in *.
      split; [lia|]. split.
      * intros _ _ l _. lia.
      * intros Hn Hr. exfalso.
        set (st' := {| exactLine := exactLine st;
                       nearestLine := Some (i + 1)%Z; nearestDiff := d |}) in *.
        assert (forall rest' s,
                  is_Some (nearestLine s) ->
                  is_Some (nearestLine
                             (fold_left (nearestStep date target) rest' s)))
          as Hkeep.
        { induction rest' as [|[i' l'] rest' IH']; intros s Hs'; [done|].
          cbn [fold_left]. apply IH'. unfold nearestStep.
          destruct (exactLine s); [done|].
          repeat case_match; try done; by eexists. }
        destruct (Hkeep rest st' ltac:(by eexists)) as [l Hl].
        by rewrite Hl in Hr.
Qed.

Lemma nearestLoop_invariant (date : string) (target : Date)
    (rest seen : list (Z * string)) (st : NearestState) :
  nearestInvariant date target seen st ->
  nearestInvariant date target (seen ++ rest)
    (fold_left (nearestStep date target) rest st).
Proof.
  revert seen st. induction rest as [|p rest IH]; intros seen st Hst.
  - by rewrite app_nil_r.
  - cbn [fold_left].
    replace (seen ++ p :: rest)%list with ((seen ++ [p]) ++ rest)%list
      by (by rewrite <- List.app_assoc).
    by apply IH, nearestStep_invariant.
Qed.

(** What [findNearestHeading] answers for a date that parses: the
    first heading of the date when the file has one; otherwise the
    heading of another date nearest in time, the first one of several
    at the same distance; and nothing when the file has no such
    heading within reach. *)
Lemma findNearestHeading_spec (f : TFile) (date : string) (target : Date) :
  parseIsoDate date = Some target ->
  let lines := indexed (splitLines (cachedRead vault f)) in
  match findNearestHeading vault f date with
  | Some c =>
      ScanCandidate.file c = f
      /\ ScanCandidate.habitsWithData c = ∅
      /\ match headingLinesOf date lines with
         | l :: _ => ScanCandidate.headingLine c = l
         | [] =>
             exists line d,
               In ((ScanCandidate.headingLine c - 1)%Z, line) lines
               /\ headingDistance date target line = Some d
               /\ (d < MAX_SAFE_INTEGER)%Z
               /\ forall i' line' d',
                    In (i', line') lines ->
                    headingDistance date target line' = Some d' ->
                    (d <= d')%Z
         end
  | None =>
      headingLinesOf date lines = []
      /\ forall i line d,
           In (i, line) lines -> headingDistance date target line = Some d ->
           (MAX_SAFE_INTEGER <= d)%Z
  end.
Proof.
  intros Htarget lines. unfold findNearestHeading. rewrite Htarget.
  fold lines.
  set (init := {| exactLine := None; nearestLine := None;
                  nearestDiff := MAX_SAFE_INTEGER |}).
  assert (nearestInvariant date target [] init) as Hinit.
  { unfold nearestInvariant. cbn. split; [done|]. split; [lia|]. split; done. }
  pose proof (nearestLoop_invariant date target lines [] init Hinit) as Hfinal.
  cbn [app] in Hfinal. unfold nearestInvariant in Hfinal.
  destruct (nearestLoop_diff date target lines init) as (_ & Hless & Hkeep).
  cbv zeta in Hkeep, Hless. cbn [nearestDiff nearestLine init] in Hkeep, Hless.
  destruct (exactLine (fold_left _ lines init)) as [l|] eqn:Hexact.
  - cbn [ScanCandidate.file ScanCandidate.habitsWithData
         ScanCandidate.headingLine].
    split; [done|]. split; [done|].
    destruct (headingLinesOf date lines) as [|l' ls]; [done|].
    cbn in Hfinal. by injection Hfinal as ->.
  - destruct Hfinal as (Hnone & Hmax & Hmin & Hline).
    destruct (nearestLine (fold_left _ lines init)) as [l|] eqn:Hnear.
    + cbn [ScanCandidate.file ScanCandidate.habitsWithData
           ScanCandidate.headingLine].
      split; [done|]. split; [done|]. rewrite Hnone.
      destruct (Hline l eq_refl) as (line & Hin & Hd).
      exists line, (nearestDiff (fold_left (nearestStep date target) lines init)).
      split; [done|]. split; [done|]. split; [by apply Hless with l|].
      intros i' line' d' Hin' Hd'. by eapply Hmin.
    + split; [done|]. intros i line d Hin Hd.
      rewrite <- (Hkeep eq_refl eq_refl). by eapply Hmin.
Qed.

End NavigationFacts.

(** ** Navigation from a cell (renderer.ts, [pickCandidate]) *)

Section NavigationTheorems.
Context {tz : TimeZone}.
Variable vault : Vault.

(** X27.  [findNearestHeading], for a date that parses.  When the file has
    a heading of the date the answer is its first one.  Otherwise the
    answer is a heading of another date, at the least distance in time
    among the headings of the file; and there is no answer only when
    the file has no heading within reach. *)
Theorem findNearestHeading_nearest (f : TFile) (date : string) (target : Date) :
  parseIsoDate date = Some target ->
  let lines := indexed (splitLines (cachedRead vault f)) in
  match findNearestHeading vault f date with
  | Some c =>
      ScanCandidate.file c = f
      /\ ScanCandidate.habitsWithData c = ∅
      /\ match headingLinesOf date lines with
         | l :: _ => ScanCandidate.headingLine c = l
         | [] =>
             exists line d,
               In ((ScanCandidate.headingLine c - 1)%Z, line) lines
               /\ headingDistance date target line = Some d
               /\ (d < MAX_SAFE_INTEGER)%Z
               /\ forall i' line' d',
                    In (i', line') lines ->
                    headingDistance date target line' = Some d' ->
                    (d <= d')%Z
         end
  | None =>
      headingLinesOf date lines = []
      /\ forall i line d,
           In (i, line) lines -> headingDistance date target line = Some d ->
           (MAX_SAFE_INTEGER <= d)%Z
  end.
Proof. exact (findNearestHeading_spec vault f date target). Qed.

(** X28.  For a date that the parse of a file has a heading of,
    [findNearestHeading] on the text that was parsed answers the line
    that a scan records for the candidate of that date: the first
    heading of the date. *)
Theorem findNearestHeading_agrees_with_scan
    (f : TFile) (date : string) (lines : list Z) (dateSet : gset string) :
  ParsedFileData.headingLinesByDate
    (parseMarkdownHabits f (cachedRead vault f)) !! date = Some lines ->
  date ∈ dateSet ->
  exists c c',
    findNearestHeading vault f date = Some c
    /\ candidateOf dateSet f (parseMarkdownHabits f (cachedRead vault f)) date
       = Some c'
    /\ ScanCandidate.file c = ScanCandidate.file c'
    /\ ScanCandidate.headingLine c = ScanCandidate.headingLine c'
    /\ head lines = Some (ScanCandidate.headingLine c).
Proof.
  intros Hlines Hin.
  pose proof Hlines as Hof. rewrite parsed_headings in Hof.
  destruct (headingLinesOf date (indexed (splitLines (cachedRead vault f))))
    as [|l ls] eqn:Hheadings; [done|]. injection Hof as <-.
  assert (exists target, parseIsoDate date = Some target) as [target Htarget].
  { assert (In l (headingLinesOf date
                    (indexed (splitLines (cachedRead vault f))))) as Hl
      by (rewrite Hheadings; by left).
    unfold headingLinesOf in Hl.
    apply in_map_iff in Hl as ([i line] & _ & [_ Hd]%filter_In).
    apply bool_decide_eq_true in Hd. cbn [snd] in Hd.
    apply parseDateHeading_normal in Hd.
    destruct (parseIsoDate_Some date date Hd)
      as (? & ? & ? & ? & _ & Hp & _). by eexists. }
  pose proof (findNearestHeading_spec vault f date target Htarget) as Hspec.
  cbv zeta in Hspec. rewrite Hheadings in Hspec.
  destruct (findNearestHeading vault f date) as [c|]; [|by destruct Hspec].
  destruct Hspec as (Hfile & _ & Hline).
  unfold candidateOf. rewrite bool_decide_eq_true_2 by done. rewrite Hlines.
  eexists c, _. split; [done|]. split; [done|].
  cbn [ScanCandidate.file ScanCandidate.headingLine head default from_option id].
  by rewrite Hline.
Qed.

Lemma find_some_In {A} (p : A -> bool) (l : list A) (x : A) :
  In x l -> p x = true -> exists y, List.find p l = Some y /\ p y = true /\ In y l.
Proof.
  induction l as [|a l IH]; [done|]. intros [<-|Hin] Hp; cbn [List.find].
  - rewrite Hp. exists a. split; [done|]. split; [done|by left].
  - destruct (p a) eqn:Ha.
    + exists a. split; [done|]. split; [done|by left].
    + destruct (IH Hin Hp) as (y & Hf & Hy & Hiny). exists y.
      split; [done|]. split; [done|by right].
Qed.

(** X29.  A click on a cell that has a value.  After a scan by a scanner
    that has only cached what it parsed, [pickCandidate] answers, for
    the habit and date of a value of the result, a candidate of that
    date: in a month or a year the first scanned file with data for the
    habit, in a week the current file; its heading line is 1 or more. *)
Theorem pickCandidate_of_value
    (this : HabitScanner) (currentFile : TFile) (config : NormalizedConfig.t)
    (range : RangeResolution.t) (habit date : string) :
  Reachable this ->
  let result := snd (scan vault this currentFile range) in
  let model :=
    {| RenderContextModel.currentFile := currentFile;
       RenderContextModel.config := config;
       RenderContextModel.range := range;
       RenderContextModel.scan := result |} in
  is_Some (lookup2 (ScanResult.valuesByHabit result) habit date) ->
  exists c,
    pickCandidate vault model habit date = Some c
    /\ In c (default [] (ScanResult.candidatesByDate result !! date))
    /\ In (ScanCandidate.file c) (ScanResult.scannedFiles result)
    /\ (1 <= ScanCandidate.headingLine c)%Z
    /\ (RangeResolution.type range <> "week" ->
        habit ∈ ScanCandidate.habitsWithData c)
    /\ (RangeResolution.type range = "week" ->
        ScanCandidate.file c = currentFile).
Proof.
  intros Hreach result model Hs.
  destruct (scan_value_source vault this currentFile range habit date Hs)
    as (Hd & f & parsed & Hin & Hv).
  destruct (scan_candidates_list vault this currentFile range date)
    as (Hlist & _ & Hfiles).
  fold result in Hlist, Hfiles.
  pose proof (parsedDuringScan_parsed vault
                (getFilesForRange vault currentFile (RangeResolution.type range))
                this (reachable_parsed this Hreach)) as Hparsed.
  assert (forall c,
            In c (default [] (ScanResult.candidatesByDate result !! date)) ->
            (1 <= ScanCandidate.headingLine c)%Z) as Hline.
  { intros c Hc. rewrite Hlist in Hc.
    apply list_elem_of_In, list_elem_of_omap in Hc as ([f0 p0] & Hp0 & Hc).
    apply list_elem_of_In in Hp0.
    rewrite List.Forall_forall in Hparsed.
    destruct (Hparsed _ Hp0) as (f' & text & Hp). cbn [fst snd] in *.
    unfold candidateOf in Hc. case_bool_decide; [|done].
    destruct (ParsedFileData.headingLinesByDate p0 !! date) as [lines|] eqn:Hl;
      [|done].
    injection Hc as <-. cbn [ScanCandidate.headingLine].
    rewrite Hp, parsed_headings in Hl. unfold headingLinesOf in Hl.
    destruct (List.filter _ _) as [|[i l] rest] eqn:Hfilter; [done|].
    cbn [List.map fst] in Hl. injection Hl as <-.
    cbn [head default from_option id].
    assert (In (i, l) (indexed (splitLines text))) as Hi.
    { eapply (proj1 (filter_In _ _ _)). rewrite Hfilter. by left. }
    unfold indexed in Hi. apply in_combine_l in Hi.
    apply list_elem_of_In, elem_of_seqZ in Hi. lia. }
  destruct (scan_candidate_of_value vault this currentFile range habit date
              Hreach Hs) as (c0 & Hc0 & Hh0).
  fold result in Hc0.
  rewrite List.Forall_forall in Hfiles.
  unfold pickCandidate. cbn [RenderContextModel.scan RenderContextModel.range
                             RenderContextModel.currentFile model].
  destruct (String.eqb_spec (RangeResolution.type range) "week") as [Hweek|Hother].
  - (* a week: the current file is the only scanned file *)
    assert (forall c,
              In c (default [] (ScanResult.candidatesByDate result !! date)) ->
              ScanCandidate.file c = currentFile) as Hcur.
    { intros c Hc. specialize (Hfiles c Hc).
      unfold result, scan in Hfiles. rewrite scanFiles_parsed in Hfiles.
      cbn [snd ScanResult.scannedFiles] in Hfiles.
      unfold getFilesForRange in Hfiles. rewrite Hweek in Hfiles.
      change (String.eqb "week" "week") with true in Hfiles. cbv iota in Hfiles.
      destruct (shouldIgnoreFile (path currentFile)); [done|].
      by destruct Hfiles as [<-|[]]. }
    destruct (ScanResult.candidatesByDate result !! date) as [cands|] eqn:Hcands;
      [|done].
    cbn [default from_option id] in *.
    destruct (find_some_In
                (fun candidate =>
                   String.eqb (path (ScanCandidate.file candidate))
                              (path currentFile)) cands c0 Hc0)
      as (c & Hfind & _ & Hc).
    { rewrite (Hcur c0 Hc0). apply String.eqb_refl. }
    rewrite Hfind. exists c. split; [done|]. split; [done|].
    split; [by apply Hfiles|]. split; [by apply Hline|].
    split; [done|]. intros _. by apply Hcur.
  - destruct (find_some_In
                (fun candidate =>
                   bool_decide (habit ∈ ScanCandidate.habitsWithData candidate))
                _ c0 Hc0) as (c & Hfind & Hhabit & Hc).
    { by apply bool_decide_eq_true_2. }
    rewrite Hfind. exists c. split; [done|]. split; [done|].
    split; [by apply Hfiles|]. split; [by apply Hline|].
    split; [|done]. intros _. by apply bool_decide_eq_true in Hhabit.
Qed.

End NavigationTheorems.

Definition twoHeadings : string :=
  "## 2026.02.10" ++ lineFeed ++ "habit-workout::20" ++ lineFeed
  ++ "## 2026.02.20" ++ lineFeed ++ "## 2026.02.10".

Lemma findNearestHeading_nearest_witness :
  match findNearestHeading (tz:=UTCZone) (sampleVault twoHeadings) sampleNote
          "2026-02-19" with
  | Some c => ScanCandidate.file c = sampleNote
  | None => True
  end.
Proof.
  pose proof (findNearestHeading_nearest (tz:=UTCZone) (sampleVault twoHeadings)
                sampleNote "2026-02-19"
                (newDate (tz:=UTCZone) (Some 2026%Z) (Some 1%Z) (Some 19%Z))
                eq_refl) as H.
  cbv zeta in H.
  destruct (findNearestHeading (tz:=UTCZone) (sampleVault twoHeadings)
              sampleNote "2026-02-19") as [c|]; [|exact I].
  exact (proj1 H).
Defined.

Lemma findNearestHeading_agrees_with_scan_witness :
  exists c,
    findNearestHeading (tz:=UTCZone) (sampleVault twoHeadings) sampleNote
      "2026-02-10" = Some c
    /\ Some (ScanCandidate.headingLine c) = Some 1%Z.
Proof.
  destruct (findNearestHeading_agrees_with_scan (tz:=UTCZone)
              (sampleVault twoHeadings) sampleNote "2026-02-10" [1; 4]%Z
              {["2026-02-10"]} eq_refl ltac:(set_solver))
    as (c & c' & Hc & _ & _ & _ & Hhead).
  exists c. split; [exact Hc|]. symmetry. exact Hhead.
Defined.

Lemma pickCandidate_of_value_witness :
  exists c,
    pickCandidate (tz:=UTCZone) weekVault
      {| RenderContextModel.currentFile := weekNote;
         RenderContextModel.config := DEFAULT_CONFIG;
         RenderContextModel.range := weekRange;
         RenderContextModel.scan :=
           snd (scan (tz:=UTCZone) weekVault newScanner weekNote weekRange) |}
      "workout" "2026-02-10" = Some c
    /\ ScanCandidate.file c = weekNote.
Proof.
  destruct (pickCandidate_of_value (tz:=UTCZone) weekVault newScanner weekNote
              DEFAULT_CONFIG weekRange "workout" "2026-02-10" reach_new)
    as (c & Hc & _ & _ & _ & _ & Hfile).
  - vm_compute. by eexists.
  - exists c. split; [exact Hc|]. by apply Hfile.
Defined.
